(** * Conformation dataset engine (utils/datasets.py)

    A shallow embedding of the index splitter, the graph record builders,
    the spatial subgraph sampler and the conformer packer, followed by the
    properties established about them.

    Conventions.
    - Python and torch integers are [Z]; int64 tensor arithmetic that can
      wrap is written with [int64].
    - A call either returns or raises: [outcome A].  A Python [return None]
      is [Returned None] at type [outcome (option A)].
    - One-dimensional tensors are lists; the [2 x E] tensor [edge_index] is
      the list of its [E] columns, [edge_index[0]] and [edge_index[1]] being
      [row0] and [row1] of it.
    - Floating point arithmetic and the pseudo-random shuffle, sort and bond
      table are interfaces ([TorchFloat], [SklearnShuffle], [TorchSort],
      [BondTable]): they belong to torch, sklearn and the chem module.  So
      are numpy's seeded permutation ([NumpyPermutation]) and the chem
      module's [mol_to_smiles] ([ChemSmiles]).
    - [Data.pos] and [Data.edge_index] are properties of torch_geometric's
      [Data]: reading one the object does not have gives [None], and the
      exception comes from what is done with the [None].  Any other
      attribute the object does not have raises AttributeError when it is
      read. *)

From Stdlib Require Import ZArith Lia String Ascii.
From stdpp Require Import prelude strings sorting gmap.

Local Open Scope Z_scope.

(** ** Python and torch primitives *)

Module Py.

Inductive exn : Set :=
  | IndexError | ValueError | AssertionError | RuntimeError | AttributeError
  | TypeError.

Inductive outcome (A : Type) : Type :=
  | Returned (a : A)
  | Raised (e : exn).
Global Arguments Returned {A} a.
Global Arguments Raised {A} e.

Definition bind {A B} (m : outcome A) (k : A -> outcome B) : outcome B :=
  match m with
  | Returned a => k a
  | Raised e => Raised e
  end.

Notation "'let!' x := m 'in' k" := (bind m (fun x => k))
  (at level 10, x name, m at level 100, k at level 200).
Notation "'let!' ' pat := m 'in' k" :=
  (bind m (fun x => match x with pat => k end))
  (at level 10, pat pattern, m at level 100, k at level 200, only parsing).

(** A loop that builds a list and stops at the first exception. *)
Fixpoint traverse {A B} (f : A -> outcome B) (l : list A) : outcome (list B) :=
  match l with
  | [] => Returned []
  | x :: l' => let! y := f x in let! ys := traverse f l' in Returned (y :: ys)
  end.

(** [assert c]. *)
Definition assert_ (c : bool) : outcome unit :=
  if c then Returned tt else Raised AssertionError.

(** [obj.attr] on an object whose attribute may be missing. *)
Definition getattr {A} (o : option A) : outcome A :=
  match o with
  | Some a => Returned a
  | None => Raised AttributeError
  end.

(** [x.attr] and [x[i]] for a value [x] that may be [None]: [None] has no
    attribute (AttributeError) and is not subscriptable (TypeError). *)
Definition dot {A} (x : option A) : outcome A :=
  match x with
  | Some a => Returned a
  | None => Raised AttributeError
  end.

Definition subscript {A} (x : option A) : outcome A :=
  match x with
  | Some a => Returned a
  | None => Raised TypeError
  end.

Definition len {A} (l : list A) : Z := Z.of_nat (length l).

(** [range(n)] and [torch.arange(n)]. *)
Definition arange (n : Z) : list Z := Z.of_nat <$> seq 0 (Z.to_nat n).

(** [l[i]] for an integer [i]: a negative index counts from the end, an
    index outside [-len, len) raises IndexError.  Lists and tensors agree. *)
Definition item {A} (l : list A) (i : Z) : outcome A :=
  let j := if i <? 0 then i + len l else i in
  if (0 <=? j) && (j <? len l) then
    match l !! Z.to_nat j with
    | Some x => Returned x
    | None => Raised IndexError
    end
  else Raised IndexError.

(** Bound of a slice: [PySlice_AdjustIndices] for step 1. *)
Definition slice_bound (n i : Z) : Z :=
  if i <? 0 then Z.max (i + n) 0 else Z.min i n.

(** [l[lo:hi]]; an omitted bound is [None].  Never raises. *)
Definition slice {A} (l : list A) (lo hi : option Z) : list A :=
  let n := len l in
  let a := from_option (slice_bound n) 0 lo in
  let b := from_option (slice_bound n) n hi in
  take (Z.to_nat (b - a)) (drop (Z.to_nat a) l).

(** [t[m]] for a boolean mask [m]: the entries of [t] where [m] holds, in
    order.  The mask must have the shape of [t]. *)
Fixpoint select {A} (m : list bool) (t : list A) : list A :=
  match m, t with
  | b :: m', x :: t' => if b then x :: select m' t' else select m' t'
  | _, _ => []
  end.

Definition masked {A} (t : list A) (m : list bool) : outcome (list A) :=
  if decide (length m = length t) then Returned (select m t)
  else Raised IndexError.

(** [t[idx]] for an integer tensor [idx]: element-wise [item]. *)
Definition gather {A} (t : list A) (idx : list Z) : outcome (list A) :=
  traverse (item t) idx.

(** [t[idx] = vals] for an integer tensor [idx] and [vals] of the same
    shape.  The writes are performed in order here; torch leaves the
    result unspecified when an index occurs twice, and the properties
    below that read a written tensor are about indices without
    repetition. *)
Fixpoint put {A} (t : list A) (idx : list Z) (vals : list A) : outcome (list A) :=
  match idx, vals with
  | [], [] => Returned t
  | i :: idx', v :: vals' =>
      let! _ := item t i in
      let j := if i <? 0 then i + len t else i in
      put (<[Z.to_nat j := v]> t) idx' vals'
  | _, _ => Raised RuntimeError
  end.

(** [torch.cat(tensors, 0)]: every entry must be a tensor, which [None]
    is not, and there must be one at least. *)
Definition cat {A} (tensors : list (option (list A))) : outcome (list A) :=
  let! ts := traverse subscript tensors in
  match ts with
  | [] => Raised RuntimeError
  | _ => Returned (concat ts)
  end.

(** [tensor.sum()] of a boolean tensor: the number of true entries. *)
Definition count (m : list bool) : Z := len (filter (fun b => b = true) m).

(** int64 arithmetic of long tensors wraps around. *)
Definition int64 (z : Z) : Z := (z + 2 ^ 63) mod 2 ^ 64 - 2 ^ 63.

(** [str.strip()], [str.split()] and [int(str)] on ASCII text. *)
Definition is_space (c : ascii) : bool :=
  let n := nat_of_ascii c in
  ((9 <=? n) && (n <=? 13) || (28 <=? n) && (n <=? 32))%nat.

Fixpoint lstrip (s : list ascii) : list ascii :=
  match s with
  | c :: s' => if is_space c then lstrip s' else s
  | [] => []
  end.

Definition str_strip (s : string) : string :=
  string_of_list_ascii
    (rev (lstrip (rev (lstrip (list_ascii_of_string s))))).

Fixpoint split_from (cur : list ascii) (s : list ascii) : list string :=
  match s with
  | [] =>
      match cur with
      | [] => []
      | _ => [string_of_list_ascii (rev cur)]
      end
  | c :: s' =>
      if is_space c then
        match cur with
        | [] => split_from [] s'
        | _ => string_of_list_ascii (rev cur) :: split_from [] s'
        end
      else split_from (c :: cur) s'
  end.

Definition str_split (s : string) : list string :=
  split_from [] (list_ascii_of_string s).

Definition digit (c : ascii) : option Z :=
  let n := nat_of_ascii c in
  if ((48 <=? n) && (n <=? 57))%nat then Some (Z.of_nat (n - 48)) else None.

(** Decimal digits, single underscores allowed between two digits. *)
Fixpoint digits (acc : Z) (after_digit : bool) (s : list ascii) : option Z :=
  match s with
  | [] => if after_digit then Some acc else None
  | c :: s' =>
      if Ascii.eqb c "_" then
        if after_digit then digits acc false s' else None
      else
        match digit c with
        | Some d => digits (10 * acc + d) true s'
        | None => None
        end
  end.

Definition int_of_str (s : string) : outcome Z :=
  let body := list_ascii_of_string (str_strip s) in
  let signed :=
    match body with
    | c :: ds =>
        if Ascii.eqb c "-" then Z.opp <$> digits 0 false ds
        else if Ascii.eqb c "+" then digits 0 false ds
        else digits 0 false body
    | [] => None
    end in
  match signed with
  | Some z => Returned z
  | None => Raised ValueError
  end.

End Py.
Import Py.

(** A call that either returns or raises [Exception(message)]. *)
Inductive or_exception (A : Type) : Type :=
  | Result (a : A)
  | Exception (message : string).
Global Arguments Result {A} a.
Global Arguments Exception {A} message.

(** ** Interfaces to the libraries *)

(** [sklearn.utils.shuffle(arrays, random_state=seed)] for a seed sklearn
    accepts: a list holding the same elements in a pseudo-random order
    that depends on the length and the seed only. *)
Class SklearnShuffle := {
  random_state : Type;
  shuffle : list Z -> random_state -> list Z;
  shuffle_perm : forall l seed, shuffle l seed ≡ₚ l;
}.

(** float32 tensors and the Python floats they are built from and compared
    with.  A position is a row of three float32. *)
Class TorchFloat := {
  double : Type;
  float32 : Type;
  to_float32 : double -> float32;
  fsub : float32 -> float32 -> float32;
  norm3 : float32 * float32 * float32 -> float32;
  le_scalar : float32 -> double -> bool;
}.

(** [tensor.argsort()]: the indices that put the keys in ascending order.
    The order among equal keys is not specified. *)
Class TorchSort := {
  argsort : list Z -> list Z;
  argsort_perm : forall keys, argsort keys ≡ₚ arange (len keys);
  argsort_sorted : forall keys,
    exists sorted, gather keys (argsort keys) = Returned sorted /\ Sorted Z.le sorted;
}.

(** [BOND_TYPES] of the chem module: a code for each RDKit bond type. *)
Class BondTable := {
  BondType : Type;
  BOND_TYPES : BondType -> Z;
}.

(** [np.random.seed(42); np.random.permutation(n)]: the integers below
    [n] in a pseudo-random order that depends on [n] only. *)
Class NumpyPermutation := {
  permutation : Z -> list Z;
  permutation_perm : forall n, permutation n ≡ₚ arange n;
}.

(** ** DatasetSplitter *)

Record split_dict := { train : list Z; valid : list Z; test : list Z }.

Module QM93D.
Section get_idx_split.
Context `{SklearnShuffle}.

Definition get_idx_split (data_size train_size valid_size : Z)
    (seed : random_state) : outcome split_dict :=
  let ids := shuffle (arange data_size) seed in
  let train_idx := slice ids None (Some train_size) in
  let val_idx := slice ids (Some train_size) (Some (train_size + valid_size)) in
  let test_idx := slice ids (Some (train_size + valid_size)) None in
  Returned {| train := train_idx; valid := val_idx; test := test_idx |}.

End get_idx_split.

Section get_half_split.
Context `{NumpyPermutation}.

Definition get_half_split (data_size : Z) (dataset : string)
    : or_exception (list Z) :=
  let fixed_perm := permutation data_size in
  if String.eqb dataset "qm9_second_half" then
    Result (slice fixed_perm (Some (data_size / 2)) None)
  else if String.eqb dataset "qm9_first_half" then
    Result (slice fixed_perm (Some 0) (Some (data_size / 2)))
  else Exception "Wrong dataset name".

End get_half_split.
End QM93D.

Module TheMainDataset.
Section get_idx_split.
Context `{SklearnShuffle}.

Definition get_idx_split (data_size train_size valid_size : Z)
    (seed : random_state) : outcome split_dict :=
  let ids := shuffle (arange data_size) seed in
  let train_idx := slice ids None (Some train_size) in
  let val_idx := slice ids (Some train_size) (Some (train_size + valid_size)) in
  let test_idx := slice ids (Some (train_size + valid_size)) None in
  Returned {| train := train_idx; valid := val_idx; test := test_idx |}.

End get_idx_split.
End TheMainDataset.

Module Geom.
Section get_idx_split.
Context `{SklearnShuffle}.

Definition get_idx_split (data_size train_size valid_size : Z)
    (seed : random_state) : outcome split_dict :=
  let ids := shuffle (arange data_size) seed in
  let train_idx := slice ids None (Some train_size) in
  let val_idx := slice ids (Some train_size) (Some (train_size + valid_size)) in
  let test_idx := slice ids (Some (train_size + valid_size)) None in
  Returned {| train := train_idx; valid := val_idx; test := test_idx |}.

End get_idx_split.

Section get_half_split.
Context `{NumpyPermutation}.

Definition get_half_split (data_size : Z) (dataset : string)
    : or_exception (list Z) :=
  let fixed_perm := permutation data_size in
  if String.eqb dataset "Geom_second_half" then
    Result (slice fixed_perm (Some (data_size / 2)) None)
  else if String.eqb dataset "Geom_first_half" then
    Result (slice fixed_perm (Some 0) (Some (data_size / 2)))
  else Exception "Wrong dataset name".

End get_half_split.
End Geom.

(** ** Structures and graph records *)

Section records.
Context `{TorchFloat} `{BondTable}.

(** The part of an RDKit molecule the builders read.  [MolToSmiles] is the
    string [Chem.MolToSmiles] gives for the molecule. *)
Record PDBResidueInfo := {
  GetName : string;
  GetResidueName : string;
  GetResidueNumber : Z;
}.

Record Atom := {
  GetAtomicNum : Z;
  GetPDBResidueInfo : option PDBResidueInfo;
}.

Record Bond := {
  GetBeginAtomIdx : Z;
  GetEndAtomIdx : Z;
  GetBondType : BondType;
}.

Record Conformer := {
  GetId : Z;
  GetPositions : list (double * double * double);
}.

Record Mol := {
  GetAtoms : list Atom;
  GetBonds : list Bond;
  GetConformers : list Conformer;
  MolToSmiles : string;
}.

Definition GetNumAtoms (mol : Mol) : Z := len (GetAtoms mol).
Definition GetNumConformers (mol : Mol) : Z := len (GetConformers mol).

(** [mol.GetConformer(id)]: the conformer with that id; RDKit raises
    ValueError when the molecule has none. *)
Definition GetConformer (mol : Mol) (id : Z) : outcome Conformer :=
  match filter (fun conf => GetId conf = id) (GetConformers mol) with
  | conf :: _ => Returned conf
  | [] => Raised ValueError
  end.

(** A torch_geometric [Data] object: every attribute the dataset code
    sets or reads, [None] when the object does not have it. *)
Record Data := {
  atom_type : option (list Z);
  pos : option (list (float32 * float32 * float32));
  edge_index : option (list (Z * Z));
  edge_type : option (list Z);
  is_alpha : option (list bool);
  rdmol : option Mol;
  name : option string;
  is_sidechain : option (list bool);
  atom2res : option (list Z);
  atom2alpha_index : option (list Z);
  smiles : option string;
  idx : option Z;
  totalenergy : option (list float32);
  boltzmannweight : option (list float32);
  pos_ref : option (list (float32 * float32 * float32));
  num_pos_ref : option (list Z);
}.

Definition row0 (edge_index : list (Z * Z)) : list Z := fst <$> edge_index.
Definition row1 (edge_index : list (Z * Z)) : list Z := snd <$> edge_index.

End records.

(** ** GraphRecordBuilder *)

Section builder.
Context `{TorchFloat} `{BondTable} `{TorchSort}.

(** The loop over [mol.GetBonds()]: [row], [col] and [edge_type] hold two
    entries per bond. *)
Fixpoint bond_edges (bonds : list Bond) : list Z * list Z * list Z :=
  match bonds with
  | [] => ([], [], [])
  | bond :: rest =>
      let '(row, col, edge_type) := bond_edges rest in
      let start := GetBeginAtomIdx bond in
      let end_ := GetEndAtomIdx bond in
      let t := BOND_TYPES (GetBondType bond) in
      (start :: end_ :: row, end_ :: start :: col, t :: t :: edge_type)
  end.

(** [edge_index[0] * N + edge_index[1]] on long tensors. *)
Definition sort_key (N : Z) (e : Z * Z) : Z := int64 (int64 (e.1 * N) + e.2).

(** [perm = (...).argsort(); edge_index[:, perm]; edge_type[perm]]. *)
Definition sort_edges (N : Z) (edge_index : list (Z * Z)) (edge_type : list Z)
    : outcome (list (Z * Z) * list Z) :=
  let perm := argsort (sort_key N <$> edge_index) in
  let! edge_index' := gather edge_index perm in
  let! edge_type' := gather edge_type perm in
  Returned (edge_index', edge_type').

Definition positions (mol : Mol) : outcome (list (float32 * float32 * float32)) :=
  let! conf := GetConformer mol 0 in
  Returned ((fun p : double * double * double =>
               (to_float32 p.1.1, to_float32 p.1.2, to_float32 p.2))
              <$> GetPositions conf).

(** [atom_name in ['N', 'CA', 'C', 'O']]. *)
Definition backbone_name (atom_name : string) : bool :=
  existsb (String.eqb atom_name) ["N"; "CA"; "C"; "O"]%string.

(** One round of the loop over [enumerate(mol.GetAtoms())] of
    [pdb_to_data]: the values appended to [atomic_number], [is_alpha],
    [is_sidechain] and [atom2res].  The lists [aromatic], [sp], [sp2] and
    [sp3] are filled there too and never read. *)
Definition pdb_atom (pdb_infos : list string) (index : Z) (atom : Atom)
    : outcome (Z * bool * bool * Z) :=
  let! ref_line := item pdb_infos index in
  let ref_info := str_split ref_line in
  let! info := getattr (GetPDBResidueInfo atom) in
  let! r3 := item ref_info 3 in
  let! _ := assert_ (String.eqb (str_strip (GetResidueName info)) r3) in
  let! r2 := item ref_info 2 in
  let! _ := assert_ (String.eqb (str_strip (GetName info)) r2) in
  let! r4 := item ref_info 4 in
  let! n4 := int_of_str r4 in
  let! _ := assert_ (GetResidueNumber info =? n4) in
  let atom_name := str_strip (GetName info) in
  let alpha := String.eqb atom_name "CA" in
  let sidechain := negb (backbone_name atom_name) in
  Returned (GetAtomicNum atom, alpha, sidechain, GetResidueNumber info - 1).

(** [atom2res -= atom2res.min()]: numpy raises ValueError on an empty
    array. *)
Definition minimum (l : list Z) : outcome Z :=
  match l with
  | [] => Raised ValueError
  | x :: l' => Returned (foldr Z.min x l')
  end.

Definition normalise (atom2res : list Z) : outcome (list Z) :=
  let! m := minimum atom2res in
  Returned ((fun r => r - m) <$> atom2res).

(** The per-atom tensors of [pdb_to_data], everything it computes from the
    atoms before it looks at the number of sidechain atoms. *)
Record residues := {
  res_pos : list (float32 * float32 * float32);
  res_atomic_number : list Z;
  res_is_alpha : list bool;
  res_is_sidechain : list bool;
  res_atom2res : list Z;
  res_atom2alpha_index : list Z;
}.

Definition pdb_residues (mol : Mol) (lines : list string) : outcome residues :=
  let pdb_infos := slice lines (Some 1) (Some (-1)) in
  let! _ := assert_ (GetNumConformers mol =? 1) in
  let N := GetNumAtoms mol in
  let! pos := positions mol in
  let! per_atom :=
    traverse (fun '(index, atom) => pdb_atom pdb_infos index atom)
             (zip (arange N) (GetAtoms mol)) in
  let atomic_number := (fun a : Z * bool * bool * Z => a.1.1.1) <$> per_atom in
  let is_alpha := (fun a : Z * bool * bool * Z => a.1.1.2) <$> per_atom in
  let is_sidechain := (fun a : Z * bool * bool * Z => a.1.2) <$> per_atom in
  let atom2res := (fun a : Z * bool * bool * Z => a.2) <$> per_atom in
  let! atom2res := normalise atom2res in
  let dummy_index := arange (len pos) in
  let! alpha_index := masked dummy_index is_alpha in
  let! alpha_res := masked atom2res is_alpha in
  let! res2alpha_index := put (replicate 5000 (-1)) alpha_res alpha_index in
  let! atom2alpha_index := gather res2alpha_index atom2res in
  Returned
    {| res_pos := pos; res_atomic_number := atomic_number;
       res_is_alpha := is_alpha; res_is_sidechain := is_sidechain;
       res_atom2res := atom2res; res_atom2alpha_index := atom2alpha_index |}.

(** [pdb_to_data(pdb_path, name)].  [mol] is what
    [Chem.rdmolfiles.MolFromPDBFile(pdb_path)] returned and [lines] what
    [f.readlines()] returned for the same file. *)
Definition pdb_to_data (mol : option Mol) (lines : list string) (name : string)
    : outcome (option Data) :=
  match mol with
  | None => Returned None
  | Some mol =>
      let N := GetNumAtoms mol in
      let! r := pdb_residues mol lines in
      if count (res_is_sidechain r) =? 0 then Returned None
      else
        let z := res_atomic_number r in
        let '(row, col, edge_type) := bond_edges (GetBonds mol) in
        let edge_index := zip row col in
        if len edge_index =? 0 then Returned None
        else
          let! '(edge_index, edge_type) := sort_edges N edge_index edge_type in
          Returned (Some
            {| atom_type := Some z; pos := Some (res_pos r);
               edge_index := Some edge_index; edge_type := Some edge_type;
               is_alpha := Some (res_is_alpha r); rdmol := Some mol;
               name := Some name;
               is_sidechain := Some (res_is_sidechain r);
               atom2res := Some (res_atom2res r);
               atom2alpha_index := Some (res_atom2alpha_index r);
               smiles := None; idx := None;
               totalenergy := None; boltzmannweight := None;
               pos_ref := None; num_pos_ref := None |})
  end.

(** [rdmol_to_data(mol, smiles)].  The class of the record built
    ([data_cls]) does not change its attributes. *)
Definition rdmol_to_data (mol : Mol) (smiles : option string) : outcome Data :=
  let! _ := assert_ (GetNumConformers mol =? 1) in
  let N := GetNumAtoms mol in
  let! pos := positions mol in
  let atomic_number := GetAtomicNum <$> GetAtoms mol in
  let z := atomic_number in
  let '(row, col, edge_type) := bond_edges (GetBonds mol) in
  let edge_index := zip row col in
  let! '(edge_index, edge_type) := sort_edges N edge_index edge_type in
  let smiles := from_option id (MolToSmiles mol) smiles in
  Returned
    {| atom_type := Some z; pos := Some pos;
       edge_index := Some edge_index; edge_type := Some edge_type;
       is_alpha := None; rdmol := Some mol; name := None;
       is_sidechain := None; atom2res := None; atom2alpha_index := None;
       smiles := Some smiles; idx := None;
       totalenergy := None; boltzmannweight := None;
       pos_ref := None; num_pos_ref := None |}.

End builder.

(** ** Collection wrapper *)

Section datasets.
Context `{TorchFloat} `{BondTable}.

(** [ConformationDataset]: the unpickled store and the optional transform.
    [hasattr_idx] is [hasattr(self.data, 'idx')]; it is false of a Python
    list. *)
Record ConformationDataset := {
  data : list Data;
  hasattr_idx : bool;
  transform : option (Data -> Data);
}.

Definition apply_transform (transform : option (Data -> Data)) (d : Data) : Data :=
  match transform with
  | Some f => f d
  | None => d
  end.

(** ** SpatialSubgraphSampler *)

Record SidechainConformationDataset := {
  super : ConformationDataset;
  cutoff : double;
  max_residue : Z;
  fix_subgraph : bool;
}.

(** [torch.randint(low, high, size=(1,))]: [u] is the entropy the
    generator spends on the draw; every value of [low, high) is drawn for
    some [u], and an empty range raises. *)
Definition randint (low high : Z) (u : Z) : outcome Z :=
  if low <? high then Returned (low + u mod (high - low))
  else Raised RuntimeError.

(** torch_scatter's [broadcast(index, src, dim)] for one-dimensional
    tensors: [index.expand(src.size())]. *)
Definition broadcast (index : list Z) (n : nat) : outcome (list Z) :=
  if decide (length index = n) then Returned index
  else
    match index with
    | [i] => Returned (replicate n i)
    | _ => Raised RuntimeError
    end.

(** [out.scatter_add_(0, index, src)] on boolean tensors, where the sum of
    two booleans is their disjunction.  An index outside [0, len(out))
    raises. *)
Fixpoint scatter_add_ (out : list bool) (index : list Z) (src : list bool)
    : outcome (list bool) :=
  match index, src with
  | [], [] => Returned out
  | i :: index', b :: src' =>
      if (0 <=? i) && (i <? len out) then
        scatter_add_ (alter (fun o => o || b) (Z.to_nat i) out) index' src'
      else Raised RuntimeError
  | _, _ => Raised RuntimeError
  end.

(** [scatter(src, index, dim=-1, dim_size=dim_size, reduce='sum')]. *)
Definition scatter (src : list bool) (index : list Z) (dim_size : Z)
    : outcome (list bool) :=
  let! index := broadcast index (length src) in
  if dim_size <? 0 then Raised RuntimeError
  else scatter_add_ (replicate (Z.to_nat dim_size) false) index src.

Definition vsub (p q : float32 * float32 * float32) : float32 * float32 * float32 :=
  (fsub p.1.1 q.1.1, fsub p.1.2 q.1.2, fsub p.2 q.2).

(** The tensors steps 1 to 4 of [__getitem__] compute. *)
Record sampling := {
  center_atom_index : Z;
  mask : list bool;
  is_keep_residue : list bool;
  is_keep_atom : list bool;
  is_keep_edge : list bool;
  keep_index : list Z;
  mapping : list Z;
}.

Definition subgraph_sampling (self : SidechainConformationDataset)
    (data : Data) (u : Z) : outcome sampling :=
  let! is_sidechain := getattr (is_sidechain data) in
  let pos := pos data in
  let edge_index := edge_index data in
  let! atom2res := getattr (atom2res data) in
  let! pos := dot pos in
  let dummy_index := arange (len pos) in
  let! backbone_index := masked dummy_index (negb <$> is_sidechain) in
  (* step 1 *)
  let! center_atom_index :=
    if fix_subgraph self then item backbone_index (len backbone_index / 2)
    else
      let! r := randint 0 (len backbone_index) u in
      item backbone_index r in
  let! pos_center_atom := item pos center_atom_index in
  (* step 2 *)
  let distance := (fun p => norm3 (vsub pos_center_atom p)) <$> pos in
  let mask := (fun d => le_scalar d (cutoff self)) <$> distance in
  (* step 3 *)
  let! is_keep_residue := scatter mask atom2res (max_residue self) in
  let! is_keep_atom := gather is_keep_residue atom2res in
  let! edge_index := subscript edge_index in
  let! keep0 := gather is_keep_atom (row0 edge_index) in
  let! keep1 := gather is_keep_atom (row1 edge_index) in
  let is_keep_edge := zip_with andb keep0 keep1 in
  (* step 4 *)
  let mapping := replicate (length pos) (-1) in
  let! keep_index := masked dummy_index is_keep_atom in
  let! mapping := put mapping keep_index (arange (len keep_index)) in
  Returned
    {| center_atom_index := center_atom_index; mask := mask;
       is_keep_residue := is_keep_residue; is_keep_atom := is_keep_atom;
       is_keep_edge := is_keep_edge; keep_index := keep_index;
       mapping := mapping |}.

(** The [Data(...)] call that builds the subgraph, its arguments evaluated
    in order. *)
Definition subgraph (data : Data) (s : sampling) : outcome Data :=
  let! atom_type0 := getattr (atom_type data) in
  let! atom_type' := masked atom_type0 (is_keep_atom s) in
  let! pos0 := subscript (pos data) in
  let! pos' := masked pos0 (is_keep_atom s) in
  let! edge_index0 := subscript (edge_index data) in
  let! kept_edges := masked edge_index0 (is_keep_edge s) in
  let! new0 := gather (mapping s) (row0 kept_edges) in
  let! new1 := gather (mapping s) (row1 kept_edges) in
  let! edge_type0 := getattr (edge_type data) in
  let! edge_type' := masked edge_type0 (is_keep_edge s) in
  let! is_sidechain0 := getattr (is_sidechain data) in
  let! is_sidechain' := masked is_sidechain0 (is_keep_atom s) in
  let! atom2res0 := getattr (atom2res data) in
  let! atom2res' := masked atom2res0 (is_keep_atom s) in
  Returned
    {| atom_type := Some atom_type'; pos := Some pos';
       edge_index := Some (zip new0 new1); edge_type := Some edge_type';
       is_alpha := None; rdmol := None; name := None;
       is_sidechain := Some is_sidechain'; atom2res := Some atom2res';
       atom2alpha_index := None; smiles := None; idx := None;
       totalenergy := None; boltzmannweight := None;
       pos_ref := None; num_pos_ref := None |}.

(** [SidechainConformationDataset.__getitem__(idx)]. *)
Definition getitem (self : SidechainConformationDataset) (idx : Z) (u : Z)
    : outcome (option Data) :=
  let! data := item (data (super self)) idx in
  let! s := subgraph_sampling self data u in
  let! is_sidechain := getattr (is_sidechain data) in
  let! kept_sidechain := masked is_sidechain (is_keep_atom s) in
  if count kept_sidechain =? 0 then Returned None
  else
    let! subgraph_data := subgraph data s in
    Returned (Some (apply_transform (transform (super self)) subgraph_data)).

(** ** ConformerPacker *)

(** The key of [self._packed_data]: [data.idx.item()] or [data.smiles]. *)
Inductive mol_key : Set :=
  | key_idx (i : Z)
  | key_smiles (s : string).

Global Instance mol_key_eq_dec : EqDecision mol_key.
Proof. solve_decision. Defined.

Definition molecule_id (by_idx : bool) (d : Data) : outcome mol_key :=
  if by_idx then
    let! i := getattr (idx d) in Returned (key_idx i)
  else
    let! s := getattr (smiles d) in Returned (key_smiles s).

(** [packed[k].append(d)] on a [defaultdict(list)], which keeps its keys
    in the order of their first insertion. *)
Fixpoint append_to (k : mol_key) (d : Data) (packed : list (mol_key * list Data))
    : list (mol_key * list Data) :=
  match packed with
  | [] => [(k, [d])]
  | (k', v) :: rest =>
      if decide (k = k') then (k', v ++ [d]) :: rest
      else (k', v) :: append_to k d rest
  end.

(** The loop [for i in range(len(self.data))] that fills
    [self._packed_data]. *)
Fixpoint fill_packed (by_idx : bool) (data : list Data)
    (packed : list (mol_key * list Data)) : outcome (list (mol_key * list Data)) :=
  match data with
  | [] => Returned packed
  | d :: rest =>
      let! k := molecule_id by_idx d in
      fill_packed by_idx rest (append_to k d packed)
  end.

(** One round of the loop over [self._packed_data.items()]. *)
Definition pack (v : list Data) : outcome Data :=
  let! data := item v 0 in
  let all_pos := pos <$> v in
  let! pos_ref := cat all_pos in
  let num_pos_ref := [len all_pos] in
  Returned
    {| atom_type := atom_type data; pos := pos data;
       edge_index := edge_index data; edge_type := edge_type data;
       is_alpha := is_alpha data; rdmol := rdmol data; name := name data;
       is_sidechain := is_sidechain data; atom2res := atom2res data;
       atom2alpha_index := atom2alpha_index data;
       smiles := smiles data; idx := idx data;
       totalenergy := None; boltzmannweight := None;
       pos_ref := Some pos_ref; num_pos_ref := Some num_pos_ref |}.

(** [PackedConformationDataset._pack_data_by_mol()]: the value it stores
    in [self.new_data]. *)
Definition _pack_data_by_mol (self : ConformationDataset) : outcome (list Data) :=
  let! _packed_data := fill_packed (hasattr_idx self) (data self) [] in
  traverse (fun kv : mol_key * list Data => pack kv.2) _packed_data.

End datasets.

(** ** Filters of [prepare_pdb2] *)

Module prepare_pdb2.

(** The list [tmp] of [get_num_plusseg] after its first entry: a 1 where
    a character differs from the one before it. *)
Fixpoint changes (prev : ascii) (msk : list ascii) : list Z :=
  match msk with
  | [] => []
  | c :: msk' => (if Ascii.eqb c prev then 0 else 1) :: changes c msk'
  end.

Definition sum (l : list Z) : Z := foldr Z.add 0 l.

Definition get_num_plusseg (msk : string) : outcome Z :=
  let msk := list_ascii_of_string msk in
  let tmp := 0 :: match msk with
                  | [] => []
                  | c :: msk' => changes c msk'
                  end in
  let s := sum tmp in
  let! first := item msk 0 in
  if Ascii.eqb first "-" then Returned ((s + 1) / 2)
  else Returned (s / 2 + 1).

End prepare_pdb2.

(** ** Preprocessing of ISO17 *)

Section preprocess.
Context `{TorchFloat} `{BondTable} `{TorchSort}.

(** [mol_to_smiles] of the chem module. *)
Class ChemSmiles := { mol_to_smiles : Mol -> string }.
Context `{ChemSmiles}.

(** One of the two loops [for i in tqdm(range(len(raw)))] of
    [preprocess_iso17_dataset]. *)
Definition preprocess_all (raw : list Mol) (smiles_list : list string)
    : outcome (list Data) :=
  traverse (fun i =>
              let! smiles := item smiles_list i in
              let! mol := item raw i in
              rdmol_to_data mol (Some smiles))
           (arange (len raw)).

(** [preprocess_iso17_dataset(base_path)]; [raw_train] and [raw_test] are
    the lists of molecules unpickled from the two files. *)
Definition preprocess_iso17_dataset (raw_train raw_test : list Mol)
    : outcome (list Data * list Data) :=
  let smiles_list_train := mol_to_smiles <$> raw_train in
  let smiles_list_test := mol_to_smiles <$> raw_test in
  let! all_train := preprocess_all raw_train smiles_list_train in
  let! all_test := preprocess_all raw_test smiles_list_test in
  Returned (all_train, all_test).

End preprocess.

(** ** Methods of the collection wrappers *)

(** [sorted(s)] for a set of integers. *)
Definition sorted (s : gset Z) : list Z := merge_sort Z.le (elements s).

Module Conformation.
Section methods.
Context `{TorchFloat} `{BondTable}.

(** [ConformationDataset.__getitem__(idx)]. *)
Definition __getitem__ (self : ConformationDataset) (idx : Z) : outcome Data :=
  let! d := item (data self) idx in
  Returned (apply_transform (transform self) d).

Definition __len__ (self : ConformationDataset) : Z := len (data self).

(** The loop [for graph in self.data: types.update(graph.<field>.tolist())]
    of [_atom_types] and [_edge_types]. *)
Fixpoint update_all (field : Data -> option (list Z)) (graphs : list Data)
    (types : gset Z) : outcome (gset Z) :=
  match graphs with
  | [] => Returned types
  | graph :: rest =>
      let! t := getattr (field graph) in
      update_all field rest (types ∪ list_to_set t)
  end.

Definition _atom_types (self : ConformationDataset) : outcome (list Z) :=
  let! atom_types := update_all atom_type (data self) ∅ in
  Returned (sorted atom_types).

Definition _edge_types (self : ConformationDataset) : outcome (list Z) :=
  let! edge_types := update_all edge_type (data self) ∅ in
  Returned (sorted edge_types).

(** What [__init__] leaves in the object besides its arguments. *)
Record initialised := {
  self_atom_types : list Z;
  self_edge_types : list Z;
}.

Definition __init__ (self : ConformationDataset) : outcome initialised :=
  let! atom_types := _atom_types self in
  let! edge_types := _edge_types self in
  Returned {| self_atom_types := atom_types; self_edge_types := edge_types |}.

End methods.
End Conformation.

Module Packed.
Section methods.
Context `{TorchFloat} `{BondTable}.

(** A [PackedConformationDataset]: the wrapper it extends and the
    [new_data] its [__init__] stores. *)
Record PackedConformationDataset := {
  super : ConformationDataset;
  types : Conformation.initialised;
  new_data : list Data;
}.

Definition __init__ (self : ConformationDataset)
    : outcome PackedConformationDataset :=
  let! types := Conformation.__init__ self in
  let! new_data := _pack_data_by_mol self in
  Returned {| super := self; types := types; new_data := new_data |}.

Definition __getitem__ (self : PackedConformationDataset) (idx : Z)
    : outcome Data :=
  let! d := item (new_data self) idx in
  Returned (apply_transform (transform (super self)) d).

Definition __len__ (self : PackedConformationDataset) : Z :=
  len (new_data self).

End methods.
End Packed.

(** * Properties *)

(** ** Facts about the primitives *)

Section primitives.
Context {A : Type}.
Implicit Types (l t : list A) (m : list bool) (i : Z).

Lemma len_nonneg l : 0 <= len l.
Proof. unfold len. lia. Qed.

Lemma length_arange n : length (arange n) = Z.to_nat n.
Proof. unfold arange. by rewrite length_fmap, length_seq. Qed.

Lemma len_arange n : 0 <= n -> len (arange n) = n.
Proof. intros. unfold len. rewrite length_arange. lia. Qed.

Lemma lookup_arange n (k : nat) :
  (k < Z.to_nat n)%nat -> arange n !! k = Some (Z.of_nat k).
Proof.
  intros Hk. unfold arange. rewrite list_lookup_fmap, lookup_seq_lt by done.
  done.
Qed.

Lemma elem_of_arange n i : i ∈ arange n <-> 0 <= i < n.
Proof.
  unfold arange. rewrite list_elem_of_fmap. split.
  - intros (k & -> & Hk). apply elem_of_seq in Hk. lia.
  - intros Hi. exists (Z.to_nat i). split; [lia|]. apply elem_of_seq. lia.
Qed.

Lemma NoDup_arange n : NoDup (arange n).
Proof.
  unfold arange. apply NoDup_fmap_2; [|apply NoDup_seq].
  intros x y. lia.
Qed.

Lemma arange_sorted n : StronglySorted Z.lt (arange n).
Proof.
  unfold arange. generalize 0%nat as s.
  induction (Z.to_nat n) as [|k IH]; intros s; simpl; constructor.
  - apply IH.
  - apply Forall_fmap, Forall_forall. intros x Hx.
    apply elem_of_seq in Hx. simpl. lia.
Qed.

Lemma slice_to l b :
  0 <= b -> slice l None (Some b) = take (Z.to_nat b) l.
Proof.
  intros Hb. unfold slice, slice_bound, len. simpl.
  rewrite (proj2 (Z.ltb_ge b 0)) by done. rewrite drop_0.
  destruct (decide (b <= Z.of_nat (length l))).
  - f_equal. lia.
  - rewrite !take_ge; [done| |]; lia.
Qed.

Lemma slice_between l a b :
  0 <= a -> 0 <= b ->
  slice l (Some a) (Some b) = take (Z.to_nat b - Z.to_nat a) (drop (Z.to_nat a) l).
Proof.
  intros Ha Hb. unfold slice, slice_bound, len. simpl.
  rewrite (proj2 (Z.ltb_ge a 0)), (proj2 (Z.ltb_ge b 0)) by done.
  destruct (decide (a <= Z.of_nat (length l))).
  - replace (Z.to_nat (a `min` Z.of_nat (length l))) with (Z.to_nat a) by lia.
    destruct (decide (b <= Z.of_nat (length l))).
    + f_equal. lia.
    + rewrite !take_ge; [done| |]; rewrite length_drop; lia.
  - rewrite !(drop_ge l) by lia. by rewrite !take_nil.
Qed.

Lemma slice_from l a :
  0 <= a -> slice l (Some a) None = drop (Z.to_nat a) l.
Proof.
  intros Ha. unfold slice, slice_bound, len. simpl.
  rewrite (proj2 (Z.ltb_ge a 0)) by done.
  destruct (decide (a <= Z.of_nat (length l))).
  - replace (Z.to_nat (a `min` Z.of_nat (length l))) with (Z.to_nat a) by lia.
    apply take_ge. rewrite length_drop. lia.
  - rewrite !(drop_ge l) by lia. by rewrite take_nil.
Qed.

End primitives.

(** ** Facts about exceptions, indexing and masks *)

Lemma bind_Returned {A B} (m : outcome A) (k : A -> outcome B) b :
  bind m k = Returned b <-> exists a, m = Returned a /\ k a = Returned b.
Proof.
  destruct m as [a|e]; simpl; split.
  - eauto.
  - by intros (? & [= <-] & ?).
  - done.
  - by intros (? & ? & ?).
Qed.

Lemma bind_Raised {A B} (m : outcome A) (k : A -> outcome B) e :
  bind m k = Raised e <->
  m = Raised e \/ exists a, m = Returned a /\ k a = Raised e.
Proof.
  destruct m as [a|e']; simpl; split.
  - right. eauto.
  - intros [?|(? & [= <-] & ?)]; done.
  - intros [= ->]. by left.
  - intros [[= ->]|(? & ? & ?)]; done.
Qed.

Lemma traverse_Returned {A B} (f : A -> outcome B) (l : list A) (ys : list B) :
  traverse f l = Returned ys <-> Forall2 (fun x y => f x = Returned y) l ys.
Proof.
  revert ys. induction l as [|x l IH]; intros ys; simpl.
  - split; [intros [= <-]; constructor|by inversion 1].
  - rewrite bind_Returned. split.
    + intros (y & Hy & H). apply bind_Returned in H as (ys' & Hys & [= <-]).
      constructor; [done|by apply IH].
    + inversion 1 as [|? y ? ys' Hy Hys]; subst. exists y. split; [done|].
      apply bind_Returned. exists ys'. split; [by apply IH|done].
Qed.

Lemma traverse_total {A B} (f : A -> outcome B) (l : list A) :
  Forall (fun x => exists y, f x = Returned y) l ->
  exists ys, traverse f l = Returned ys.
Proof.
  induction 1 as [|x l [y Hy] _ [ys Hys]]; simpl; [by eexists|].
  exists (y :: ys). by rewrite Hy; simpl; rewrite Hys.
Qed.

Lemma cat_Returned {A} (tensors : list (option (list A))) (r : list A) :
  cat tensors = Returned r <->
  exists ts, tensors = Some <$> ts /\ ts <> [] /\ r = concat ts.
Proof.
  unfold cat. rewrite bind_Returned. split.
  - intros (ts & Hts & Hr). exists ts. apply traverse_Returned in Hts. split.
    + clear Hr. induction Hts as [|o t os ts Ho _ IH]; [done|].
      destruct o; simpl in Ho; [|done]. injection Ho as ->. csimpl. by f_equal.
    + destruct ts; [done|]. by injection Hr as <-.
  - intros (ts & -> & Hne & ->). exists ts. split.
    + apply traverse_Returned, Forall2_fmap_l, Forall_Forall2_diag.
      by apply Forall_true.
    + by destruct ts.
Qed.

Section indexing.
Context {A : Type}.
Implicit Types (l t : list A) (m : list bool) (i : Z) (idx : list Z).

Lemma item_Returned l i x :
  item l i = Returned x <->
  exists j : nat, l !! j = Some x /\ Z.of_nat j = if i <? 0 then i + len l else i.
Proof.
  unfold item. set (j := if i <? 0 then i + len l else i).
  destruct (0 <=? j) eqn:H0; simpl.
  - destruct (j <? len l) eqn:H1.
    + apply Z.leb_le in H0. destruct (l !! Z.to_nat j) as [y|] eqn:Hy.
      * split.
        -- intros [= <-]. exists (Z.to_nat j). split; [done|lia].
        -- intros (k & Hk & Hkj). replace (Z.to_nat j) with k in Hy by lia. congruence.
      * split; [done|]. intros (k & Hk & Hkj).
        replace (Z.to_nat j) with k in Hy by lia. congruence.
    + split; [done|]. intros (k & Hk & Hkj). apply lookup_lt_Some in Hk.
      apply Z.ltb_ge in H1. unfold len in *. lia.
  - split; [done|]. intros (k & Hk & Hkj). apply Z.leb_gt in H0. lia.
Qed.

Lemma item_nat l (j : nat) x : l !! j = Some x -> item l (Z.of_nat j) = Returned x.
Proof.
  intros Hj. apply item_Returned. exists j. split; [done|].
  by rewrite (proj2 (Z.ltb_ge _ 0)) by lia.
Qed.

Lemma item_nonneg l i x :
  0 <= i -> item l i = Returned x <-> l !! Z.to_nat i = Some x.
Proof.
  intros Hi. rewrite item_Returned, (proj2 (Z.ltb_ge i 0)) by done. split.
  - intros (j & Hj & <-). by rewrite Nat2Z.id.
  - intros Hx. exists (Z.to_nat i). split; [done|lia].
Qed.

Lemma item_Raised l i e : item l i = Raised e -> e = IndexError.
Proof.
  unfold item. repeat case_match; congruence.
Qed.

Lemma item_in_range l i :
  - len l <= i < len l -> exists x, item l i = Returned x.
Proof.
  intros Hi. set (j := if i <? 0 then i + len l else i).
  assert (0 <= j < len l) as Hj by (unfold j; case_match; lia).
  destruct (lookup_lt_is_Some_2 l (Z.to_nat j)) as [x Hx]; [unfold len in *; lia|].
  exists x. apply item_Returned. exists (Z.to_nat j). split; [done|]. fold j. lia.
Qed.

Lemma gather_Returned t idx (xs : list A) :
  gather t idx = Returned xs <-> Forall2 (fun i x => item t i = Returned x) idx xs.
Proof. apply traverse_Returned. Qed.

Lemma gather_length t idx xs : gather t idx = Returned xs -> length xs = length idx.
Proof. intros H. apply gather_Returned in H. symmetry. by eapply Forall2_length. Qed.

Lemma masked_Returned t m xs :
  masked t m = Returned xs <-> length m = length t /\ xs = select m t.
Proof.
  unfold masked. case_decide; split.
  - by intros [= <-].
  - by intros [_ ->].
  - done.
  - by intros [? _].
Qed.

Lemma select_length_le m t : (length (select m t) <= length t)%nat.
Proof.
  revert t. induction m as [|b m IH]; intros [|x t]; simpl; try lia.
  specialize (IH t). destruct b; simpl; lia.
Qed.

Lemma select_fmap {B} (f : A -> B) m t : select m (f <$> t) = f <$> select m t.
Proof.
  revert t. induction m as [|b m IH]; intros [|x t]; simpl; try done.
  destruct b; simpl; by rewrite IH.
Qed.

Lemma select_length_count m t :
  length m = length t -> len (select m t) = count m.
Proof.
  unfold count, len. revert t. induction m as [|b m IH]; intros [|x t] Hlen; simpl in *; try done.
  injection Hlen as Hlen. specialize (IH t Hlen). destruct b.
  - rewrite filter_cons_True by done. simpl. lia.
  - rewrite filter_cons_False by done. simpl. lia.
Qed.

Lemma elem_of_select m t x :
  x ∈ select m t <-> exists j : nat, m !! j = Some true /\ t !! j = Some x.
Proof.
  revert t. induction m as [|b m IH]; intros [|y t]; simpl.
  1-3: split; [by intros ?%elem_of_nil|]; intros (j & H1 & H2);
       by destruct j.
  destruct b.
  - rewrite elem_of_cons, IH. split.
    + intros [->|(j & ? & ?)]; [by exists 0%nat|by exists (S j)].
    + intros ([|j] & H1 & H2); simpl in *; [left; congruence|right; eauto].
  - rewrite IH. split.
    + intros (j & ? & ?). by exists (S j).
    + intros ([|j] & H1 & H2); simpl in *; [done|eauto].
Qed.

Lemma select_Forall (P : A -> Prop) m t : Forall P t -> Forall P (select m t).
Proof.
  intros Ht. revert m. induction Ht as [|x t Hx Ht IH]; intros [|b m]; simpl;
    try constructor.
  destruct b; [constructor|]; auto.
Qed.

Lemma select_StronglySorted (R : relation A) m t :
  StronglySorted R t -> StronglySorted R (select m t).
Proof.
  intros Ht. revert m. induction Ht as [|x t Ht IH Hx]; intros [|b m]; simpl;
    try constructor.
  destruct b; [constructor|]; auto using select_Forall.
Qed.

Lemma select_zip {B} m t (t' : list B) :
  select m (zip t t') = zip (select m t) (select m t').
Proof.
  revert t t'. induction m as [|b m IH]; intros [|x t] [|y t']; simpl; try done.
  - destruct b; [done|]. by destruct (select m t).
  - destruct b; simpl; [by rewrite IH|apply IH].
Qed.

Lemma put_Returned t idx (vals : list A) :
  length idx = length vals ->
  Forall (fun i => 0 <= i < len t) idx ->
  NoDup idx ->
  exists t',
    put t idx vals = Returned t' /\
    length t' = length t /\
    (forall (k : nat) i v,
        idx !! k = Some i -> vals !! k = Some v -> t' !! Z.to_nat i = Some v) /\
    (forall j : nat, Z.of_nat j ∉ idx -> t' !! j = t !! j).
Proof.
  revert t vals. induction idx as [|i idx IH]; intros t [|v vals] Hlen Hrange Hnd;
    simpl in *; try done.
  - exists t. repeat split; done.
  - injection Hlen as Hlen. apply Forall_cons in Hrange as [Hi Hrange].
    apply NoDup_cons in Hnd as [Hi' Hnd].
    destruct (item_in_range t i) as [x Hx]; [lia|]. rewrite Hx. simpl.
    rewrite (proj2 (Z.ltb_ge i 0)) by lia.
    destruct (IH (<[Z.to_nat i:=v]> t) vals) as (t' & Hput & Hlen' & Hin & Hout);
      [done| |done|].
    { unfold len in *. by rewrite length_insert. }
    exists t'. split; [done|]. rewrite length_insert in Hlen'. split; [done|]. split.
    + intros [|k] i' v' Hk Hv; simpl in *.
      * injection Hk as <-. injection Hv as <-.
        rewrite Hout by (by rewrite Z2Nat.id by lia).
        apply list_lookup_insert_eq. unfold len in *. lia.
      * by eapply Hin.
    + intros j Hj. apply not_elem_of_cons in Hj as [Hji Hj].
      rewrite Hout by done. apply list_lookup_insert_ne. lia.
Qed.

End indexing.

Lemma item_elem_of {A} (l : list A) i x : item l i = Returned x -> x ∈ l.
Proof.
  intros (j & Hj & _)%item_Returned. by eapply list_elem_of_lookup_2.
Qed.

Lemma item_same_index {A B} (l : list A) (l' : list B) i x y :
  length l = length l' ->
  item l i = Returned x -> item l' i = Returned y ->
  exists j : nat, l !! j = Some x /\ l' !! j = Some y /\
                  Z.of_nat j = if i <? 0 then i + len l else i.
Proof.
  intros Hlen (j & Hj & Hji)%item_Returned (j' & Hj' & Hji')%item_Returned.
  unfold len in *. rewrite <- Hlen, <- Hji in Hji'.
  apply Nat2Z.inj in Hji' as ->. eauto.
Qed.

Lemma StronglySorted_lookup_lt {A} (R : relation A) (l : list A) (i j : nat) x y :
  StronglySorted R l -> l !! i = Some x -> l !! j = Some y -> (i < j)%nat -> R x y.
Proof.
  intros Hl. revert i j. induction Hl as [|z l Hl IH Hz]; intros i j Hi Hj Hij;
    [done|].
  destruct j as [|j]; [lia|]. destruct i as [|i]; simpl in *.
  - injection Hi as <-. eapply Forall_forall in Hz; [done|].
    by eapply list_elem_of_lookup_2.
  - eapply IH; [done..|lia].
Qed.

(** [dummy_index[mask]]: the positions where the mask holds. *)
Section keep_index.
Implicit Types (m : list bool).

Lemma select_arange_sorted m n : StronglySorted Z.lt (select m (arange n)).
Proof. apply select_StronglySorted, arange_sorted. Qed.

Lemma select_arange_NoDup m n : NoDup (select m (arange n)).
Proof.
  pose proof (select_arange_sorted m n) as Hs.
  induction Hs as [|x l Hs IH Hx]; constructor; [|done].
  intros Hin. eapply Forall_forall in Hx; [|done]. lia.
Qed.

Lemma elem_of_select_arange m n i :
  length m = Z.to_nat n ->
  i ∈ select m (arange n) <-> 0 <= i /\ m !! Z.to_nat i = Some true.
Proof.
  intros Hlen. rewrite elem_of_select. split.
  - intros (j & Hm & Hj). apply lookup_lt_Some in Hm as Hlt.
    rewrite lookup_arange in Hj by lia. injection Hj as <-.
    by rewrite Nat2Z.id; split; [lia|].
  - intros [Hi Hm]. exists (Z.to_nat i). split; [done|].
    apply lookup_lt_Some in Hm as Hlt. rewrite lookup_arange by lia.
    f_equal. lia.
Qed.

Lemma select_arange_lookup {A} m (t : list A) (k : nat) i :
  length m = length t ->
  select m (arange (len t)) !! k = Some i ->
  0 <= i /\ m !! Z.to_nat i = Some true /\ select m t !! k = t !! Z.to_nat i.
Proof.
  intros Hlen Hk.
  assert (Hi : i ∈ select m (arange (len t))) by (by eapply list_elem_of_lookup_2).
  apply elem_of_select_arange in Hi as [Hi0 Him]; [|unfold len; lia].
  split; [done|]. split; [done|].
  assert (Hl : length (select m t) = length (select m (arange (len t)))).
  { apply Nat2Z.inj. change (len (select m t) = len (select m (arange (len t)))).
    rewrite !select_length_count; [done| |done].
    rewrite length_arange. unfold len. lia. }
  destruct (lookup_lt_is_Some_2 (select m t) k) as [x Hx].
  { rewrite Hl. by eapply lookup_lt_Some. }
  rewrite Hx. symmetry.
  assert (Hz : (i, x) ∈ select m (zip (arange (len t)) t)).
  { rewrite select_zip. apply list_elem_of_lookup. exists k.
    by apply lookup_zip_with_Some; eexists _, _. }
  apply elem_of_select in Hz as (j & _ & Hj).
  apply lookup_zip_with_Some in Hj as (i' & x' & [= <- <-] & Hi' & Hx').
  apply lookup_lt_Some in Hx' as Hlt.
  rewrite lookup_arange in Hi' by (unfold len; lia). injection Hi' as <-.
  by rewrite Nat2Z.id.
Qed.

End keep_index.

Section gathering.
Context {A : Type}.
Implicit Types (l : list A) (idx : list Z).

Lemma gather_arange l : gather l (arange (len l)) = Returned l.
Proof.
  apply gather_Returned. apply Forall2_same_length_lookup_2.
  - rewrite length_arange. unfold len. lia.
  - intros k i x Hi Hx. apply lookup_lt_Some in Hx as Hlt.
    rewrite lookup_arange in Hi by (unfold len; lia). injection Hi as <-.
    by apply item_nat.
Qed.

Lemma gather_Permutation l idx idx' xs :
  idx ≡ₚ idx' -> gather l idx = Returned xs ->
  exists xs', gather l idx' = Returned xs' /\ xs ≡ₚ xs'.
Proof.
  intros Hperm. revert xs.
  induction Hperm as [|i idx idx' _ IH|i j idx|idx1 idx2 idx3 _ IH1 _ IH2];
    intros xs Hxs.
  - exists xs. done.
  - apply gather_Returned in Hxs. inversion Hxs as [|? x ? xs0 Hx Hxs0]; subst.
    apply gather_Returned in Hxs0. destruct (IH _ Hxs0) as (xs' & Hxs' & Hp).
    exists (x :: xs'). split; [|by constructor].
    apply gather_Returned. constructor; [done|by apply gather_Returned].
  - apply gather_Returned in Hxs. inversion Hxs as [|? y ? xs0 Hy Hxs0]; subst.
    inversion Hxs0 as [|? x ? xs1 Hx Hxs1]; subst.
    exists (x :: y :: xs1). split; [|by constructor].
    apply gather_Returned. by repeat constructor.
  - destruct (IH1 _ Hxs) as (xs2 & Hxs2 & Hp2).
    destruct (IH2 _ Hxs2) as (xs3 & Hxs3 & Hp3).
    exists xs3. split; [done|by etrans].
Qed.

(** Gathering a tensor along a permutation of its indices permutes it. *)
Lemma gather_permutes l idx xs :
  idx ≡ₚ arange (len l) -> gather l idx = Returned xs -> xs ≡ₚ l.
Proof.
  intros Hperm Hxs.
  destruct (gather_Permutation l _ _ _ Hperm Hxs) as (xs' & Hxs' & Hp).
  rewrite gather_arange in Hxs'. by injection Hxs' as <-.
Qed.

Lemma gather_total l idx :
  Forall (fun i => - len l <= i < len l) idx -> exists xs, gather l idx = Returned xs.
Proof.
  intros Hidx. apply traverse_total. eapply Forall_impl; [exact Hidx|].
  intros i Hi. by apply item_in_range.
Qed.

Lemma gather_fmap {B} (f : A -> B) l idx xs :
  gather l idx = Returned xs -> gather (f <$> l) idx = Returned (f <$> xs).
Proof.
  rewrite !gather_Returned. intros Hxs. apply Forall2_fmap_r.
  eapply Forall2_impl; [exact Hxs|]. intros i x (j & Hj & Hi)%item_Returned.
  apply item_Returned. exists j. rewrite list_lookup_fmap, Hj. split; [done|].
  unfold len in *. by rewrite length_fmap.
Qed.

Lemma gather_zip {B} l (l' : list B) idx xs ys :
  length l = length l' ->
  gather l idx = Returned xs -> gather l' idx = Returned ys ->
  gather (zip l l') idx = Returned (zip xs ys).
Proof.
  intros Hlen. rewrite !gather_Returned. intros Hxs. revert ys.
  induction Hxs as [|i x idx xs Hx Hxs IH]; intros ys Hys;
    inversion Hys as [|? y ? ys' Hy Hys']; subst; simpl; constructor; [|auto].
  destruct (item_same_index l l' i x y Hlen Hx Hy) as (j & Hj & Hj' & Hi).
  apply item_Returned. exists j. split.
  - apply lookup_zip_with_Some. eauto.
  - unfold len in *. rewrite length_zip_with, <- Hlen, Nat.min_id. done.
Qed.

End gathering.

(** ** Concrete interfaces

    Small instances of the library interfaces, on which the embedding can
    be evaluated. *)

(** A shuffle that rotates the list by [seed] places. *)
Definition rotate (l : list Z) (seed : Z) : list Z :=
  let k := Z.to_nat (seed mod len l) in drop k l ++ take k l.

Lemma rotate_perm l seed : rotate l seed ≡ₚ l.
Proof. unfold rotate. by rewrite Permutation_app_comm, take_drop. Qed.

Definition rotate_shuffle : SklearnShuffle :=
  {| random_state := Z; shuffle := rotate; shuffle_perm := rotate_perm |}.

(** A stable merge sort of the keys paired with their positions. *)
Definition key_le (a b : Z * Z) : Prop := a.1 <= b.1.

Global Instance key_le_dec a b : Decision (key_le a b).
Proof. unfold key_le. apply _. Defined.

Global Instance key_le_total : Total key_le.
Proof. intros a b. unfold key_le. lia. Qed.

Definition merge_argsort (keys : list Z) : list Z :=
  snd <$> merge_sort key_le (zip keys (arange (len keys))).

Lemma merge_argsort_perm keys : merge_argsort keys ≡ₚ arange (len keys).
Proof.
  unfold merge_argsort. rewrite merge_sort_Permutation.
  rewrite snd_zip; [done|]. rewrite length_arange. unfold len. lia.
Qed.

Lemma merge_argsort_sorted keys :
  exists sorted,
    gather keys (merge_argsort keys) = Returned sorted /\ Sorted Z.le sorted.
Proof.
  unfold merge_argsort.
  set (ps := merge_sort key_le (zip keys (arange (len keys)))).
  exists (fst <$> ps). split.
  - apply gather_Returned. apply Forall2_fmap, Forall_Forall2_diag, Forall_forall.
    intros [k i] Hin. simpl. unfold ps in Hin.
    rewrite merge_sort_Permutation in Hin.
    apply list_elem_of_lookup in Hin as [j Hj].
    apply lookup_zip_with_Some in Hj as (k' & i' & [= <- <-] & Hk & Hi).
    apply lookup_lt_Some in Hk as Hlt.
    rewrite lookup_arange in Hi by (unfold len; lia). injection Hi as <-.
    by apply item_nat.
  - eapply Sorted_fmap; [|apply (Sorted_merge_sort key_le)]. done.
Qed.

Definition merge_sort_argsort : TorchSort :=
  {| argsort := merge_argsort;
     argsort_perm := merge_argsort_perm;
     argsort_sorted := merge_argsort_sorted |}.

(** Coordinates on the integer grid, the norm rounded down. *)
Definition grid_float : TorchFloat :=
  {| double := Z; float32 := Z; to_float32 := id; fsub := Z.sub;
     norm3 := fun p => Z.sqrt (p.1.1 * p.1.1 + p.1.2 * p.1.2 + p.2 * p.2);
     le_scalar := Z.leb |}.

(** The bond types of small molecules with their RDKit codes. *)
Inductive bond_kind : Set := SINGLE | DOUBLE | TRIPLE | AROMATIC.

Definition bond_kinds : BondTable :=
  {| BondType := bond_kind;
     BOND_TYPES := fun t =>
       match t with SINGLE => 1 | DOUBLE => 2 | TRIPLE => 3 | AROMATIC => 12 end |}.

(** ** DatasetSplitter *)

Section splitter.
Context `{SklearnShuffle}.


Lemma shuffle_arange_length size seed :
  length (shuffle (arange size) seed) = Z.to_nat size.
Proof. rewrite (Permutation_length (shuffle_perm _ _)). apply length_arange. Qed.

Lemma split_slices (ids : list Z) a b :
  0 <= a -> 0 <= b ->
  slice ids None (Some a) ++ slice ids (Some a) (Some (a + b))
    ++ slice ids (Some (a + b)) None = ids.
Proof.
  intros Ha Hb. rewrite slice_to, slice_between, slice_from by lia.
  replace (Z.to_nat (a + b) - Z.to_nat a)%nat with (Z.to_nat b) by lia.
  replace (Z.to_nat (a + b)) with (Z.to_nat a + Z.to_nat b)%nat by lia.
  rewrite <- drop_drop, take_drop, take_drop. done.
Qed.




(** C2 (as amended).  With non-negative counts whose sum exceeds [size],
    the splitter does not fail: it returns the permutation cut short, the
    train set holding its first [min train_count size] indices, the valid
    set the rest of it and the test set nothing. *)
Theorem get_idx_split_truncates (size train_count valid_count : Z) (seed : random_state) :
  0 <= size -> 0 <= train_count -> 0 <= valid_count ->
  size < train_count + valid_count ->
  exists d,
    QM93D.get_idx_split size train_count valid_count seed = Returned d /\
    len (train d) = Z.min train_count size /\
    len (valid d) = size - len (train d) /\
    len (train d) + len (valid d) < train_count + valid_count /\
    test d = [] /\
    train d ++ valid d ≡ₚ arange size.
Proof.
  intros Hs Ht Hv Hsz. eexists. split; [reflexivity|]. simpl.
  set (ids := shuffle (arange size) seed).
  assert (Hperm : ids ≡ₚ arange size) by apply shuffle_perm.
  assert (Hlen : length ids = Z.to_nat size) by apply shuffle_arange_length.
  pose proof (split_slices ids train_count valid_count Ht Hv) as Hcat.
  assert (Htest : slice ids (Some (train_count + valid_count)) None = []).
  { rewrite slice_from by lia. apply drop_ge. lia. }
  rewrite Htest, app_nil_r in Hcat.
  assert (Hl1 : len (slice ids None (Some train_count))
                = train_count `min` size).
  { rewrite slice_to by done. unfold len. rewrite length_take. lia. }
  assert (Hl2 : len (slice ids None (Some train_count))
                + len (slice ids (Some train_count) (Some (train_count + valid_count)))
                = size).
  { unfold len. rewrite <- Nat2Z.inj_add, <- length_app, Hcat. lia. }
  repeat split; try done; try lia.
  by rewrite Hcat.
Qed.

End splitter.


Example get_idx_split_10_6_2 :
  QM93D.get_idx_split (H := rotate_shuffle) 10 6 2 (42 : Z)
  = Returned {| train := [2; 3; 4; 5; 6; 7]; valid := [8; 9]; test := [0; 1] |}.
Proof. reflexivity. Qed.

Lemma get_idx_split_truncates_witness :
  (0 <= 3 /\ 0 <= 5 /\ 0 <= 1 /\ 3 < 5 + 1) /\
  exists d,
    QM93D.get_idx_split (H := rotate_shuffle) 3 5 1 (1 : Z) = Returned d /\
    len (train d) = Z.min 5 3 /\
    len (valid d) = 3 - len (train d) /\
    len (train d) + len (valid d) < 5 + 1 /\
    test d = [] /\
    train d ++ valid d ≡ₚ arange 3.
Proof.
  split; [lia|].
  apply (get_idx_split_truncates (H := rotate_shuffle) 3 5 1 (1 : Z)); lia.
Defined.

(** A negative count is a position from the end of the permutation: with
    size 5 and counts -1 and 1 the train set holds four indices, and the
    test set holds all five. *)
Example get_idx_split_5_minus_1_1 :
  QM93D.get_idx_split (H := rotate_shuffle) 5 (-1) 1 (7 : Z)
  = Returned {| train := [2; 3; 4; 0]; valid := []; test := [2; 3; 4; 0; 1] |}.
Proof. reflexivity. Qed.


Example get_idx_split_3_5_1 :
  QM93D.get_idx_split (H := rotate_shuffle) 3 5 1 (1 : Z)
  = Returned {| train := [1; 2; 0]; valid := []; test := [] |}.
Proof. reflexivity. Qed.

(** C2 as stated fails: with size 3 and counts 5 and 1 the call returns. *)
Lemma get_idx_split_does_not_fail_fast :
  ~ (forall (S : SklearnShuffle) (size train_count valid_count : Z) (seed : random_state),
        0 <= size -> 0 <= train_count -> 0 <= valid_count ->
        size < train_count + valid_count ->
        exists e, QM93D.get_idx_split size train_count valid_count seed = Raised e).
Proof.
  intros Hfail.
  destruct (Hfail rotate_shuffle 3 5 1 (1 : Z)) as [e He]; [lia..|].
  discriminate He.
Qed.

(** ** GraphRecordBuilder *)

Lemma int64_small z : - 2 ^ 63 <= z < 2 ^ 63 -> int64 z = z.
Proof. intros Hz. unfold int64. rewrite Z.mod_small; lia. Qed.

Lemma put_length {A} (t : list A) idx vals t' :
  put t idx vals = Returned t' -> length t' = length t.
Proof.
  revert t vals. induction idx as [|i idx IH]; intros t [|v vals] Hret;
    simpl in Hret; try done.
  - by injection Hret as <-.
  - apply bind_Returned in Hret as (_ & _ & Hret). apply IH in Hret.
    by rewrite length_insert in Hret.
Qed.

Lemma minimum_Returned l m :
  minimum l = Returned m -> m ∈ l /\ Forall (fun x => m <= x) l.
Proof.
  destruct l as [|x l]; simpl; [done|]. intros [= <-].
  induction l as [|y l [IHin IHle]]; simpl.
  - split; [left|by repeat constructor].
  - apply Forall_cons in IHle as [Hx Hl].
    destruct (Z.min_spec y (foldr Z.min x l)) as [[Hlt ->]|[Hge ->]].
    + split; [right; left|]. constructor; [lia|]. constructor; [lia|].
      eapply Forall_impl; [exact Hl|]. simpl. lia.
    + split.
      * apply elem_of_cons in IHin as [->|Hin]; [left|by right; right].
      * constructor; [done|]. constructor; [lia|done].
Qed.

Lemma count_all_false (m : list bool) : Forall (fun b => b = false) m -> count m = 0.
Proof.
  unfold count, len. induction 1 as [|b m -> _ IH]; [done|].
  by rewrite filter_cons_False.
Qed.

Lemma count_pos (m : list bool) : count m <> 0 -> true ∈ m.
Proof.
  unfold count, len. induction m as [|[] m IH]; simpl; intros Hm.
  - done.
  - by left.
  - right. apply IH. by rewrite filter_cons_False in Hm.
Qed.

Lemma Sorted_le_NoDup_lt (l : list Z) : Sorted Z.le l -> NoDup l -> Sorted Z.lt l.
Proof.
  induction 1 as [|x l Hl IH Hx]; intros Hnd; constructor.
  - apply IH. by apply NoDup_cons in Hnd as [_ ?].
  - destruct Hx as [|y l' Hxy]; constructor.
    apply NoDup_cons in Hnd as [Hin _].
    assert (x <> y) by (intros ->; apply Hin; left). lia.
Qed.

Section builder.
Context `{TorchFloat} `{BondTable} `{TorchSort}.

(** An atom [pdb_to_data] takes for a backbone atom. *)
Definition backbone_atom (atom : Atom) : Prop :=
  exists info,
    GetPDBResidueInfo atom = Some info /\
    backbone_name (str_strip (GetName info)) = true.

Lemma pdb_atom_Returned pdb_infos index atom a :
  pdb_atom pdb_infos index atom = Returned a ->
  exists info,
    GetPDBResidueInfo atom = Some info /\
    a = (GetAtomicNum atom,
         String.eqb (str_strip (GetName info)) "CA",
         negb (backbone_name (str_strip (GetName info))),
         GetResidueNumber info - 1).
Proof.
  unfold pdb_atom. intros Hret.
  apply bind_Returned in Hret as (ref_line & _ & Hret).
  apply bind_Returned in Hret as (info & Hinfo & Hret).
  repeat (apply bind_Returned in Hret as (? & _ & Hret)).
  injection Hret as <-. exists info. split; [|done].
  by destruct (GetPDBResidueInfo atom) as [?|]; [injection Hinfo as ->|].
Qed.

(** What the residue tensors are when [pdb_residues] completes: the
    sidechain flag of each atom, and its residue number less the least
    residue number [m + 1] of the structure, which is below 5000. *)
Lemma pdb_residues_Returned mol lines r :
  pdb_residues mol lines = Returned r ->
  Forall2 (fun atom sc =>
             exists info, GetPDBResidueInfo atom = Some info /\
                          sc = negb (backbone_name (str_strip (GetName info))))
          (GetAtoms mol) (res_is_sidechain r) /\
  exists m,
    Forall2 (fun atom res =>
               exists info, GetPDBResidueInfo atom = Some info /\
                            res = GetResidueNumber info - 1 - m)
            (GetAtoms mol) (res_atom2res r) /\
    0 ∈ res_atom2res r /\
    Forall (fun res => 0 <= res < 5000) (res_atom2res r).
Proof.
  unfold pdb_residues. intros Hret.
  apply bind_Returned in Hret as (_ & _ & Hret).
  apply bind_Returned in Hret as (pos0 & _ & Hret).
  apply bind_Returned in Hret as (per_atom & Hper & Hret).
  apply bind_Returned in Hret as (a2r & Hnorm & Hret).
  apply bind_Returned in Hret as (alpha_index & _ & Hret).
  apply bind_Returned in Hret as (alpha_res & _ & Hret).
  apply bind_Returned in Hret as (r2a & Hput & Hret).
  apply bind_Returned in Hret as (a2a & Hgather & [= <-]). simpl.
  assert (Hatoms : Forall2 (fun atom (a : Z * bool * bool * Z) =>
            exists info,
              GetPDBResidueInfo atom = Some info /\
              a = (GetAtomicNum atom,
                   String.eqb (str_strip (GetName info)) "CA",
                   negb (backbone_name (str_strip (GetName info))),
                   GetResidueNumber info - 1))
            (GetAtoms mol) per_atom).
  { apply traverse_Returned in Hper.
    rewrite <- (snd_zip (arange (GetNumAtoms mol)) (GetAtoms mol)) at 1.
    2:{ rewrite length_arange. unfold GetNumAtoms, len. lia. }
    apply Forall2_fmap_l. eapply Forall2_impl; [exact Hper|].
    intros [i atom] a Ha. simpl. by eapply pdb_atom_Returned. }
  split.
  { apply Forall2_fmap_r. eapply Forall2_impl; [exact Hatoms|].
    intros atom a (info & Hinfo & ->). eauto. }
  unfold normalise in Hnorm. apply bind_Returned in Hnorm as (m & Hm & [= <-]).
  apply minimum_Returned in Hm as [Hin Hle]. exists m. split_and!.
  - rewrite <- list_fmap_compose. apply Forall2_fmap_r.
    eapply Forall2_impl; [exact Hatoms|].
    intros atom a (info & Hinfo & ->). eauto.
  - apply list_elem_of_fmap. exists m. split; [lia|done].
  - apply put_length in Hput. rewrite length_replicate in Hput.
    apply gather_Returned in Hgather. apply Forall_forall. intros res Hres.
    assert (0 <= res).
    { apply list_elem_of_fmap in Hres as (x & -> & Hx).
      eapply Forall_forall in Hle; [|done]. lia. }
    split; [done|].
    apply list_elem_of_lookup in Hres as [k Hk].
    destruct (Forall2_lookup_l _ _ _ _ _ Hgather Hk) as (y & _ & Hy).
    apply item_nonneg in Hy; [|done]. apply lookup_lt_Some in Hy. lia.
Qed.

(** The directed edges of a bond table with their types: both directions
    of each bond, in the order of the table. *)
Definition directed (bonds : list Bond) : list (Z * Z * Z) :=
  bonds ≫= fun bond =>
    let t := BOND_TYPES (GetBondType bond) in
    [(GetBeginAtomIdx bond, GetEndAtomIdx bond, t);
     (GetEndAtomIdx bond, GetBeginAtomIdx bond, t)].

Lemma bond_edges_directed bonds row col edge_type :
  bond_edges bonds = (row, col, edge_type) ->
  length row = length col /\ length (zip row col) = length edge_type /\
  zip (zip row col) edge_type = directed bonds.
Proof.
  revert row col edge_type. induction bonds as [|bond bonds IH];
    intros row col edge_type Hb; simpl in Hb.
  - by injection Hb as <- <- <-.
  - destruct (bond_edges bonds) as [[row' col'] et'].
    injection Hb as <- <- <-. destruct (IH _ _ _ eq_refl) as (Hl1 & Hl2 & Hz).
    simpl. rewrite Hl1, Hl2. split; [done|]. split; [done|].
    unfold directed in *. cbn. by rewrite Hz.
Qed.

Lemma sort_edges_Returned N edge_index edge_type edge_index' edge_type' :
  length edge_index = length edge_type ->
  sort_edges N edge_index edge_type = Returned (edge_index', edge_type') ->
  length edge_index' = length edge_type' /\
  zip edge_index' edge_type' ≡ₚ zip edge_index edge_type /\
  Sorted Z.le (sort_key N <$> edge_index') /\
  gather edge_index (argsort (sort_key N <$> edge_index)) = Returned edge_index' /\
  gather edge_type (argsort (sort_key N <$> edge_index)) = Returned edge_type'.
Proof.
  intros Hlen Hret. unfold sort_edges in Hret.
  apply bind_Returned in Hret as (ei & Hei & Hret).
  apply bind_Returned in Hret as (et & Het & [= <- <-]).
  set (perm := argsort (sort_key N <$> edge_index)) in *.
  assert (Hperm : perm ≡ₚ arange (len edge_index)).
  { unfold perm. rewrite argsort_perm. unfold len. by rewrite length_fmap. }
  split_and!; try done.
  - apply gather_length in Hei, Het. congruence.
  - eapply gather_permutes; [|by apply gather_zip].
    unfold len in *. by rewrite length_zip_with, <- Hlen, Nat.min_id.
  - destruct (argsort_sorted (sort_key N <$> edge_index)) as (sorted & Hs & Hsorted).
    fold perm in Hs. rewrite (gather_fmap _ _ _ _ Hei) in Hs. by injection Hs as <-.
Qed.

Lemma sort_edges_returns N edge_index edge_type :
  length edge_index = length edge_type ->
  exists r, sort_edges N edge_index edge_type = Returned r.
Proof.
  intros Hlen. unfold sort_edges.
  set (perm := argsort (sort_key N <$> edge_index)).
  assert (Hperm : perm ≡ₚ arange (len edge_index)).
  { unfold perm. rewrite argsort_perm. unfold len. by rewrite length_fmap. }
  assert (Hrange : Forall (fun i => - len edge_index <= i < len edge_index) perm).
  { apply Forall_forall. intros i Hi. rewrite Hperm in Hi.
    apply elem_of_arange in Hi. lia. }
  destruct (gather_total edge_index perm Hrange) as [ei ->]. simpl.
  destruct (gather_total edge_type perm) as [et ->]; [|simpl; eauto].
  unfold len in *. by rewrite <- Hlen.
Qed.

Lemma sort_key_small N (e : Z * Z) :
  0 <= N -> 0 <= e.1 -> 0 <= e.2 -> e.1 * N + e.2 < 2 ^ 63 ->
  sort_key N e = e.1 * N + e.2.
Proof.
  intros HN He1 He2 Hlt. unfold sort_key.
  rewrite (int64_small (e.1 * N)) by nia. apply int64_small. nia.
Qed.

(** The edges both builders attach to a record. *)
Lemma built_edges N bonds row col edge_type edge_index' edge_type' :
  bond_edges bonds = (row, col, edge_type) ->
  sort_edges N (zip row col) edge_type = Returned (edge_index', edge_type') ->
  length edge_index' = length edge_type' /\
  zip edge_index' edge_type' ≡ₚ directed bonds /\
  Sorted Z.le (sort_key N <$> edge_index') /\
  (N < 2 ^ 31 ->
   Forall (fun bond => 0 <= GetBeginAtomIdx bond < N /\
                       0 <= GetEndAtomIdx bond < N) bonds ->
   Sorted Z.le ((fun e : Z * Z => e.1 * N + e.2) <$> edge_index') /\
   (NoDup ((directed bonds).*1) ->
    Sorted Z.lt ((fun e : Z * Z => e.1 * N + e.2) <$> edge_index'))) /\
  (forall bond,
     bonds = [bond] -> GetBeginAtomIdx bond = 0 -> GetEndAtomIdx bond = 1 ->
     1 < N < 2 ^ 63 ->
     edge_index' = [(0, 1); (1, 0)] /\
     edge_type' = [BOND_TYPES (GetBondType bond); BOND_TYPES (GetBondType bond)]).
Proof.
  intros Hb Hs. destruct (bond_edges_directed _ _ _ _ Hb) as (Hl1 & Hl2 & Hd).
  destruct (sort_edges_Returned _ _ _ _ _ Hl2 Hs) as (Hl & Hp & Hsorted & Hgi & Hgt).
  split_and!; try done.
  - by rewrite Hp, Hd.
  - intros HN Hrange.
    assert (Hin : Forall (fun e : Z * Z => 0 <= e.1 < N /\ 0 <= e.2 < N) edge_index').
    { apply Forall_forall. intros e He.
      assert (Hz : exists t, (e, t) ∈ zip edge_index' edge_type').
      { apply list_elem_of_lookup in He as [k Hk].
        destruct (lookup_lt_is_Some_2 edge_type' k) as [t Ht].
        { rewrite <- Hl. by eapply lookup_lt_Some. }
        exists t. apply list_elem_of_lookup. exists k.
        apply lookup_zip_with_Some. eauto. }
      destruct Hz as [t Hz]. rewrite Hp, Hd in Hz. unfold directed in Hz.
      apply list_elem_of_bind in Hz as (bond & Hz & Hbond).
      eapply Forall_forall in Hrange; [|done].
      apply elem_of_cons in Hz as [[= -> _]|Hz]; [simpl; lia|].
      apply list_elem_of_singleton in Hz as [= -> _]. simpl; lia. }
    assert (Hle : Sorted Z.le ((fun e : Z * Z => e.1 * N + e.2) <$> edge_index')).
    { erewrite list_fmap_ext; [exact Hsorted|].
      intros k e He. apply list_elem_of_lookup_2 in He.
      eapply Forall_forall in Hin as [He1 He2]; [|done].
      symmetry. apply sort_key_small; [lia..|]. nia. }
    split; [done|]. intros Hnd. apply Sorted_le_NoDup_lt; [done|].
    apply NoDup_fmap_2_strong.
    + intros [s1 t1] [s2 t2] Hx Hy Heq. simpl in Heq.
      eapply Forall_forall in Hx; [|exact Hin].
      eapply Forall_forall in Hy; [|exact Hin]. simpl in *.
      assert (s1 = s2) by nia. subst s2. f_equal. lia.
    + rewrite <- Hd, <- Hp in Hnd. by rewrite fst_zip in Hnd by lia.
  - intros bond -> Hb0 Hb1 HN. simpl in Hb. rewrite Hb0, Hb1 in Hb.
    injection Hb as <- <- <-. simpl in *.
    assert (Hk0 : sort_key N (0, 1) = 1).
    { rewrite sort_key_small; simpl; lia. }
    assert (Hk1 : sort_key N (1, 0) = N).
    { rewrite sort_key_small; simpl; lia. }
    rewrite Hk0, Hk1 in *.
    pose proof (argsort_perm [1; N]) as Hperm.
    destruct (argsort_sorted [1; N]) as (sorted & Hg & Hsorted').
    apply Permutation_sym, Permutation_length_2_inv in Hperm as [Hperm|Hperm].
    + rewrite Hperm in Hgi, Hgt. by injection Hgi as <-; injection Hgt as <-.
    + exfalso. rewrite Hperm in Hg. injection Hg as <-.
      apply Sorted_inv in Hsorted' as [_ Hhd]. apply HdRel_inv in Hhd. lia.
Qed.

Lemma rdmol_to_data_Returned mol smiles0 d :
  rdmol_to_data mol smiles0 = Returned d ->
  exists row col et edge_index' edge_type',
    bond_edges (GetBonds mol) = (row, col, et) /\
    sort_edges (GetNumAtoms mol) (zip row col) et
    = Returned (edge_index', edge_type') /\
    edge_index d = Some edge_index' /\ edge_type d = Some edge_type' /\
    atom_type d = Some (GetAtomicNum <$> GetAtoms mol) /\
    smiles d = Some (from_option id (MolToSmiles mol) smiles0).
Proof.
  unfold rdmol_to_data. intros Hret.
  apply bind_Returned in Hret as (_ & _ & Hret).
  apply bind_Returned in Hret as (pos0 & _ & Hret).
  destruct (bond_edges (GetBonds mol)) as [[row col] et].
  apply bind_Returned in Hret as ([ei' et'] & Hs & [= <-]).
  exists row, col, et, ei', et'. done.
Qed.

Lemma GetConformer_single mol conf id :
  GetConformers mol = [conf] ->
  GetConformer mol id
  = if decide (GetId conf = id) then Returned conf else Raised ValueError.
Proof.
  intros Hc. unfold GetConformer. rewrite Hc.
  rewrite filter_cons, filter_nil. by destruct (decide (GetId conf = id)).
Qed.

Lemma rdmol_to_data_returns mol smiles0 conf :
  GetConformers mol = [conf] -> GetId conf = 0 ->
  exists d, rdmol_to_data mol smiles0 = Returned d.
Proof.
  intros Hc Hid. unfold rdmol_to_data, positions, GetNumConformers.
  rewrite (GetConformer_single _ _ _ Hc), decide_True by done. rewrite Hc. simpl.
  destruct (bond_edges (GetBonds mol)) as [[row col] et] eqn:Hb.
  destruct (bond_edges_directed _ _ _ _ Hb) as (_ & Hl & _).
  destruct (sort_edges_returns (GetNumAtoms mol) _ _ Hl) as [[ei' et'] ->].
  simpl. eauto.
Qed.

Lemma pdb_to_data_Returned_Some mol lines name0 d :
  pdb_to_data (Some mol) lines name0 = Returned (Some d) ->
  exists r row col et edge_index' edge_type',
    pdb_residues mol lines = Returned r /\
    count (res_is_sidechain r) <> 0 /\
    bond_edges (GetBonds mol) = (row, col, et) /\
    sort_edges (GetNumAtoms mol) (zip row col) et
    = Returned (edge_index', edge_type') /\
    edge_index d = Some edge_index' /\ edge_type d = Some edge_type' /\
    is_sidechain d = Some (res_is_sidechain r) /\
    atom2res d = Some (res_atom2res r).
Proof.
  unfold pdb_to_data. intros Hret.
  apply bind_Returned in Hret as (r & Hr & Hret).
  destruct (count (res_is_sidechain r) =? 0) eqn:Hc; [done|].
  apply Z.eqb_neq in Hc.
  destruct (bond_edges (GetBonds mol)) as [[row col] et].
  destruct (len (zip row col) =? 0); [done|].
  apply bind_Returned in Hret as ([ei' et'] & Hs & [= <-]).
  exists r, row, col, et, ei', et'. done.
Qed.

(** C4.  A record either builder returns holds each bond of the bond table
    as two directed edges, one per direction, each with the code of the
    bond's type: [edge_index] and [edge_type], zipped, are a permutation of
    that list, so the types stay aligned with the edges.  The edges are in
    ascending order of the int64 key the code sorts by, which is
    [source * N + target] when the molecule has fewer than 2^31 atoms and
    the bonds join atoms of the molecule; the order is strict when no
    directed edge occurs twice.  A single bond (0, 1) gives
    [(0, 1); (1, 0)] and its type twice. *)
Theorem builder_edges_canonical mol smiles0 lines name0 d :
  rdmol_to_data mol smiles0 = Returned d \/
  pdb_to_data (Some mol) lines name0 = Returned (Some d) ->
  exists ei et,
    edge_index d = Some ei /\ edge_type d = Some et /\
    length ei = length et /\
    zip ei et ≡ₚ directed (GetBonds mol) /\
    Sorted Z.le (sort_key (GetNumAtoms mol) <$> ei) /\
    (GetNumAtoms mol < 2 ^ 31 ->
     Forall (fun bond => 0 <= GetBeginAtomIdx bond < GetNumAtoms mol /\
                         0 <= GetEndAtomIdx bond < GetNumAtoms mol)
            (GetBonds mol) ->
     Sorted Z.le ((fun e : Z * Z => e.1 * GetNumAtoms mol + e.2) <$> ei) /\
     (NoDup ((directed (GetBonds mol)).*1) ->
      Sorted Z.lt ((fun e : Z * Z => e.1 * GetNumAtoms mol + e.2) <$> ei))) /\
    (forall bond,
       GetBonds mol = [bond] ->
       GetBeginAtomIdx bond = 0 -> GetEndAtomIdx bond = 1 ->
       1 < GetNumAtoms mol < 2 ^ 63 ->
       ei = [(0, 1); (1, 0)] /\
       et = [BOND_TYPES (GetBondType bond); BOND_TYPES (GetBondType bond)]).
Proof.
  intros [Hret|Hret].
  - apply rdmol_to_data_Returned in Hret
      as (row & col & et0 & ei & et & Hb & Hs & Hei & Het & _).
    exists ei, et. split; [done|]. split; [done|].
    by eapply built_edges.
  - apply pdb_to_data_Returned_Some in Hret
      as (r & row & col & et0 & ei & et & _ & _ & Hb & Hs & Hei & Het & _).
    exists ei, et. split; [done|]. split; [done|].
    by eapply built_edges.
Qed.

(** C5 (as amended).  For a structure with no bond, or whose atoms are all
    backbone atoms, the builder returns [None] when the per-atom steps
    complete and raises their exception otherwise: in no case does it
    return a record. *)
Theorem pdb_to_data_rejects mol lines name0 :
  GetBonds mol = [] \/ Forall backbone_atom (GetAtoms mol) ->
  pdb_to_data (Some mol) lines name0
  = (let! _ := pdb_residues mol lines in Returned None) /\
  forall d, pdb_to_data (Some mol) lines name0 <> Returned (Some d).
Proof.
  intros Hrej.
  assert (Heq : pdb_to_data (Some mol) lines name0
                = (let! _ := pdb_residues mol lines in Returned None)).
  { unfold pdb_to_data. destruct (pdb_residues mol lines) as [r|e] eqn:Hr; [|done].
    simpl. destruct (count (res_is_sidechain r) =? 0) eqn:Hc; [done|].
    destruct Hrej as [Hbonds|Hback].
    - by rewrite Hbonds.
    - exfalso. apply Z.eqb_neq in Hc. apply Hc, count_all_false.
      apply pdb_residues_Returned in Hr as [Hsc _].
      apply Forall_forall. intros sc Hin.
      apply list_elem_of_lookup in Hin as [k Hk].
      destruct (Forall2_lookup_r _ _ _ _ _ Hsc Hk) as (atom & Hatom & info & Hinfo & ->).
      apply list_elem_of_lookup_2 in Hatom.
      eapply Forall_forall in Hback as (info' & Hinfo' & Hname); [|done].
      assert (info' = info) as -> by congruence. by rewrite Hname. }
  split; [done|]. intros d. rewrite Heq.
  by destruct (pdb_residues mol lines).
Qed.

(** C9 (as amended).  In a record the protein builder returns,
    [atom2res] holds for each atom its residue number less the least
    residue number of the structure: the least value is 0, every value is
    in [0, 5000), and gaps in the residue numbering remain. *)
Theorem pdb_atom2res_zero_based mol lines name0 d :
  pdb_to_data (Some mol) lines name0 = Returned (Some d) ->
  exists a2r least,
    atom2res d = Some a2r /\
    Forall2 (fun atom res =>
               exists info, GetPDBResidueInfo atom = Some info /\
                            res = GetResidueNumber info - least)
            (GetAtoms mol) a2r /\
    0 ∈ a2r /\
    Forall (fun res => 0 <= res < 5000) a2r.
Proof.
  intros Hret.
  apply pdb_to_data_Returned_Some in Hret
    as (r & row & col & et0 & ei & et & Hr & _ & _ & _ & _ & _ & _ & Ha2r).
  apply pdb_residues_Returned in Hr as (_ & m & Hres & Hzero & Hrange).
  exists (res_atom2res r), (m + 1). split_and!; try done.
  eapply Forall2_impl; [exact Hres|]. intros atom res (info & Hinfo & ->).
  exists info. split; [done|lia].
Qed.

End builder.

(** ** SpatialSubgraphSampler *)

Section sampler.
Context `{TorchFloat} `{BondTable}.

(** Whether some entry of [src] that [index] sends to [r] holds. *)
Definition hit (r : Z) (index : list Z) (src : list bool) : bool :=
  existsb (fun p : Z * bool => (p.1 =? r) && p.2) (zip index src).

Lemma hit_true r index src :
  hit r index src = true <->
  exists k : nat, index !! k = Some r /\ src !! k = Some true.
Proof.
  unfold hit. rewrite existsb_exists. split.
  - intros ([i b] & Hin & Hb). simpl in Hb. apply andb_true_iff in Hb as [Hi ->].
    apply Z.eqb_eq in Hi as ->. apply list_elem_of_In, list_elem_of_lookup in Hin as [k Hk].
    apply lookup_zip_with_Some in Hk as (i' & b' & [= <- <-] & ? & ?). eauto.
  - intros (k & Hi & Hb). exists (r, true). split.
    + apply list_elem_of_In, list_elem_of_lookup. exists k.
      apply lookup_zip_with_Some. eauto.
    + simpl. by rewrite Z.eqb_refl.
Qed.

Lemma scatter_add_Returned out index src out' :
  scatter_add_ out index src = Returned out' ->
  length index = length src /\
  Forall (fun i => 0 <= i < len out) index /\
  length out' = length out /\
  forall r : nat,
    out' !! r = (fun o => o || hit (Z.of_nat r) index src) <$> out !! r.
Proof.
  revert out src. induction index as [|i index IH]; intros out [|b src] Hret;
    simpl in Hret; try done.
  - injection Hret as <-. repeat split; try done. intros r.
    destruct (out !! r); simpl; [by rewrite orb_false_r|done].
  - destruct ((0 <=? i) && (i <? len out)) eqn:Hi; [|done].
    apply andb_true_iff in Hi as [Hi0 Hi1].
    apply Z.leb_le in Hi0. apply Z.ltb_lt in Hi1.
    apply IH in Hret as (Hlen & Hrange & Hlen' & Hout).
    unfold len in *. rewrite length_alter in Hlen', Hrange.
    split; [simpl; lia|]. split; [by constructor|]. split; [done|].
    intros r. rewrite Hout. unfold hit. simpl.
    destruct (decide (r = Z.to_nat i)) as [->|Hne].
    + rewrite list_lookup_alter_eq. rewrite Z2Nat.id, Z.eqb_refl by done.
      destruct (out !! Z.to_nat i) as [o|]; simpl; [|done].
      f_equal. by rewrite orb_assoc.
    + rewrite list_lookup_alter_ne by done.
      rewrite (proj2 (Z.eqb_neq i (Z.of_nat r))) by lia. done.
Qed.

Lemma scatter_Returned src index dim_size out :
  length index = length src ->
  scatter src index dim_size = Returned out ->
  0 <= dim_size /\
  len out = dim_size /\
  Forall (fun i => 0 <= i < dim_size) index /\
  forall r : nat, (r < length out)%nat -> out !! r = Some (hit (Z.of_nat r) index src).
Proof.
  intros Hlen Hret. unfold scatter, broadcast in Hret.
  rewrite decide_True in Hret by done. simpl in Hret.
  destruct (dim_size <? 0) eqn:Hd; [done|]. apply Z.ltb_ge in Hd.
  apply scatter_add_Returned in Hret as (_ & Hrange & Hlen' & Hout).
  unfold len in *. rewrite length_replicate in Hlen', Hrange.
  split; [done|]. split; [lia|]. split.
  { eapply Forall_impl; [exact Hrange|]. simpl. lia. }
  intros r Hr. rewrite Hout, lookup_replicate_2 by lia. done.
Qed.

(** [(pos_center_atom - pos).norm(dim=-1) <= self.cutoff] for one row. *)
Definition near (self : SidechainConformationDataset)
    (pos_center_atom p : float32 * float32 * float32) : bool :=
  le_scalar (norm3 (vsub pos_center_atom p)) (cutoff self).

(** What the tensors of steps 1 to 4 are when the steps complete. *)
Record sampled (self : SidechainConformationDataset) (data : Data)
    (s : sampling) (sc : list bool) (pos0 : list (float32 * float32 * float32))
    (ei : list (Z * Z)) (a2r : list Z) : Prop := {
  sampled_is_sidechain : is_sidechain data = Some sc;
  sampled_pos : pos data = Some pos0;
  sampled_edge_index : edge_index data = Some ei;
  sampled_atom2res : atom2res data = Some a2r;
  sampled_length_sc : length sc = length pos0;
  sampled_length_a2r : length a2r = length pos0;
  sampled_center :
    0 <= center_atom_index s /\
    sc !! Z.to_nat (center_atom_index s) = Some false /\
    exists pc, pos0 !! Z.to_nat (center_atom_index s) = Some pc /\
               mask s = near self pc <$> pos0;
  sampled_residues : Forall (fun r => 0 <= r < max_residue self) a2r;
  sampled_length_keep : length (is_keep_atom s) = length pos0;
  sampled_keep : forall (i : nat) r,
    a2r !! i = Some r -> is_keep_atom s !! i = Some (hit r a2r (mask s));
  sampled_edges : Forall2
    (fun (e : Z * Z) (k : bool) =>
       exists b0 b1, item (is_keep_atom s) e.1 = Returned b0 /\
                     item (is_keep_atom s) e.2 = Returned b1 /\ k = b0 && b1)
    ei (is_keep_edge s);
  sampled_keep_index : keep_index s = select (is_keep_atom s) (arange (len pos0));
  sampled_length_mapping : length (mapping s) = length pos0;
  sampled_mapping_kept : forall (k : nat) i,
    keep_index s !! k = Some i -> mapping s !! Z.to_nat i = Some (Z.of_nat k);
  sampled_mapping_dropped : forall j : nat,
    (j < length pos0)%nat -> Z.of_nat j ∉ keep_index s -> mapping s !! j = Some (-1);
}.

Lemma subgraph_sampling_Returned self data u s :
  subgraph_sampling self data u = Returned s ->
  exists sc pos0 ei a2r, sampled self data s sc pos0 ei a2r.
Proof.
  unfold subgraph_sampling. intros Hret.
  apply bind_Returned in Hret as (sc & Hsc & Hret).
  apply bind_Returned in Hret as (a2r & Ha2r & Hret).
  apply bind_Returned in Hret as (pos0 & Hpos & Hret).
  apply bind_Returned in Hret as (backbone & Hbb & Hret).
  apply bind_Returned in Hret as (c & Hc & Hret).
  apply bind_Returned in Hret as (pc & Hpc & Hret).
  apply bind_Returned in Hret as (kr & Hkr & Hret).
  apply bind_Returned in Hret as (ka & Hka & Hret).
  apply bind_Returned in Hret as (ei & Hei & Hret).
  apply bind_Returned in Hret as (k0 & Hk0 & Hret).
  apply bind_Returned in Hret as (k1 & Hk1 & Hret).
  apply bind_Returned in Hret as (ki & Hki & Hret).
  apply bind_Returned in Hret as (mp & Hmp & Hret).
  injection Hret as <-. simpl.
  destruct (is_sidechain data) as [sc'|] eqn:Esc; [injection Hsc as ->|done].
  destruct (pos data) as [pos'|] eqn:Epos; [injection Hpos as ->|done].
  destruct (edge_index data) as [ei'|] eqn:Eei; [injection Hei as ->|done].
  destruct (atom2res data) as [a2r'|] eqn:Ea2r; [injection Ha2r as ->|done].
  exists sc, pos0, ei, a2r.
  apply masked_Returned in Hbb as [Hlsc ->].
  rewrite length_fmap, length_arange in Hlsc. unfold len in Hlsc.
  rewrite Nat2Z.id in Hlsc.
  apply masked_Returned in Hki as [Hlka ->].
  rewrite length_arange in Hlka. unfold len in Hlka. rewrite Nat2Z.id in Hlka.
  pose proof (gather_length _ _ _ Hka) as Hla2r. rewrite Hlka in Hla2r.
  assert (Hcin : c ∈ select (negb <$> sc) (arange (len pos0))).
  { destruct (fix_subgraph self).
    - by eapply item_elem_of.
    - apply bind_Returned in Hc as (r & _ & Hc). by eapply item_elem_of. }
  apply elem_of_select_arange in Hcin as [Hc0 Hcsc];
    [|rewrite length_fmap; unfold len; lia].
  rewrite list_lookup_fmap in Hcsc.
  apply item_nonneg in Hpc; [|done].
  apply scatter_Returned in Hkr as (Hmr & Hlkr & Hrange & Hkr);
    [|by rewrite !length_fmap].
  destruct (put_Returned (replicate (length pos0) (-1))
              (select ka (arange (len pos0)))
              (arange (len (select ka (arange (len pos0))))))
    as (mp' & Hmp' & Hlmp & Hkept & Hdropped).
  { rewrite length_arange. unfold len. lia. }
  { apply select_Forall. apply Forall_forall. intros i Hi.
    apply elem_of_arange in Hi. unfold len in *. rewrite length_replicate. lia. }
  { apply select_arange_NoDup. }
  rewrite Hmp in Hmp'. injection Hmp' as <-. rewrite length_replicate in Hlmp.
  split; simpl; try done.
  - split; [done|]. split.
    + destruct (sc !! Z.to_nat c) as [[]|]; simpl in Hcsc; congruence.
    + exists pc. split; [done|]. by rewrite <- list_fmap_compose.
  - intros i r Hi. apply gather_Returned in Hka.
    destruct (Forall2_lookup_l _ _ _ _ _ Hka Hi) as (b & Hb & Hitem).
    eapply Forall_lookup_1 in Hrange as Hr; [|done].
    apply item_nonneg in Hitem; [|lia].
    rewrite Hkr in Hitem; [|apply lookup_lt_Some in Hitem; lia].
    rewrite Z2Nat.id in Hitem by lia. congruence.
  - apply gather_Returned in Hk0, Hk1. unfold row0, row1 in *.
    apply Forall2_fmap_l in Hk0, Hk1.
    clear -Hk0 Hk1. revert k1 Hk1.
    induction Hk0 as [|e b0 ei k0 He Hk0 IH]; intros k1 Hk1;
      inversion Hk1 as [|? b1 ? k1' He1 Hk1']; subst; simpl; constructor; eauto.
  - intros k i Hk. eapply Hkept; [done|].
    apply lookup_arange. apply lookup_lt_Some in Hk. unfold len in *. lia.
  - intros j Hj Hnot. rewrite Hdropped by done. by apply lookup_replicate_2.
Qed.

(** The fields of the record that [Data(...)] builds from the kept atoms
    and edges. *)
Record subgraph_of (data : Data) (s : sampling) (sub : Data)
    (at0 : list Z) (et0 : list Z) (ei' : list (Z * Z)) : Prop := {
  sub_atom_type0 : atom_type data = Some at0;
  sub_edge_type0 : edge_type data = Some et0;
  sub_length_at0 : length at0 = length (is_keep_atom s);
  sub_length_et0 : length et0 = length (is_keep_edge s);
  sub_atom_type : atom_type sub = Some (select (is_keep_atom s) at0);
  sub_pos : forall pos0, pos data = Some pos0 ->
    pos sub = Some (select (is_keep_atom s) pos0);
  sub_is_sidechain : forall sc, is_sidechain data = Some sc ->
    is_sidechain sub = Some (select (is_keep_atom s) sc);
  sub_atom2res : forall a2r, atom2res data = Some a2r ->
    atom2res sub = Some (select (is_keep_atom s) a2r);
  sub_edge_type : edge_type sub = Some (select (is_keep_edge s) et0);
  sub_edge_index : edge_index sub = Some ei';
  sub_edges : forall ei, edge_index data = Some ei ->
    Forall2 (fun e e' : Z * Z =>
               item (mapping s) e.1 = Returned e'.1 /\
               item (mapping s) e.2 = Returned e'.2)
            (select (is_keep_edge s) ei) ei';
}.

Lemma subgraph_Returned data s sub :
  subgraph data s = Returned sub ->
  exists at0 et0 ei', subgraph_of data s sub at0 et0 ei'.
Proof.
  unfold subgraph. intros Hret.
  apply bind_Returned in Hret as (at0 & Hat0 & Hret).
  apply bind_Returned in Hret as (at' & Hat' & Hret).
  apply bind_Returned in Hret as (pos0 & Hpos0 & Hret).
  apply bind_Returned in Hret as (pos' & Hpos' & Hret).
  apply bind_Returned in Hret as (ei & Hei & Hret).
  apply bind_Returned in Hret as (kept & Hkept & Hret).
  apply bind_Returned in Hret as (new0 & Hnew0 & Hret).
  apply bind_Returned in Hret as (new1 & Hnew1 & Hret).
  apply bind_Returned in Hret as (et0 & Het0 & Hret).
  apply bind_Returned in Hret as (et' & Het' & Hret).
  apply bind_Returned in Hret as (sc & Hsc & Hret).
  apply bind_Returned in Hret as (sc' & Hsc' & Hret).
  apply bind_Returned in Hret as (a2r & Ha2r & Hret).
  apply bind_Returned in Hret as (a2r' & Ha2r' & Hret).
  injection Hret as <-.
  destruct (atom_type data) as [?|] eqn:E1; [injection Hat0 as ->|done].
  destruct (pos data) as [?|] eqn:E2; [injection Hpos0 as ->|done].
  destruct (edge_index data) as [?|] eqn:E3; [injection Hei as ->|done].
  destruct (edge_type data) as [?|] eqn:E4; [injection Het0 as ->|done].
  destruct (is_sidechain data) as [?|] eqn:E5; [injection Hsc as ->|done].
  destruct (atom2res data) as [?|] eqn:E6; [injection Ha2r as ->|done].
  apply masked_Returned in Hat' as [? ->], Hpos' as [? ->], Hkept as [? ->],
    Het' as [? ->], Hsc' as [? ->], Ha2r' as [? ->].
  exists at0, et0, (zip new0 new1). split; simpl; try done.
  - intros ? Hx. rewrite E2 in Hx. by injection Hx as <-.
  - intros ? Hx. rewrite E5 in Hx. by injection Hx as <-.
  - intros ? Hx. rewrite E6 in Hx. by injection Hx as <-.
  - intros ? Hx. rewrite E3 in Hx. injection Hx as <-.
    apply gather_Returned in Hnew0, Hnew1.
    unfold row0, row1 in *. apply Forall2_fmap_l in Hnew0, Hnew1.
    clear -Hnew0 Hnew1. revert new1 Hnew1.
    induction Hnew0 as [|e n0 l new0 He Hn0 IH]; intros new1 Hnew1;
      inversion Hnew1 as [|? n1 ? new1' He1 Hn1]; subst; simpl; constructor; eauto.
Qed.

Lemma subgraph_returns self data s sc pos0 ei a2r at0 et0 :
  sampled self data s sc pos0 ei a2r ->
  atom_type data = Some at0 -> length at0 = length pos0 ->
  edge_type data = Some et0 -> length et0 = length ei ->
  exists sub, subgraph data s = Returned sub.
Proof.
  intros [] Hat Hlat Het Hlet. unfold subgraph.
  pose proof (Forall2_length _ _ _ sampled_edges0) as Hlke.
  rewrite Hat, sampled_pos0, sampled_edge_index0, Het, sampled_is_sidechain0,
    sampled_atom2res0. simpl.
  unfold masked. rewrite !decide_True by congruence. simpl.
  assert (Hin : Forall (fun e : Z * Z =>
                          (exists n, item (mapping s) e.1 = Returned n) /\
                          (exists n, item (mapping s) e.2 = Returned n))
                       (select (is_keep_edge s) ei)).
  { apply select_Forall. apply Forall_forall. intros e He.
    apply list_elem_of_lookup in He as [k Hk].
    destruct (Forall2_lookup_l _ _ _ _ _ sampled_edges0 Hk)
      as (b & _ & b0 & b1 & Hb0 & Hb1 & _).
    apply item_Returned in Hb0 as (j0 & Hj0 & Hi0), Hb1 as (j1 & Hj1 & Hi1).
    apply lookup_lt_Some in Hj0, Hj1. unfold len in *.
    destruct (Z.ltb_spec e.1 0), (Z.ltb_spec e.2 0);
      split; apply item_in_range; unfold len; lia. }
  unfold gather.
  destruct (traverse_total (item (mapping s)) (row0 (select (is_keep_edge s) ei)))
    as [new0 ->].
  { unfold row0. apply Forall_fmap. eapply Forall_impl; [exact Hin|].
    by intros e [? _]. }
  simpl.
  destruct (traverse_total (item (mapping s)) (row1 (select (is_keep_edge s) ei)))
    as [new1 Hnew1].
  { unfold row1. apply Forall_fmap. eapply Forall_impl; [exact Hin|].
    by intros e [_ ?]. }
  rewrite Hnew1. simpl. eauto.
Qed.

Lemma scatter_add_returns out index src :
  length index = length src ->
  Forall (fun i => 0 <= i < len out) index ->
  exists out', scatter_add_ out index src = Returned out'.
Proof.
  revert out src. induction index as [|i index IH]; intros out [|b src] Hlen Hrange;
    simpl in *; try done; [eauto|].
  apply Forall_cons in Hrange as [Hi Hrange].
  destruct (Z.leb_spec 0 i); [|lia]. destruct (Z.ltb_spec i (len out)); [|lia]. simpl.
  apply IH; [lia|]. unfold len in *. by rewrite length_alter.
Qed.

(** A record the sampler can work on: the per-atom tensors have the
    length of [pos], [edge_type] has that of [edge_index], some atom is a
    backbone atom, the residue ids are below [max_residue] and the edges
    join atoms of the record. *)
Record well_formed (self : SidechainConformationDataset) (d : Data) : Prop := {
  wf_fields :
    exists at0 pos0 ei et0 sc a2r,
      atom_type d = Some at0 /\ pos d = Some pos0 /\ edge_index d = Some ei /\
      edge_type d = Some et0 /\ is_sidechain d = Some sc /\ atom2res d = Some a2r /\
      length at0 = length pos0 /\ length sc = length pos0 /\
      length a2r = length pos0 /\ length et0 = length ei /\
      false ∈ sc /\
      Forall (fun r => 0 <= r < max_residue self) a2r /\
      Forall (fun e : Z * Z => 0 <= e.1 < len pos0 /\ 0 <= e.2 < len pos0) ei
}.

Lemma subgraph_sampling_returns self d u :
  well_formed self d -> exists s, subgraph_sampling self d u = Returned s.
Proof.
  intros [(at0 & pos0 & ei & et0 & sc & a2r & Hat & Hpos & Hei & Het & Hsc & Ha2r
           & Hlat & Hlsc & Hla2r & Hlet & Hbb & Hres & Hedges)].
  unfold subgraph_sampling. rewrite Hsc, Hpos, Hei, Ha2r. simpl.
  unfold masked at 1.
  rewrite decide_True by (rewrite length_fmap, length_arange; unfold len; lia).
  simpl. remember (select (negb <$> sc) (arange (len pos0))) as backbone eqn:Hbdef.
  assert (Hbackbone : forall c, c ∈ backbone -> 0 <= c < len pos0).
  { intros c Hc. rewrite Hbdef in Hc. apply elem_of_select in Hc as (j & _ & Hj).
    apply list_elem_of_lookup_2, elem_of_arange in Hj. done. }
  assert (Hne : 0 < len backbone).
  { apply list_elem_of_lookup in Hbb as [j Hj].
    assert (Hin : Z.of_nat j ∈ backbone).
    { rewrite Hbdef. apply elem_of_select_arange; [rewrite length_fmap; unfold len; lia|].
      split; [lia|]. by rewrite Nat2Z.id, list_lookup_fmap, Hj. }
    apply list_elem_of_lookup in Hin as [k Hk]. apply lookup_lt_Some in Hk.
    unfold len. lia. }
  assert (Hcenter : exists c,
    (if fix_subgraph self then item backbone (len backbone / 2)
     else let! r := randint 0 (len backbone) u in item backbone r) = Returned c).
  { destruct (fix_subgraph self).
    - apply item_in_range.
      pose proof (Z.div_pos (len backbone) 2 ltac:(lia) ltac:(lia)).
      split; [lia|]. apply Z.div_lt_upper_bound; lia.
    - unfold randint. destruct (Z.ltb_spec 0 (len backbone)); [|lia]. simpl.
      apply item_in_range. rewrite Z.sub_0_r, Z.add_0_l.
      pose proof (Z.mod_pos_bound u (len backbone) Hne). lia. }
  destruct Hcenter as [c Hc]. rewrite Hc. simpl.
  assert (Hcin : 0 <= c < len pos0).
  { apply Hbackbone. destruct (fix_subgraph self).
    - by eapply item_elem_of.
    - apply bind_Returned in Hc as (r & _ & Hc). by eapply item_elem_of. }
  destruct (item_in_range pos0 c) as [pc ->]; [lia|]. simpl.
  remember ((fun d0 => le_scalar d0 (cutoff self))
            <$> ((fun p => norm3 (vsub pc p)) <$> pos0)) as mask0 eqn:Hmdef.
  assert (Hlmask : length mask0 = length pos0)
    by (by rewrite Hmdef, !length_fmap).
  assert (Hmr : 0 < max_residue self).
  { destruct a2r as [|r a2r]; [simpl in Hla2r; unfold len in Hcin; lia|].
    apply Forall_cons in Hres as [Hr _]. lia. }
  assert (Hscatter : exists kr, scatter mask0 a2r (max_residue self) = Returned kr).
  { unfold scatter, broadcast.
    rewrite decide_True by lia. simpl.
    destruct (Z.ltb_spec (max_residue self) 0); [lia|].
    apply scatter_add_returns; [lia|].
    unfold len. rewrite length_replicate.
    eapply Forall_impl; [exact Hres|]. simpl. lia. }
  destruct Hscatter as [kr Hkr]. rewrite Hkr. simpl.
  apply scatter_Returned in Hkr as (_ & Hlkr & _ & _); [|lia].
  destruct (gather_total kr a2r) as [ka Hka].
  { eapply Forall_impl; [exact Hres|]. simpl. lia. }
  rewrite Hka. simpl. pose proof (gather_length _ _ _ Hka) as Hlka.
  assert (Hlka' : len ka = len pos0) by (unfold len; lia).
  destruct (gather_total ka (row0 ei)) as [k0 ->].
  { unfold row0. apply Forall_fmap. eapply Forall_impl; [exact Hedges|].
    simpl. lia. }
  simpl.
  destruct (gather_total ka (row1 ei)) as [k1 ->].
  { unfold row1. apply Forall_fmap. eapply Forall_impl; [exact Hedges|].
    simpl. lia. }
  simpl. unfold masked.
  rewrite decide_True by (rewrite length_arange; unfold len; lia). simpl.
  destruct (put_Returned (replicate (length pos0) (-1))
              (select ka (arange (len pos0)))
              (arange (len (select ka (arange (len pos0))))))
    as (mp & -> & _).
  - rewrite length_arange. unfold len. lia.
  - apply select_Forall. apply Forall_forall. intros i Hi.
    apply elem_of_arange in Hi. unfold len in *. rewrite length_replicate. lia.
  - apply select_arange_NoDup.
  - simpl. eauto.
Qed.

Lemma getitem_Returned_Some self idx u sub :
  getitem self idx u = Returned (Some sub) ->
  exists d s sc sub0,
    item (data (super self)) idx = Returned d /\
    subgraph_sampling self d u = Returned s /\
    is_sidechain d = Some sc /\
    length (is_keep_atom s) = length sc /\
    count (select (is_keep_atom s) sc) <> 0 /\
    subgraph d s = Returned sub0 /\
    sub = apply_transform (transform (super self)) sub0.
Proof.
  unfold getitem. intros Hret.
  apply bind_Returned in Hret as (d & Hd & Hret).
  apply bind_Returned in Hret as (s & Hs & Hret).
  apply bind_Returned in Hret as (sc & Hsc & Hret).
  apply bind_Returned in Hret as (ksc & Hksc & Hret).
  destruct (count ksc =? 0) eqn:Hcount; [done|].
  apply bind_Returned in Hret as (sub0 & Hsub0 & [= <-]).
  apply masked_Returned in Hksc as [Hlen ->]. apply Z.eqb_neq in Hcount.
  destruct (is_sidechain d) as [sc'|] eqn:Esc; [injection Hsc as ->|done].
  exists d, s, sc, sub0. eauto 10.
Qed.

Lemma select_filter_whole (r : Z) (keep : list bool) (l : list Z) :
  length keep = length l ->
  (forall j : nat, l !! j = Some r -> keep !! j = Some true) ->
  filter (fun x => x = r) (select keep l) = filter (fun x => x = r) l.
Proof.
  revert l. induction keep as [|b keep IH]; intros [|x l] Hlen Hall; simpl in *;
    try done.
  injection Hlen as Hlen.
  assert (IH' : filter (fun x => x = r) (select keep l) = filter (fun x => x = r) l).
  { apply IH; [done|]. intros j Hj. apply (Hall (S j) Hj). }
  destruct (decide (x = r)) as [->|Hne].
  - specialize (Hall 0%nat eq_refl). injection Hall as ->.
    by rewrite !filter_cons_True, IH' by done.
  - rewrite (filter_cons_False _ x l) by done.
    destruct b; [by rewrite filter_cons_False by done|done].
Qed.

(** C3.  In every subgraph the sampler returns, an atom of the source
    record is kept exactly when its residue has an atom [p] for which
    [(pos_center_atom - p).norm() <= cutoff] holds, where
    [pos_center_atom] is the position of the seed atom, a backbone atom of
    the record; hence every residue id that occurs among the kept atoms
    keeps all the atoms it has in the source record.  [sub0] is the
    subgraph before the optional transform. *)
Theorem sampler_residue_complete self idx u sub :
  getitem self idx u = Returned (Some sub) ->
  exists d s sub0 sc pos0 a2r pc,
    item (data (super self)) idx = Returned d /\
    subgraph_sampling self d u = Returned s /\
    subgraph d s = Returned sub0 /\
    sub = apply_transform (transform (super self)) sub0 /\
    is_sidechain d = Some sc /\ pos d = Some pos0 /\ atom2res d = Some a2r /\
    length a2r = length pos0 /\ length (is_keep_atom s) = length pos0 /\
    0 <= center_atom_index s /\
    sc !! Z.to_nat (center_atom_index s) = Some false /\
    pos0 !! Z.to_nat (center_atom_index s) = Some pc /\
    pos sub0 = Some (select (is_keep_atom s) pos0) /\
    atom2res sub0 = Some (select (is_keep_atom s) a2r) /\
    (forall (i : nat) r, a2r !! i = Some r ->
       (is_keep_atom s !! i = Some true <->
        exists (j : nat) p,
          a2r !! j = Some r /\ pos0 !! j = Some p /\
          le_scalar (norm3 (fsub pc.1.1 p.1.1, fsub pc.1.2 p.1.2, fsub pc.2 p.2))
                    (cutoff self) = true)) /\
    (forall r, r ∈ select (is_keep_atom s) a2r ->
       (forall j : nat, a2r !! j = Some r -> is_keep_atom s !! j = Some true) /\
       filter (fun x => x = r) (select (is_keep_atom s) a2r)
       = filter (fun x => x = r) a2r).
Proof.
  intros Hret.
  apply getitem_Returned_Some in Hret
    as (d & s & sc & sub0 & Hd & Hs & Hsc & Hlen & Hcount & Hsub0 & ->).
  destruct (subgraph_sampling_Returned _ _ _ _ Hs) as (sc' & pos0 & ei & a2r & []).
  destruct (subgraph_Returned _ _ _ Hsub0) as (at0 & et0 & ei' & []).
  destruct sampled_center0 as (Hc0 & Hcsc & pc & Hpc & Hmask).
  assert (sc' = sc) as -> by congruence.
  exists d, s, sub0, sc, pos0, a2r, pc.
  assert (Hkeep : forall (i : nat) r, a2r !! i = Some r ->
    (is_keep_atom s !! i = Some true <->
     exists (j : nat) p,
       a2r !! j = Some r /\ pos0 !! j = Some p /\
       le_scalar (norm3 (fsub pc.1.1 p.1.1, fsub pc.1.2 p.1.2, fsub pc.2 p.2))
                 (cutoff self) = true)).
  { intros i r Hi. rewrite (sampled_keep0 i r Hi). split.
    - intros [= Hhit]. apply hit_true in Hhit as (j & Hj & Hm).
      rewrite Hmask, list_lookup_fmap in Hm.
      destruct (pos0 !! j) as [p|] eqn:Hp; [|done]. injection Hm as Hm.
      exists j, p. split; [done|]. split; [done|]. exact Hm.
    - intros (j & p & Hj & Hp & Hn). f_equal. apply hit_true. exists j.
      split; [done|]. rewrite Hmask, list_lookup_fmap, Hp. simpl. f_equal.
      exact Hn. }
  split_and!; try done; eauto.
  intros r Hr. apply elem_of_select in Hr as (j0 & Hk0 & Hj0).
  assert (Hall : forall j : nat, a2r !! j = Some r -> is_keep_atom s !! j = Some true).
  { intros j Hj. rewrite (sampled_keep0 j r Hj).
    by rewrite (sampled_keep0 j0 r Hj0) in Hk0. }
  split; [done|]. apply select_filter_whole; [congruence|done].
Qed.

Lemma count_zero (m : list bool) : count m = 0 <-> Forall (fun b => b = false) m.
Proof.
  split; [|apply count_all_false].
  unfold count, len. induction m as [|[] m IH]; intros Hm.
  - constructor.
  - rewrite filter_cons_True in Hm by done. simpl in Hm. lia.
  - constructor; [done|]. apply IH. by rewrite filter_cons_False in Hm.
Qed.

(** No kept atom is a sidechain atom exactly when [is_sidechain[is_keep_atom]]
    sums to 0. *)
Lemma count_select_zero (keep sc : list bool) :
  length keep = length sc ->
  count (select keep sc) = 0 <->
  forall i : nat, keep !! i = Some true -> sc !! i = Some false.
Proof.
  intros Hlen. rewrite count_zero, Forall_forall. split.
  - intros Hall i Hk. destruct (sc !! i) as [[]|] eqn:Hi; [|done|].
    + exfalso. assert (Hin : true ∈ select keep sc) by (apply elem_of_select; eauto).
      by apply Hall in Hin.
    + apply lookup_lt_Some in Hk. apply lookup_ge_None in Hi. lia.
  - intros Hall b Hb. apply elem_of_select in Hb as (j & Hk & Hj).
    specialize (Hall j Hk). congruence.
Qed.

(** C6 (as amended).  On a record the sampler can work on (see
    [well_formed]) the call completes steps 1 to 4 and does not raise: if
    no kept atom is a sidechain atom it returns [None], and if some kept
    atom is a sidechain atom it returns the subgraph (passed through the
    transform, if one is set).  And whatever the record, a subgraph the
    sampler returns holds a sidechain atom: its [is_sidechain] has the
    flags of the kept atoms, one of which is set. *)
Theorem sampler_none_iff_no_sidechain self idx u :
  (forall d,
     item (data (super self)) idx = Returned d ->
     well_formed self d ->
     exists s sc,
       subgraph_sampling self d u = Returned s /\
       is_sidechain d = Some sc /\
       length (is_keep_atom s) = length sc /\
       ((forall i : nat, is_keep_atom s !! i = Some true -> sc !! i = Some false) ->
        getitem self idx u = Returned None) /\
       ((exists i : nat, is_keep_atom s !! i = Some true /\ sc !! i = Some true) ->
        exists sub0,
          subgraph d s = Returned sub0 /\
          getitem self idx u
          = Returned (Some (apply_transform (transform (super self)) sub0)))) /\
  (forall sub,
     getitem self idx u = Returned (Some sub) ->
     exists d s sc sub0 sc',
       item (data (super self)) idx = Returned d /\
       subgraph_sampling self d u = Returned s /\
       is_sidechain d = Some sc /\
       subgraph d s = Returned sub0 /\
       sub = apply_transform (transform (super self)) sub0 /\
       is_sidechain sub0 = Some sc' /\
       (forall b, b ∈ sc' <->
                  exists i : nat, is_keep_atom s !! i = Some true /\ sc !! i = Some b) /\
       true ∈ sc').
Proof.
  split.
  - intros d Hd Hwf. destruct (subgraph_sampling_returns self d u Hwf) as [s Hs].
    destruct Hwf as [(at0 & pos0 & ei & et0 & sc & a2r & Hat & Hpos & Hei & Het & Hsc
                      & Ha2r & Hlat & Hlsc & Hla2r & Hlet & _)].
    destruct (subgraph_sampling_Returned _ _ _ _ Hs)
      as (sc' & pos' & ei' & a2r' & Hsam).
    assert (sc' = sc) as -> by (destruct Hsam; congruence).
    assert (pos' = pos0) as -> by (destruct Hsam; congruence).
    assert (ei' = ei) as -> by (destruct Hsam; congruence).
    assert (Hlen : length (is_keep_atom s) = length sc)
      by (destruct Hsam; congruence).
    assert (Hget : getitem self idx u
      = if count (select (is_keep_atom s) sc) =? 0 then Returned None
        else let! subgraph_data := subgraph d s in
             Returned (Some (apply_transform (transform (super self)) subgraph_data))).
    { unfold getitem. rewrite Hd. simpl. rewrite Hs. simpl. rewrite Hsc. simpl.
      unfold masked. by rewrite decide_True. }
    exists s, sc. split_and!; try done.
    + intros Hnone. apply (count_select_zero _ _ Hlen) in Hnone.
      by rewrite Hget, Hnone.
    + intros (i & Hk & Hi).
      assert (Hnz : count (select (is_keep_atom s) sc) <> 0).
      { intros Hz. rewrite (count_select_zero _ _ Hlen) in Hz.
        specialize (Hz i Hk). congruence. }
      destruct (subgraph_returns _ _ _ _ _ _ _ _ _ Hsam Hat Hlat Het Hlet)
        as [sub0 Hsub0].
      exists sub0. split; [done|]. rewrite Hget.
      apply Z.eqb_neq in Hnz. by rewrite Hnz, Hsub0.
  - intros sub Hsub.
    apply getitem_Returned_Some in Hsub
      as (d & s & sc & sub0 & Hd & Hs & Hsc & Hlen & Hcount & Hsub0 & ->).
    destruct (subgraph_Returned _ _ _ Hsub0) as (at0 & et0 & ei' & []).
    exists d, s, sc, sub0, (select (is_keep_atom s) sc).
    split_and!; try done.
    + by apply sub_is_sidechain0.
    + intros b. apply elem_of_select.
    + by apply count_pos.
Qed.

(** C7.  In every subgraph the sampler returns, with [M] kept atoms: the
    kept indices are in increasing order, [mapping] sends the [k]-th of
    them to [k] (so it is onto [0, M) and order-preserving) and every
    other atom to -1; every endpoint of a remapped edge is in [0, M), the
    length of the reduced [pos] and [atom_type]; and the [k]-th atom of the
    subgraph has the position and atom type of the [k]-th kept atom of the
    source record. *)
Theorem sampler_reindex self idx u sub :
  getitem self idx u = Returned (Some sub) ->
  exists d s sub0 pos0 at0 pos' at' ei',
    item (data (super self)) idx = Returned d /\
    subgraph_sampling self d u = Returned s /\
    subgraph d s = Returned sub0 /\
    sub = apply_transform (transform (super self)) sub0 /\
    pos d = Some pos0 /\ atom_type d = Some at0 /\
    pos sub0 = Some pos' /\ atom_type sub0 = Some at' /\
    edge_index sub0 = Some ei' /\
    len pos' = len (keep_index s) /\
    len at' = len (keep_index s) /\
    StronglySorted Z.lt (keep_index s) /\
    (forall i, i ∈ keep_index s <->
               0 <= i /\ is_keep_atom s !! Z.to_nat i = Some true) /\
    (forall (k : nat) i,
       keep_index s !! k = Some i -> mapping s !! Z.to_nat i = Some (Z.of_nat k)) /\
    (forall (i : nat) a,
       mapping s !! i = Some a ->
       a = -1 /\ Z.of_nat i ∉ keep_index s \/
       0 <= a < len (keep_index s) /\ keep_index s !! Z.to_nat a = Some (Z.of_nat i)) /\
    (forall (i j : nat) a b,
       mapping s !! i = Some a -> mapping s !! j = Some b ->
       0 <= a -> 0 <= b -> (i < j)%nat -> a < b) /\
    Forall (fun e : Z * Z => 0 <= e.1 < len (keep_index s) /\
                             0 <= e.2 < len (keep_index s)) ei' /\
    (forall (k : nat) i,
       keep_index s !! k = Some i ->
       pos' !! k = pos0 !! Z.to_nat i /\ at' !! k = at0 !! Z.to_nat i).
Proof.
  intros Hret.
  apply getitem_Returned_Some in Hret
    as (d & s & sc & sub0 & Hd & Hs & Hsc & Hlen & Hcount & Hsub0 & ->).
  destruct (subgraph_sampling_Returned _ _ _ _ Hs) as (sc' & pos0 & ei & a2r & []).
  destruct (subgraph_Returned _ _ _ Hsub0) as (at0 & et0 & ei' & []).
  exists d, s, sub0, pos0, at0, (select (is_keep_atom s) pos0),
    (select (is_keep_atom s) at0), ei'.
  assert (Hki : forall i, i ∈ keep_index s <->
               0 <= i /\ is_keep_atom s !! Z.to_nat i = Some true).
  { intros i. rewrite sampled_keep_index0. apply elem_of_select_arange.
    unfold len. lia. }
  assert (Hsorted : StronglySorted Z.lt (keep_index s)).
  { rewrite sampled_keep_index0. apply select_arange_sorted. }
  assert (Hmap : forall (i : nat) a,
       mapping s !! i = Some a ->
       a = -1 /\ Z.of_nat i ∉ keep_index s \/
       0 <= a < len (keep_index s) /\ keep_index s !! Z.to_nat a = Some (Z.of_nat i)).
  { intros i a Hi. apply lookup_lt_Some in Hi as Hlt.
    rewrite sampled_length_mapping0 in Hlt.
    destruct (decide (Z.of_nat i ∈ keep_index s)) as [Hin|Hout].
    - right. apply list_elem_of_lookup in Hin as [k Hk].
      pose proof (sampled_mapping_kept0 k _ Hk) as Hm. rewrite Nat2Z.id in Hm.
      assert (a = Z.of_nat k) as -> by congruence.
      apply lookup_lt_Some in Hk as Hk'. unfold len. rewrite Nat2Z.id.
      split; [lia|done].
    - left. rewrite (sampled_mapping_dropped0 i Hlt Hout) in Hi.
      by injection Hi as <-. }
  assert (Hlens : forall {A} (t : list A), length t = length pos0 ->
                    len (select (is_keep_atom s) t) = len (keep_index s)).
  { intros A t Ht. rewrite sampled_keep_index0.
    rewrite !select_length_count; [done|rewrite length_arange; unfold len; lia|congruence]. }
  split_and!; try done; eauto.
  - apply Hlens. congruence.
  - intros i j a b Hi Hj Ha Hb Hij.
    destruct (Hmap i a Hi) as [[-> _]|[_ Hki']]; [lia|].
    destruct (Hmap j b Hj) as [[-> _]|[_ Hkj']]; [lia|].
    destruct (decide (a < b)) as [|Hge]; [done|]. exfalso.
    destruct (decide (a = b)) as [->|Hne]; [rewrite Hki' in Hkj'; injection Hkj'; lia|].
    pose proof (StronglySorted_lookup_lt Z.lt _ (Z.to_nat b) (Z.to_nat a) _ _
                  Hsorted Hkj' Hki') as Hlt. lia.
  - specialize (sub_edges0 ei sampled_edge_index0).
    assert (Hkept : Forall (fun e : Z * Z =>
              item (is_keep_atom s) e.1 = Returned true /\
              item (is_keep_atom s) e.2 = Returned true)
              (select (is_keep_edge s) ei)).
    { apply Forall_forall. intros e He.
      apply elem_of_select in He as (k & Hk & He).
      destruct (Forall2_lookup_l _ _ _ _ _ sampled_edges0 He)
        as (b & Hb & b0 & b1 & Hb0 & Hb1 & ->).
      rewrite Hk in Hb. injection Hb as Hb. symmetry in Hb.
      apply andb_true_iff in Hb as [-> ->]. done. }
    assert (Hone : forall e a, item (is_keep_atom s) e = Returned true ->
                     item (mapping s) e = Returned a -> 0 <= a < len (keep_index s)).
    { intros e a Hk Hm.
      destruct (item_same_index (is_keep_atom s) (mapping s) e true a)
        as (j & Hj & Hj' & _); [congruence|done..|].
      destruct (Hmap j a Hj') as [[_ Hout]|[Hin _]]; [|done].
      exfalso. apply Hout, Hki. rewrite Nat2Z.id. split; [lia|done]. }
    clear -sub_edges0 Hkept Hone. induction sub_edges0 as [|e e' l l' [He1 He2] _ IH];
      [constructor|].
    apply Forall_cons in Hkept as [[Hk1 Hk2] Hkept]. constructor; eauto.
  - intros k i Hk. rewrite sampled_keep_index0 in Hk. split.
    + apply (select_arange_lookup (is_keep_atom s) pos0 k i); [done|done].
    + assert (Hla : length at0 = length pos0) by congruence.
      unfold len in Hk. rewrite <- Hla in Hk.
      apply (select_arange_lookup (is_keep_atom s) at0 k i); [congruence|done].
Qed.

End sampler.

(** ** ConformerPacker *)

Global Instance exn_eq_dec : EqDecision exn.
Proof. solve_decision. Defined.

Global Instance outcome_eq_dec {A} `{EqDecision A} : EqDecision (outcome A).
Proof. solve_decision. Defined.

Section packer.
Context `{TorchFloat} `{BondTable}.

(** The records of [l] whose molecule id is [k], in the order of [l]. *)
Definition members (by_idx : bool) (k : mol_key) (l : list Data) : list Data :=
  filter (fun d => molecule_id by_idx d = Returned k) l.

Lemma members_snoc by_idx k l d :
  members by_idx k (l ++ [d])
  = members by_idx k l
    ++ (if decide (molecule_id by_idx d = Returned k) then [d] else []).
Proof.
  unfold members. by rewrite filter_app.
Qed.

Lemma append_to_keys_old k d packed :
  k ∈ packed.*1 -> (append_to k d packed).*1 = packed.*1.
Proof.
  induction packed as [|[k' v] packed IH]; intros Hin; csimpl in *.
  - by apply elem_of_nil in Hin.
  - destruct (decide (k = k')) as [->|Hne]; [done|]. csimpl.
    apply elem_of_cons in Hin as [?|Hin]; [done|]. by rewrite IH.
Qed.

Lemma append_to_keys_new k d packed :
  k ∉ packed.*1 -> (append_to k d packed).*1 = packed.*1 ++ [k].
Proof.
  induction packed as [|[k' v] packed IH]; intros Hout; csimpl in *; [done|].
  apply not_elem_of_cons in Hout as [Hne Hout].
  rewrite decide_False by done. csimpl. by rewrite IH.
Qed.

Lemma elem_of_append_to k d packed k' v :
  NoDup (packed.*1) ->
  (k', v) ∈ append_to k d packed <->
  (k' <> k /\ (k', v) ∈ packed) \/
  (k' = k /\ ((exists v0, (k, v0) ∈ packed /\ v = v0 ++ [d]) \/
              ((k ∉ packed.*1) /\ v = [d]))).
Proof.
  assert (Hfst : forall (l : list (mol_key * list Data)) a b, (a, b) ∈ l -> a ∈ l.*1).
  { intros l a b Hab. apply list_elem_of_fmap. by exists (a, b). }
  induction packed as [|[k0 v0] packed IH]; intros Hnd; csimpl in *.
  - rewrite list_elem_of_singleton. split.
    + intros [= -> ->]. right. split; [done|]. right. split; [|done].
      by intros ?%elem_of_nil.
    + intros [[_ Hin]|[-> [(v0 & Hin & _)|[_ ->]]]]; [| |done];
        by apply elem_of_nil in Hin.
  - apply NoDup_cons in Hnd as [Hk0 Hnd]. specialize (IH Hnd).
    destruct (decide (k = k0)) as [->|Hne].
    + rewrite !elem_of_cons. split.
      * intros [[= -> ->]|Hin].
        -- right. split; [done|]. left. exists v0. split; [by left|done].
        -- left. split; [|by right]. intros ->. by apply Hk0, (Hfst _ _ v).
      * intros [[Hne [[= ? ?]|Hin]]|[-> Hcase]]; [done|by right|].
        destruct Hcase as [(v1 & Hin & ->)|[Hout _]].
        -- apply elem_of_cons in Hin as [[= <-]|Hin]; [by left|].
           exfalso. by apply Hk0, (Hfst _ _ v1).
        -- exfalso. apply Hout. by left.
    + rewrite !elem_of_cons, IH. split.
      * intros [[= -> ->]|[[Hne' Hin]|[-> Hcase]]].
        -- left. split; [done|by left].
        -- left. split; [done|by right].
        -- right. split; [done|].
           destruct Hcase as [(v1 & Hin & ->)|[Hout ->]].
           ++ left. exists v1. split; [by right|done].
           ++ right. split; [|done]. by intros [?|?].
      * intros [[Hne' [?|Hin]]|[-> Hcase]].
        -- by left.
        -- right. left. done.
        -- right. right. split; [done|].
           destruct Hcase as [(v1 & Hin & ->)|[Hout ->]].
           ++ apply elem_of_cons in Hin as [[= ? ?]|Hin]; [done|].
              left. by exists v1.
           ++ right. split; [|done]. intros Hin. apply Hout. by right.
Qed.

(** The state of [self._packed_data] after the records [seen]: one entry
    per molecule id met, holding the records with that id in order. *)
Definition grouped (by_idx : bool) (seen : list Data)
    (packed : list (mol_key * list Data)) : Prop :=
  NoDup (packed.*1) /\
  forall k v, (k, v) ∈ packed <-> v <> [] /\ v = members by_idx k seen.

Lemma grouped_append by_idx seen packed d k :
  molecule_id by_idx d = Returned k ->
  grouped by_idx seen packed ->
  grouped by_idx (seen ++ [d]) (append_to k d packed).
Proof.
  intros Hk [Hnd Hin]. split.
  - destruct (decide (k ∈ packed.*1)) as [Hold|Hnew];
      [by rewrite append_to_keys_old|rewrite append_to_keys_new by done].
    apply NoDup_app. split; [done|]. split; [|apply NoDup_singleton].
    by intros k' Hk' ->%list_elem_of_singleton.
  - intros k' v. rewrite elem_of_append_to by done. rewrite members_snoc.
    rewrite Hk. split.
    + intros [[Hne Hv]|[-> [(v0 & Hv0 & ->)|[Hout ->]]]].
      * apply Hin in Hv as [Hv ->]. rewrite decide_False by congruence.
        by rewrite app_nil_r.
      * apply Hin in Hv0 as [_ ->]. rewrite decide_True by done.
        split; [|done]. by intros [_ ?]%app_eq_nil.
      * rewrite decide_True by done. split; [done|].
        destruct (members by_idx k seen) as [|x l] eqn:Hm; [done|].
        exfalso. apply Hout, list_elem_of_fmap. exists (k, x :: l).
        split; [done|]. apply Hin. by rewrite Hm.
    + intros [Hv ->]. destruct (decide (k' = k)) as [->|Hne].
      * right. split; [done|]. rewrite decide_True by done.
        destruct (members by_idx k seen) as [|x l] eqn:Hm.
        -- right. split; [|done]. intros (kv & Hkv & Hkv')%list_elem_of_fmap.
           destruct kv as [k1 v1]. simpl in *. subst k1.
           apply Hin in Hkv' as [Hne ->]. by rewrite Hm in Hne.
        -- left. exists (x :: l). split; [|done]. apply Hin. by rewrite Hm.
      * left. split; [done|]. rewrite decide_False in * by congruence.
        rewrite app_nil_r in *. by apply Hin.
Qed.

Lemma fill_packed_grouped by_idx seen rest packed packed' :
  fill_packed by_idx rest packed = Returned packed' ->
  grouped by_idx seen packed ->
  grouped by_idx (seen ++ rest) packed'.
Proof.
  revert seen packed. induction rest as [|d rest IH]; intros seen packed Hret Hg;
    simpl in Hret.
  - injection Hret as <-. by rewrite app_nil_r.
  - apply bind_Returned in Hret as (k & Hk & Hret).
    rewrite (cons_middle d seen rest), app_assoc.
    eapply IH; [done|]. by apply grouped_append.
Qed.

Lemma grouped_nil by_idx : grouped by_idx [] [].
Proof.
  split; [constructor|]. intros k v. split; [by intros ?%elem_of_nil|].
  by intros [? ->].
Qed.

(** The record one group is packed into. *)
Lemma pack_Returned v p :
  pack v = Returned p ->
  exists first rest all_pos,
    v = first :: rest /\
    Forall2 (fun d ps => pos d = Some ps) v all_pos /\
    pos_ref p = Some (concat all_pos) /\
    num_pos_ref p = Some [len v] /\
    totalenergy p = None /\ boltzmannweight p = None /\
    pos p = pos first /\ atom_type p = atom_type first /\
    edge_index p = edge_index first /\ edge_type p = edge_type first /\
    smiles p = smiles first /\ idx p = idx first.
Proof.
  unfold pack. intros Hret.
  apply bind_Returned in Hret as (first & Hfirst & Hret).
  apply bind_Returned in Hret as (ref & Hcat & [= <-]). simpl.
  apply item_nonneg in Hfirst; [|done].
  destruct v as [|d rest]; [done|]. injection Hfirst as ->.
  apply cat_Returned in Hcat as (all_pos & Hall & _ & ->).
  assert (Hpos : Forall2 (fun d ps => pos d = Some ps) (first :: rest) all_pos).
  { apply list_eq_Forall2 in Hall. rewrite Forall2_fmap in Hall. exact Hall. }
  exists first, rest, all_pos. split_and!; try done.
  do 2 f_equal. unfold len. by rewrite length_fmap.
Qed.

Lemma pack_returns v :
  v <> [] -> Forall (fun d => is_Some (pos d)) v -> exists p, pack v = Returned p.
Proof.
  intros Hv Hpos. unfold pack.
  assert (Hall : exists all_pos, pos <$> v = Some <$> all_pos).
  { clear Hv. induction Hpos as [|d l [ps Hd] _ [all_pos IH]]; [by exists []|].
    exists (ps :: all_pos). csimpl. by rewrite Hd, IH. }
  destruct Hall as [all_pos Hall]. destruct v as [|first rest]; [done|].
  eexists. apply bind_Returned. exists first. split; [by apply item_nonneg|].
  apply bind_Returned. exists (concat all_pos). split; [|reflexivity].
  apply cat_Returned. exists all_pos. split; [done|]. split; [|done].
  by destruct all_pos.
Qed.

Lemma concat_length_uniform {A} (ls : list (list A)) N :
  Forall (fun l => len l = N) ls -> len (concat ls) = N * len ls.
Proof.
  unfold len. induction 1 as [|l ls Hl _ IH]; simpl; [lia|].
  rewrite length_app. lia.
Qed.

Lemma _pack_data_by_mol_Returned self new_data :
  _pack_data_by_mol self = Returned new_data ->
  exists packed,
    fill_packed (hasattr_idx self) (data self) [] = Returned packed /\
    grouped (hasattr_idx self) (data self) packed /\
    Forall2 (fun (kv : mol_key * list Data) p => pack kv.2 = Returned p)
            packed new_data.
Proof.
  unfold _pack_data_by_mol. intros Hret.
  apply bind_Returned in Hret as (packed & Hfill & Hret).
  exists packed. split; [done|]. split.
  - apply (fill_packed_grouped _ [] _ [] _ Hfill), grouped_nil.
  - by apply traverse_Returned.
Qed.

(** The packer completes when every record has the attribute its molecule
    id is read from and a [pos]. *)
Lemma _pack_data_by_mol_returns self :
  Forall (fun d => (exists k, molecule_id (hasattr_idx self) d = Returned k) /\
                   is_Some (pos d)) (data self) ->
  exists new_data, _pack_data_by_mol self = Returned new_data.
Proof.
  intros Hwf. unfold _pack_data_by_mol.
  assert (Hfill : forall rest packed,
            Forall (fun d => exists k, molecule_id (hasattr_idx self) d = Returned k) rest ->
            exists packed', fill_packed (hasattr_idx self) rest packed = Returned packed').
  { induction rest as [|d rest IH]; intros packed Hrest; simpl; [eauto|].
    apply Forall_cons in Hrest as [[k ->] Hrest]. simpl. by apply IH. }
  destruct (Hfill (data self) []) as [packed Hpacked].
  { eapply Forall_impl; [exact Hwf|]. by intros d [? _]. }
  rewrite Hpacked. simpl.
  apply traverse_total. apply Forall_forall. intros [k v] Hkv. simpl.
  pose proof (fill_packed_grouped _ [] _ [] _ Hpacked (grouped_nil _)) as [_ Hg].
  apply Hg in Hkv as [Hne ->]. apply pack_returns; [done|].
  apply Forall_forall. intros d Hd. unfold members in Hd.
  apply list_elem_of_filter in Hd as [_ Hd].
  eapply Forall_forall in Hwf as [_ Hpos]; done.
Qed.

(** C8.  When the packer completes, [self._packed_data] has one group per
    molecule id, holding the records with that id in their order in
    [self.data], and [self.new_data] has one record per group, in which:
    [pos_ref] is the concatenation of the members' [pos] in group order,
    of length [N * K] when each of the [K] members has [N] positions;
    [num_pos_ref] is [K]; [totalenergy] and [boltzmannweight] are absent;
    and for a group of one record, [num_pos_ref] is 1 and [pos_ref] is the
    [pos] of that record. *)
Theorem pack_concatenates_conformers self new_data :
  _pack_data_by_mol self = Returned new_data ->
  exists packed,
    fill_packed (hasattr_idx self) (data self) [] = Returned packed /\
    NoDup (packed.*1) /\
    (forall k v,
       (k, v) ∈ packed <->
       v <> [] /\
       v = filter (fun d => molecule_id (hasattr_idx self) d = Returned k)
                  (data self)) /\
    Forall2
      (fun (kv : mol_key * list Data) p =>
         exists all_pos,
           Forall2 (fun d ps => pos d = Some ps) kv.2 all_pos /\
           pos_ref p = Some (concat all_pos) /\
           num_pos_ref p = Some [len kv.2] /\
           totalenergy p = None /\ boltzmannweight p = None /\
           (forall N, Forall (fun ps => len ps = N) all_pos ->
                      len (concat all_pos) = N * len kv.2) /\
           (forall d, kv.2 = [d] ->
                      num_pos_ref p = Some [1] /\ pos_ref p = pos d))
      packed new_data.
Proof.
  intros Hret.
  apply _pack_data_by_mol_Returned in Hret as (packed & Hfill & [Hnd Hg] & Hpack).
  exists packed. split_and!; try done.
  eapply Forall2_impl; [exact Hpack|]. intros [k v] p Hp. simpl in *.
  apply pack_Returned in Hp
    as (first & rest & all_pos & -> & Hpos & Href & Hnum & He & Hw & _).
  exists all_pos. split_and!; try done.
  - intros N HN. rewrite (concat_length_uniform _ N HN).
    unfold len. by rewrite (Forall2_length _ _ _ Hpos).
  - intros d [= -> ->]. split; [done|].
    inversion Hpos as [|? ps ? ? Hd Hnil]; subst. inversion Hnil; subst.
    simpl in Href. by rewrite app_nil_r in Href; rewrite Hd.
Qed.

(** C10.  Each packed record keeps the [pos] of the first member of its
    group beside [pos_ref], of which it is the first rows, and has the
    [atom_type], [edge_index] and [edge_type] of that member. *)
Theorem pack_keeps_representative self new_data :
  _pack_data_by_mol self = Returned new_data ->
  exists packed,
    fill_packed (hasattr_idx self) (data self) [] = Returned packed /\
    Forall2
      (fun (kv : mol_key * list Data) p =>
         exists first rest pos1 ref,
           kv.2 = first :: rest /\
           pos first = Some pos1 /\
           pos p = Some pos1 /\
           pos_ref p = Some ref /\
           take (length pos1) ref = pos1 /\
           atom_type p = atom_type first /\
           edge_index p = edge_index first /\
           edge_type p = edge_type first)
      packed new_data.
Proof.
  intros Hret.
  apply _pack_data_by_mol_Returned in Hret as (packed & Hfill & _ & Hpack).
  exists packed. split; [done|].
  eapply Forall2_impl; [exact Hpack|]. intros [k v] p Hp. simpl in *.
  apply pack_Returned in Hp
    as (first & rest & all_pos & -> & Hpos & Href & _ & _ & _ & Hp1 & Hat & Hei
        & Het & _).
  inversion Hpos as [|? pos1 ? all_rest Hfirst Hrest]; subst.
  exists first, rest, pos1, (concat (pos1 :: all_rest)).
  split_and!; try done; try congruence.
  simpl. by rewrite take_app_length.
Qed.

End packer.

(** ** More of the splitter and the filters of [prepare_pdb2] *)

Section half.
Context `{NumpyPermutation}.

Lemma permutation_length n : 0 <= n -> len (permutation n) = n.
Proof.
  intros Hn. unfold len. rewrite (Permutation_length (permutation_perm n)).
  rewrite length_arange. lia.
Qed.

Lemma halves (l : list Z) (n : Z) :
  len l = n -> 0 <= n ->
  slice l (Some 0) (Some (n / 2)) = take (Z.to_nat (n / 2)) l /\
  slice l (Some (n / 2)) None = drop (Z.to_nat (n / 2)) l.
Proof.
  intros Hl Hn. unfold slice, slice_bound. simpl. rewrite Hl.
  pose proof (Z.div_pos n 2 ltac:(lia) ltac:(lia)).
  assert (n / 2 <= n) by (apply Z.div_le_upper_bound; lia).
  destruct (Z.ltb_spec (n / 2) 0); [lia|]. simpl.
  rewrite (Z.min_l (n / 2) n), (Z.min_l 0 n) by lia. split.
  - by rewrite Z.sub_0_r.
  - apply take_ge. rewrite length_drop. unfold len in Hl. lia.
Qed.

End half.

Section half_split.
Context `{NumpyPermutation}.

(** X1.  For a non-negative size, the first and the second half that
    [get_half_split] of [QM93D] and of [Geom] return are the two parts of
    one permutation of [0, size): concatenated they are that permutation,
    they share no index, and they hold [size // 2] and
    [size - size // 2] indices.  Each class accepts its own two dataset
    names only; any other name raises [Exception('Wrong dataset name')]. *)
Theorem get_half_split_halves (data_size : Z) :
  0 <= data_size ->
  exists first second,
    QM93D.get_half_split data_size "qm9_first_half" = Result first /\
    QM93D.get_half_split data_size "qm9_second_half" = Result second /\
    Geom.get_half_split data_size "Geom_first_half" = Result first /\
    Geom.get_half_split data_size "Geom_second_half" = Result second /\
    first ++ second = permutation data_size /\
    first ++ second ≡ₚ arange data_size /\
    len first = data_size / 2 /\
    len second = data_size - data_size / 2 /\
    (forall i, i ∈ first -> i ∉ second) /\
    (forall dataset,
       dataset <> "qm9_first_half"%string -> dataset <> "qm9_second_half"%string ->
       QM93D.get_half_split data_size dataset = Exception "Wrong dataset name") /\
    (forall dataset,
       dataset <> "Geom_first_half"%string -> dataset <> "Geom_second_half"%string ->
       Geom.get_half_split data_size dataset = Exception "Wrong dataset name").
Proof.
  intros Hn.
  destruct (halves (permutation data_size) data_size (permutation_length _ Hn) Hn)
    as [Hfirst Hsecond].
  pose proof (Z.div_pos data_size 2 ltac:(lia) ltac:(lia)) as Hh0.
  assert (Hh1 : data_size / 2 <= data_size) by (apply Z.div_le_upper_bound; lia).
  pose proof (permutation_length _ Hn) as Hlen. unfold len in Hlen.
  exists (take (Z.to_nat (data_size / 2)) (permutation data_size)),
         (drop (Z.to_nat (data_size / 2)) (permutation data_size)).
  unfold QM93D.get_half_split, Geom.get_half_split. simpl.
  rewrite Hfirst, Hsecond. split_and!; try done.
  - apply take_drop.
  - rewrite take_drop. apply permutation_perm.
  - unfold len. rewrite length_take. lia.
  - unfold len. rewrite length_drop. lia.
  - intros i Hi1 Hi2.
    assert (Hnd : NoDup (permutation data_size)).
    { rewrite permutation_perm. apply NoDup_arange. }
    rewrite <- (take_drop (Z.to_nat (data_size / 2))) in Hnd.
    apply NoDup_app in Hnd as (_ & Hdis & _). by apply (Hdis i).
  - intros dataset H1 H2.
    apply String.eqb_neq in H1, H2. by rewrite H1, H2.
  - intros dataset H1 H2.
    apply String.eqb_neq in H1, H2. by rewrite H1, H2.
Qed.

End half_split.

(** The number of maximal runs of ['+'] in a mask; [inside] tells whether
    the character before was a ['+']. *)
Fixpoint plus_segments (inside : bool) (msk : list ascii) : Z :=
  match msk with
  | [] => 0
  | c :: msk' =>
      if Ascii.eqb c "+" then (if inside then 0 else 1) + plus_segments true msk'
      else plus_segments false msk'
  end.

Lemma plus_segments_changes (c : ascii) (msk : list ascii) :
  Forall (fun c => c = "+"%char \/ c = "-"%char) (c :: msk) ->
  plus_segments false (c :: msk)
  = if Ascii.eqb c "-" then (prepare_pdb2.sum (prepare_pdb2.changes c msk) + 1) / 2
    else prepare_pdb2.sum (prepare_pdb2.changes c msk) / 2 + 1.
Proof.
  revert c. induction msk as [|c' msk IH]; intros c Hall.
  - apply Forall_cons in Hall as [[-> | ->] _]; reflexivity.
  - apply Forall_cons in Hall as [Hc Hall]. specialize (IH c' Hall).
    assert (Hs0 : 0 <= prepare_pdb2.sum (prepare_pdb2.changes c' msk)).
    { clear. revert c'. induction msk as [|x msk IH]; intros c'; simpl; [done|].
      specialize (IH x). unfold prepare_pdb2.sum in *.
      destruct (Ascii.eqb x c'); lia. }
    apply Forall_cons in Hall as [Hc' _].
    change (prepare_pdb2.changes c (c' :: msk))
      with ((if Ascii.eqb c' c then 0 else 1) :: prepare_pdb2.changes c' msk).
    change (prepare_pdb2.sum (?x :: ?l)) with (x + prepare_pdb2.sum l).
    set (s := prepare_pdb2.sum (prepare_pdb2.changes c' msk)) in *.
    destruct Hc as [-> | ->], Hc' as [-> | ->]; simpl in IH |- *.
    + by rewrite !Z.add_0_l.
    + rewrite IH, (Z.add_comm 1 s). lia.
    + rewrite IH. replace (1 + s + 1) with (s + 1 * 2) by lia.
      by rewrite Z.div_add by lia.
    + by rewrite Z.add_0_l.
Qed.

(** X2.  On a mask of ['+'] and ['-'] characters, [get_num_plusseg] of
    [prepare_pdb2] returns the number of maximal runs of ['+']; on the
    empty mask it raises IndexError. *)
Theorem get_num_plusseg_counts_runs (msk : string) :
  Forall (fun c => c = "+"%char \/ c = "-"%char) (list_ascii_of_string msk) ->
  prepare_pdb2.get_num_plusseg msk
  = match msk with
    | EmptyString => Raised IndexError
    | _ => Returned (plus_segments false (list_ascii_of_string msk))
    end.
Proof.
  intros Hall. unfold prepare_pdb2.get_num_plusseg.
  destruct msk as [|c msk]; [done|].
  change (list_ascii_of_string (String c msk))
    with (c :: list_ascii_of_string msk) in *.
  rewrite (plus_segments_changes c (list_ascii_of_string msk) Hall).
  change (prepare_pdb2.sum (0 :: ?l)) with (0 + prepare_pdb2.sum l).
  rewrite Z.add_0_l.
  change (item (c :: list_ascii_of_string msk) 0) with (Returned (A := ascii) c).
  simpl. by destruct (Ascii.eqb c "-").
Qed.

(** ** Methods of the collection wrappers *)

Lemma sorted_spec (s : gset Z) :
  StronglySorted Z.lt (sorted s) /\ forall z, z ∈ sorted s <-> z ∈ s.
Proof.
  unfold sorted.
  assert (Hperm : merge_sort Z.le (elements s) ≡ₚ elements s)
    by apply merge_sort_Permutation.
  split.
  - assert (Hs : Sorted Z.le (merge_sort Z.le (elements s)))
      by (apply (Sorted_merge_sort Z.le)).
    assert (Hnd : NoDup (merge_sort Z.le (elements s)))
      by (rewrite Hperm; apply NoDup_elements).
    apply Sorted_StronglySorted; [intros x y z; lia|].
    by apply Sorted_le_NoDup_lt.
  - intros z. by rewrite Hperm, elem_of_elements.
Qed.

Section wrappers.
Context `{TorchFloat} `{BondTable}.

Lemma update_all_spec (field : Data -> option (list Z)) graphs types :
  match Conformation.update_all field graphs types with
  | Returned types' =>
      Forall (fun d => is_Some (field d)) graphs /\
      forall z, z ∈ types' <->
                z ∈ types \/ exists d t, d ∈ graphs /\ field d = Some t /\ z ∈ t
  | Raised e =>
      e = AttributeError /\ Exists (fun d => field d = None) graphs
  end.
Proof.
  revert types. induction graphs as [|d graphs IH]; intros types; simpl.
  - split; [constructor|]. intros z. split; [by left|].
    intros [?|(d & t & Hd & _)]; [done|]. by apply elem_of_nil in Hd.
  - destruct (field d) as [t|] eqn:Ht; simpl.
    + specialize (IH (types ∪ list_to_set t)).
      destruct (Conformation.update_all field graphs (types ∪ list_to_set t))
        as [types'|e].
      * destruct IH as [Hall Hin]. split; [constructor; [by eexists|done]|].
        intros z. rewrite Hin, elem_of_union, elem_of_list_to_set. split.
        -- intros [[?|?]|(d' & t' & Hd' & Ht' & Hz)]; [by left| |].
           ++ right. exists d, t. split; [by left|done].
           ++ right. exists d', t'. split; [by right|done].
        -- intros [?|(d' & t' & Hd' & Ht' & Hz)]; [by left; left|].
           apply elem_of_cons in Hd' as [->|Hd'].
           ++ left. right. congruence.
           ++ right. eauto.
      * destruct IH as [-> Hex]. split; [done|]. by right.
    + split; [done|]. by left.
Qed.

End wrappers.

Lemma traverse_Raised {A B} (f : A -> outcome B) (l : list A) e :
  traverse f l = Raised e -> exists x, x ∈ l /\ f x = Raised e.
Proof.
  induction l as [|x l IH]; simpl; [done|].
  destruct (f x) as [y|e'] eqn:Hx; simpl.
  - destruct (traverse f l) as [ys|e'']; simpl; [done|].
    intros [= ->]. destruct IH as (x' & Hin & Hx'); [done|].
    exists x'. split; [by right|done].
  - intros [= ->]. exists x. split; [by left|done].
Qed.

(** The distinct entries of a list, in the order of their first
    occurrence. *)
Definition first_seen {A} `{EqDecision A} (l : list A) : list A :=
  foldl (fun seen k => if decide (k ∈ seen) then seen else seen ++ [k]) [] l.

Section wrappers2.
Context `{TorchFloat} `{BondTable}.

(** X3.  [_atom_types] and [_edge_types] return the values that occur in
    the [atom_type] (or [edge_type]) of some record of the store, each
    once and in strictly ascending order; they raise AttributeError
    exactly when a record has no such attribute. *)
Theorem types_sorted_distinct (self : ConformationDataset) :
  match Conformation._atom_types self with
  | Returned atom_types =>
      Forall (fun d => is_Some (atom_type d)) (data self) /\
      StronglySorted Z.lt atom_types /\
      forall z, z ∈ atom_types <->
                exists d t, d ∈ data self /\ atom_type d = Some t /\ z ∈ t
  | Raised e =>
      e = AttributeError /\ Exists (fun d => atom_type d = None) (data self)
  end /\
  match Conformation._edge_types self with
  | Returned edge_types =>
      Forall (fun d => is_Some (edge_type d)) (data self) /\
      StronglySorted Z.lt edge_types /\
      forall z, z ∈ edge_types <->
                exists d t, d ∈ data self /\ edge_type d = Some t /\ z ∈ t
  | Raised e =>
      e = AttributeError /\ Exists (fun d => edge_type d = None) (data self)
  end.
Proof.
  unfold Conformation._atom_types, Conformation._edge_types. split.
  - pose proof (update_all_spec atom_type (data self) ∅) as Hspec.
    destruct (Conformation.update_all atom_type (data self) ∅) as [types|e];
      simpl; [|done].
    destruct Hspec as [Hall Hin]. destruct (sorted_spec types) as [Hs Hm].
    split_and!; try done. intros z. rewrite Hm, Hin. split; [|by right].
    intros [Hz|?]; [|done]. by apply elem_of_empty in Hz.
  - pose proof (update_all_spec edge_type (data self) ∅) as Hspec.
    destruct (Conformation.update_all edge_type (data self) ∅) as [types|e];
      simpl; [|done].
    destruct Hspec as [Hall Hin]. destruct (sorted_spec types) as [Hs Hm].
    split_and!; try done. intros z. rewrite Hm, Hin. split; [|by right].
    intros [Hz|?]; [|done]. by apply elem_of_empty in Hz.
Qed.

Lemma item_spec {A} (l : list A) (idx : Z) :
  (- len l <= idx < len l ->
   exists x, l !! Z.to_nat (idx mod len l) = Some x /\ item l idx = Returned x) /\
  (~ (- len l <= idx < len l) -> item l idx = Raised IndexError).
Proof.
  split.
  - intros Hidx. destruct (item_in_range l idx Hidx) as [x Hx]. exists x.
    split; [|done]. apply item_Returned in Hx as (j & Hj & Hji).
    replace (Z.to_nat (idx mod len l)) with j; [done|].
    destruct (Z.ltb_spec idx 0).
    + rewrite <- (Z.mod_add idx 1 (len l)) by lia.
      rewrite Z.mod_small by lia. lia.
    + rewrite Z.mod_small by lia. lia.
  - intros Hidx. destruct (item l idx) as [x|e] eqn:Hx.
    + exfalso. apply Hidx. apply item_Returned in Hx as (j & Hj & Hji).
      apply lookup_lt_Some in Hj. unfold len.
      destruct (Z.ltb_spec idx 0); unfold len in *; lia.
    + by apply item_Raised in Hx as ->.
Qed.

(** X4.  [ConformationDataset.__getitem__(idx)] returns for the indices
    of [-len, len), [len] being [__len__()]: the record at position
    [idx mod len] of the store, passed through the transform if one is
    set.  Every other index raises IndexError. *)
Theorem ConformationDataset_getitem_bounds (self : ConformationDataset) (idx : Z) :
  (- Conformation.__len__ self <= idx < Conformation.__len__ self ->
   exists d,
     data self !! Z.to_nat (idx mod Conformation.__len__ self) = Some d /\
     Conformation.__getitem__ self idx
     = Returned (apply_transform (transform self) d)) /\
  (~ (- Conformation.__len__ self <= idx < Conformation.__len__ self) ->
   Conformation.__getitem__ self idx = Raised IndexError).
Proof.
  unfold Conformation.__len__, Conformation.__getitem__.
  destruct (item_spec (data self) idx) as [Hin Hout]. split.
  - intros Hidx. destruct (Hin Hidx) as (d & Hd & ->). by exists d.
  - intros Hidx. by rewrite (Hout Hidx).
Qed.

Lemma fill_packed_keys by_idx rest packed packed' :
  fill_packed by_idx rest packed = Returned packed' ->
  exists keys,
    traverse (molecule_id by_idx) rest = Returned keys /\
    packed'.*1
    = foldl (fun seen k => if decide (k ∈ seen) then seen else seen ++ [k])
            (packed.*1) keys /\
    foldr Z.add 0 ((fun kv : mol_key * list Data => len kv.2) <$> packed')
    = foldr Z.add 0 ((fun kv : mol_key * list Data => len kv.2) <$> packed)
      + len rest.
Proof.
  revert packed. induction rest as [|d rest IH]; intros packed Hret; simpl in Hret.
  - injection Hret as <-. exists []. split; [done|]. split; [done|].
    unfold len. simpl. lia.
  - apply bind_Returned in Hret as (k & Hk & Hret).
    destruct (IH _ Hret) as (keys & Hkeys & Hfst & Hsum).
    exists (k :: keys). simpl. rewrite Hk. simpl. rewrite Hkeys. simpl.
    split; [done|]. split.
    + rewrite Hfst. f_equal. destruct (decide (k ∈ packed.*1)) as [Hin|Hout].
      * by apply append_to_keys_old.
      * by apply append_to_keys_new.
    + rewrite Hsum. unfold len. simpl.
      assert (Hstep : foldr Z.add 0
                ((fun kv : mol_key * list Data => Z.of_nat (length kv.2))
                   <$> append_to k d packed)
              = foldr Z.add 0
                  ((fun kv : mol_key * list Data => Z.of_nat (length kv.2))
                     <$> packed) + 1).
      { clear. induction packed as [|[k' v] packed IH]; csimpl; [done|].
        destruct (decide (k = k')) as [->|Hne]; csimpl.
        - rewrite length_app. simpl. lia.
        - rewrite IH. lia. }
      rewrite Hstep. lia.
Qed.

Lemma fill_packed_Raised by_idx rest packed e :
  fill_packed by_idx rest packed = Raised e ->
  e = AttributeError /\
  Exists (fun d => molecule_id by_idx d = Raised AttributeError) rest.
Proof.
  revert packed. induction rest as [|d rest IH]; intros packed Hret; simpl in Hret;
    [done|].
  destruct (molecule_id by_idx d) as [k|e'] eqn:Hk; simpl in Hret.
  - destruct (IH _ Hret) as [-> Hex]. split; [done|]. by right.
  - injection Hret as ->.
    assert (e = AttributeError) as ->.
    { unfold molecule_id in Hk.
      destruct by_idx; [destruct (idx d)|destruct (smiles d)]; simpl in Hk;
        congruence. }
    split; [done|]. by left.
Qed.

Lemma cat_Raised {A} (tensors : list (option (list A))) e :
  cat tensors = Raised e ->
  e = TypeError /\ None ∈ tensors \/ e = RuntimeError /\ tensors = [].
Proof.
  unfold cat. intros Hret.
  destruct (traverse subscript tensors) as [ts|e'] eqn:Hts; simpl in Hret.
  - right. destruct ts; [|done]. injection Hret as <-. split; [done|].
    apply traverse_Returned in Hts. by inversion Hts.
  - left. injection Hret as ->.
    apply traverse_Raised in Hts as ([t|] & Hin & Ht); simpl in Ht; [done|].
    by injection Ht as <-.
Qed.

(** X5.  [_pack_data_by_mol] completes exactly when every record of the
    store has the attribute its molecule id is read from ([idx] or
    [smiles]) and a [pos].  It raises AttributeError when a record lacks
    the attribute of its molecule id, and otherwise TypeError when a
    record has no [pos]: [d.pos] is then [None], which [torch.cat] does
    not accept. *)
Theorem pack_requires_attributes (self : ConformationDataset) :
  match _pack_data_by_mol self with
  | Returned new_data =>
      Forall (fun d => (exists k, molecule_id (hasattr_idx self) d = Returned k) /\
                       is_Some (pos d)) (data self)
  | Raised e =>
      (e = AttributeError /\
       Exists (fun d => molecule_id (hasattr_idx self) d = Raised AttributeError)
              (data self)) \/
      (e = TypeError /\
       Forall (fun d => exists k, molecule_id (hasattr_idx self) d = Returned k)
              (data self) /\
       Exists (fun d => pos d = None) (data self))
  end.
Proof.
  unfold _pack_data_by_mol.
  destruct (fill_packed (hasattr_idx self) (data self) []) as [packed|e] eqn:Hfill;
    simpl.
  - pose proof (fill_packed_grouped _ [] _ [] _ Hfill (grouped_nil _)) as [Hnd Hg].
    simpl in Hg.
    destruct (fill_packed_keys _ _ _ _ Hfill) as (keys & Hkeys & _).
    apply traverse_Returned in Hkeys.
    assert (Hids : Forall (fun d => exists k,
                             molecule_id (hasattr_idx self) d = Returned k)
                          (data self)).
    { apply Forall_forall. intros d Hd. apply list_elem_of_lookup in Hd as [i Hi].
      destruct (Forall2_lookup_l _ _ _ _ _ Hkeys Hi) as (k & _ & Hk). by exists k. }
    destruct (traverse (fun kv : mol_key * list Data => pack kv.2) packed)
      as [new_data|e] eqn:Hpack.
    + apply traverse_Returned in Hpack.
      apply Forall_forall. intros d Hd.
      apply list_elem_of_lookup in Hd as [i Hi].
      destruct (Forall2_lookup_l _ _ _ _ _ Hkeys Hi) as (k & _ & Hk).
      split; [by exists k|].
      assert (Hin : (k, members (hasattr_idx self) k (data self)) ∈ packed).
      { apply Hg. split; [|done]. intros Hnil.
        assert (Hd : d ∈ members (hasattr_idx self) k (data self)).
        { apply list_elem_of_filter. split; [done|].
          by eapply list_elem_of_lookup_2. }
        rewrite Hnil in Hd. by apply elem_of_nil in Hd. }
      apply list_elem_of_lookup in Hin as [j Hj].
      destruct (Forall2_lookup_l _ _ _ _ _ Hpack Hj) as (p & _ & Hp).
      simpl in Hp. apply pack_Returned in Hp
        as (first & rest & all_pos & _ & Hpos & _).
      assert (Hd : d ∈ members (hasattr_idx self) k (data self)).
      { apply list_elem_of_filter. split; [done|]. by eapply list_elem_of_lookup_2. }
      apply list_elem_of_lookup in Hd as [i' Hi'].
      destruct (Forall2_lookup_l _ _ _ _ _ Hpos Hi') as (ps & _ & Hps).
      by exists ps.
    + right.
      apply traverse_Raised in Hpack as ([k v] & Hkv & Hraise). simpl in Hraise.
      apply Hg in Hkv as [Hne Hv].
      unfold pack in Hraise. destruct v as [|first rest]; [done|].
      change (item (first :: rest) 0) with (Returned first) in Hraise.
      apply bind_Raised in Hraise as [Hraise|(x & _ & Hraise)]; [done|].
      apply bind_Raised in Hraise as [Hcat|(ref & _ & Hraise)]; [|done].
      apply cat_Raised in Hcat as [[-> Hnone]|[_ Hnil]]; [|done].
      split; [done|]. split; [done|].
      apply list_elem_of_fmap in Hnone as (d & Hpd & Hd).
      apply Exists_exists. exists d. split; [|done].
      rewrite Hv in Hd. unfold members in Hd.
      by apply list_elem_of_filter in Hd as [_ ?].
  - left. by apply fill_packed_Raised in Hfill as [-> Hex].
Qed.

End wrappers2.

Section packed_methods.
Context `{TorchFloat} `{BondTable}.

Lemma molecule_id_fields by_idx (d d' : Data) :
  smiles d' = smiles d -> idx d' = idx d ->
  molecule_id by_idx d' = molecule_id by_idx d.
Proof. unfold molecule_id. by intros -> ->. Qed.

(** X6.  A [PackedConformationDataset] that [__init__] builds holds one
    record per molecule id of the store, in the order in which the ids
    first occur: [__len__()] is the number of distinct ids, the record
    of an id has [num_pos_ref] equal to the number of records of the store
    with that id, and these numbers add up to the size of the store.
    [__getitem__(i)] returns the packed record at [i mod len] (through the
    transform) for [i] in [-len, len) and raises IndexError otherwise. *)
Theorem Packed_one_record_per_molecule (self : ConformationDataset)
    (p : Packed.PackedConformationDataset) :
  Packed.__init__ self = Returned p ->
  exists keys sizes,
    traverse (molecule_id (hasattr_idx self)) (data self) = Returned keys /\
    traverse (molecule_id (hasattr_idx self)) (Packed.new_data p)
    = Returned (first_seen keys) /\
    Packed.__len__ p = len (first_seen keys) /\
    Forall2 (fun q K => num_pos_ref q = Some [K] /\ 0 < K)
            (Packed.new_data p) sizes /\
    Forall2 (fun k K => K = len (filter (fun k' => k' = k) keys))
            (first_seen keys) sizes /\
    foldr Z.add 0 sizes = len (data self) /\
    (forall i : Z,
       - Packed.__len__ p <= i < Packed.__len__ p ->
       exists q,
         Packed.new_data p !! Z.to_nat (i mod Packed.__len__ p) = Some q /\
         Packed.__getitem__ p i
         = Returned (apply_transform (transform self) q)) /\
    (forall i : Z,
       ~ (- Packed.__len__ p <= i < Packed.__len__ p) ->
       Packed.__getitem__ p i = Raised IndexError).
Proof.
  unfold Packed.__init__. intros Hret.
  apply bind_Returned in Hret as (types & _ & Hret).
  apply bind_Returned in Hret as (new_data & Hpack & [= <-]).
  unfold Packed.__len__, Packed.__getitem__. simpl.
  apply _pack_data_by_mol_Returned in Hpack as (packed & Hfill & [Hnd Hg] & Hpack).
  destruct (fill_packed_keys _ _ _ _ Hfill) as (keys & Hkeys & Hfst & Hsum).
  simpl in Hfst, Hsum. fold (first_seen keys) in Hfst.
  exists keys, ((fun kv : mol_key * list Data => len kv.2) <$> packed).
  assert (Hlen : length packed = length new_data) by (by eapply Forall2_length).
  assert (Hrec : forall (i : nat) k v q,
            packed !! i = Some (k, v) -> new_data !! i = Some q ->
            molecule_id (hasattr_idx self) q = Returned k /\
            num_pos_ref q = Some [len v] /\ 0 < len v /\
            len v = len (filter (fun k' => k' = k) keys)).
  { intros i k v q Hi Hq.
    destruct (Forall2_lookup_l _ _ _ _ _ Hpack Hi) as (q' & Hq' & Hp).
    assert (q' = q) as -> by congruence. simpl in Hp.
    apply pack_Returned in Hp
      as (first & rest & all_pos & Hv & _ & _ & Hnum & _ & _ & _ & _ & _ & _ & Hsm & Hid).
    rewrite (molecule_id_fields _ first q Hsm Hid).
    assert (Hin : (k, v) ∈ packed) by (by eapply list_elem_of_lookup_2).
    apply Hg in Hin as [Hne Hmem]. split_and!.
    - assert (Hf : first ∈ members (hasattr_idx self) k (data self)).
      { rewrite <- Hmem, Hv. by left. }
      unfold members in Hf. by apply list_elem_of_filter in Hf as [? _].
    - done.
    - rewrite Hv. unfold len. simpl. lia.
    - rewrite Hmem. unfold members. clear -Hkeys.
      apply traverse_Returned in Hkeys. unfold len. f_equal.
      induction Hkeys as [|d k' l ks Hd _ IH]; [done|].
      destruct (decide (k' = k)) as [->|Hne].
      + rewrite !filter_cons_True by done. simpl. by rewrite IH.
      + rewrite !filter_cons_False by congruence. done. }
  split_and!.
  - done.
  - rewrite <- Hfst. apply traverse_Returned.
    apply Forall2_same_length_lookup_2; [by rewrite length_fmap|].
    intros i q k Hq Hk. rewrite list_lookup_fmap in Hk.
    destruct (packed !! i) as [[k' v]|] eqn:Hi; [|done]. injection Hk as <-.
    by destruct (Hrec i k' v q Hi Hq) as [? _].
  - unfold len. by rewrite <- Hfst, length_fmap, Hlen.
  - apply Forall2_same_length_lookup_2; [by rewrite length_fmap|].
    intros i q K Hq HK. rewrite list_lookup_fmap in HK.
    destruct (packed !! i) as [[k' v]|] eqn:Hi; [|done]. injection HK as <-.
    by destruct (Hrec i k' v q Hi Hq) as (_ & ? & ? & _).
  - rewrite <- Hfst. apply Forall2_same_length_lookup_2; [by rewrite !length_fmap|].
    intros i k K Hk HK. rewrite list_lookup_fmap in Hk. rewrite list_lookup_fmap in HK.
    destruct (packed !! i) as [[k' v]|] eqn:Hi; [|done].
    injection Hk as <-. injection HK as <-.
    destruct (lookup_lt_is_Some_2 new_data i) as [q Hq].
    { rewrite <- Hlen. by eapply lookup_lt_Some. }
    by destruct (Hrec i k' v q Hi Hq) as (_ & _ & _ & ?).
  - rewrite Hsum. simpl. lia.
  - intros i Hi. destruct (item_spec new_data i) as [Hin _].
    destruct (Hin Hi) as (q & Hq & ->). by exists q.
  - intros i Hi. destruct (item_spec new_data i) as [_ Hout].
    by rewrite (Hout Hi).
Qed.

End packed_methods.

(** ** More of the GraphRecordBuilder *)

Lemma slice_inner_lookup {A} (l : list A) (i : nat) x :
  slice l (Some 1) (Some (-1)) !! i = Some x <->
  l !! S i = Some x /\ (S (S i) < length l)%nat.
Proof.
  unfold slice, slice_bound. simpl. unfold len.
  destruct l as [|y l].
  { simpl. split; [done|]. intros [_ ?]. lia. }
  assert (Z.min 1 (Z.of_nat (length (y :: l))) = 1) as -> by (simpl; lia).
  assert (Z.to_nat (Z.max (-1 + Z.of_nat (length (y :: l))) 0 - 1)
          = (length l - 1)%nat) as -> by (simpl; lia).
  change (Z.to_nat 1) with 1%nat. simpl. rewrite drop_0, lookup_take_Some. split.
  - intros [? ?]. split; [done|lia].
  - intros [? ?]. split; [done|lia].
Qed.

Section builder_more.
Context `{TorchFloat} `{BondTable} `{TorchSort}.

Lemma pdb_atom_checked pdb_infos index atom a :
  0 <= index ->
  pdb_atom pdb_infos index atom = Returned a ->
  exists info ref_line number,
    GetPDBResidueInfo atom = Some info /\
    pdb_infos !! Z.to_nat index = Some ref_line /\
    str_split ref_line !! 2%nat = Some (str_strip (GetName info)) /\
    str_split ref_line !! 3%nat = Some (str_strip (GetResidueName info)) /\
    str_split ref_line !! 4%nat = Some number /\
    int_of_str number = Returned (GetResidueNumber info).
Proof.
  unfold pdb_atom. intros Hindex Hret.
  apply bind_Returned in Hret as (ref_line & Hline & Hret).
  apply bind_Returned in Hret as (info & Hinfo & Hret).
  apply bind_Returned in Hret as (r3 & Hr3 & Hret).
  apply bind_Returned in Hret as ([] & Ha3 & Hret).
  apply bind_Returned in Hret as (r2 & Hr2 & Hret).
  apply bind_Returned in Hret as ([] & Ha2 & Hret).
  apply bind_Returned in Hret as (r4 & Hr4 & Hret).
  apply bind_Returned in Hret as (n4 & Hn4 & Hret).
  apply bind_Returned in Hret as ([] & Ha4 & Hret).
  destruct (GetPDBResidueInfo atom) as [info'|]; simpl in Hinfo; [|done].
  assert (info' = info) as -> by congruence. clear Hinfo.
  apply item_nonneg in Hline; [|done].
  apply item_nonneg in Hr2; [|done]. apply item_nonneg in Hr3; [|done].
  apply item_nonneg in Hr4; [|done].
  unfold assert_ in Ha2, Ha3, Ha4.
  destruct (String.eqb (str_strip (GetResidueName info)) r3) eqn:E3; [|done].
  destruct (String.eqb (str_strip (GetName info)) r2) eqn:E2; [|done].
  destruct (GetResidueNumber info =? n4) eqn:E4; [|done].
  apply String.eqb_eq in E3, E2. apply Z.eqb_eq in E4. subst r3 r2 n4.
  change (Z.to_nat 2) with 2%nat in Hr2. change (Z.to_nat 3) with 3%nat in Hr3.
  change (Z.to_nat 4) with 4%nat in Hr4.
  exists info, ref_line, r4. split_and!; done.
Qed.

(** The steps of [pdb_residues], when it completes. *)
Lemma pdb_residues_steps mol lines r :
  pdb_residues mol lines = Returned r ->
  exists conf per_atom m r2a,
    GetConformers mol = [conf] /\ GetId conf = 0 /\
    res_pos r = (fun p : double * double * double =>
                   (to_float32 p.1.1, to_float32 p.1.2, to_float32 p.2))
                  <$> GetPositions conf /\
    Forall2 (fun ia a => pdb_atom (slice lines (Some 1) (Some (-1))) ia.1 ia.2
                         = Returned a)
            (zip (arange (GetNumAtoms mol)) (GetAtoms mol)) per_atom /\
    res_atomic_number r = (fun a : Z * bool * bool * Z => a.1.1.1) <$> per_atom /\
    res_is_alpha r = (fun a : Z * bool * bool * Z => a.1.1.2) <$> per_atom /\
    res_is_sidechain r = (fun a : Z * bool * bool * Z => a.1.2) <$> per_atom /\
    res_atom2res r = (fun a : Z * bool * bool * Z => a.2 - m) <$> per_atom /\
    Forall (fun res => 0 <= res) (res_atom2res r) /\
    length per_atom = length (GetAtoms mol) /\
    length (res_pos r) = length (GetAtoms mol) /\
    put (replicate 5000 (-1)) (select (res_is_alpha r) (res_atom2res r))
        (select (res_is_alpha r) (arange (len (res_pos r)))) = Returned r2a /\
    gather r2a (res_atom2res r) = Returned (res_atom2alpha_index r).
Proof.
  unfold pdb_residues. intros Hret.
  apply bind_Returned in Hret as ([] & Hone & Hret).
  apply bind_Returned in Hret as (pos0 & Hpos & Hret).
  apply bind_Returned in Hret as (per_atom & Hper & Hret).
  apply bind_Returned in Hret as (a2r & Hnorm & Hret).
  apply bind_Returned in Hret as (alpha_index & Hai & Hret).
  apply bind_Returned in Hret as (alpha_res & Har & Hret).
  apply bind_Returned in Hret as (r2a & Hput & Hret).
  apply bind_Returned in Hret as (a2a & Hgather & [= <-]). simpl.
  unfold assert_ in Hone.
  destruct (Z.eqb_spec (GetNumConformers mol) 1) as [Hconf|]; [|done].
  unfold positions in Hpos. apply bind_Returned in Hpos as (conf & Hc & [= <-]).
  unfold GetNumConformers, len in Hconf.
  destruct (GetConformers mol) as [|conf' [|? ?]] eqn:Hconfs; simpl in Hconf;
    try lia.
  rewrite (GetConformer_single _ _ _ Hconfs) in Hc.
  destruct (decide (GetId conf' = 0)) as [Hid|]; [|done]. injection Hc as ->.
  unfold normalise in Hnorm. apply bind_Returned in Hnorm as (m & Hm & [= <-]).
  apply minimum_Returned in Hm as [_ Hle].
  apply masked_Returned in Hai as [Hlen_alpha ->].
  apply masked_Returned in Har as [_ ->].
  apply traverse_Returned in Hper.
  assert (Hlen : length per_atom = length (GetAtoms mol)).
  { apply Forall2_length in Hper. rewrite length_zip_with, length_arange in Hper.
    unfold GetNumAtoms, len in Hper. lia. }
  rewrite length_fmap, length_arange in Hlen_alpha. unfold len in Hlen_alpha.
  rewrite Nat2Z.id in Hlen_alpha.
  exists conf, per_atom, m, r2a. split_and!; try done.
  - eapply Forall2_impl; [exact Hper|]. by intros [i atom] a Ha.
  - by rewrite <- list_fmap_compose.
  - rewrite <- list_fmap_compose. apply Forall_fmap, Forall_forall. intros a Ha.
    simpl. eapply Forall_forall in Hle; [|by apply list_elem_of_fmap_2]. simpl in Hle. lia.
  - congruence.
Qed.

End builder_more.

Section builder_records.
Context `{TorchFloat} `{BondTable} `{TorchSort}.

Lemma length_directed (bonds : list Bond) :
  length (directed bonds) = (2 * length bonds)%nat.
Proof.
  unfold directed. induction bonds as [|b bonds IH]; [done|].
  csimpl. rewrite IH. lia.
Qed.

Lemma directed_in_range (bonds : list Bond) (N : Z) :
  Forall (fun bond => 0 <= GetBeginAtomIdx bond < N /\
                      0 <= GetEndAtomIdx bond < N) bonds ->
  Forall (fun e : Z * Z * Z => 0 <= e.1.1 < N /\ 0 <= e.1.2 < N) (directed bonds).
Proof.
  unfold directed. induction 1 as [|b bonds [Hb He] _ IH]; [constructor|].
  csimpl. repeat constructor; simpl; try lia. exact IH.
Qed.

(** The edges of a built record: two per bond, the types aligned, the
    endpoints atoms of the molecule when the bonds join atoms of it. *)
Lemma built_edges_shape N bonds row col edge_type edge_index' edge_type' :
  bond_edges bonds = (row, col, edge_type) ->
  sort_edges N (zip row col) edge_type = Returned (edge_index', edge_type') ->
  length edge_index' = (2 * length bonds)%nat /\
  length edge_type' = length edge_index' /\
  (Forall (fun bond => 0 <= GetBeginAtomIdx bond < N /\
                       0 <= GetEndAtomIdx bond < N) bonds ->
   Forall (fun e : Z * Z => 0 <= e.1 < N /\ 0 <= e.2 < N) edge_index').
Proof.
  intros Hb Hs. destruct (bond_edges_directed _ _ _ _ Hb) as (Hl1 & Hl2 & Hz).
  destruct (sort_edges_Returned _ _ _ _ _ Hl2 Hs) as (Hl & Hperm & _).
  rewrite Hz in Hperm.
  assert (Hlen : length edge_index' = (2 * length bonds)%nat).
  { rewrite <- length_directed, <- Hperm, length_zip_with. lia. }
  split; [done|]. split; [done|]. intros Hrange.
  apply directed_in_range in Hrange. rewrite <- Hperm in Hrange.
  apply Forall_forall. intros e He.
  apply list_elem_of_lookup in He as [k Hk].
  destruct (lookup_lt_is_Some_2 edge_type' k) as [t Ht].
  { rewrite <- Hl. by eapply lookup_lt_Some. }
  eapply Forall_forall in Hrange.
  2:{ apply list_elem_of_lookup. exists k. apply lookup_zip_with_Some.
      by exists e, t. }
  done.
Qed.

Lemma pdb_to_data_fields mol lines name0 d :
  pdb_to_data (Some mol) lines name0 = Returned (Some d) ->
  exists r row col et edge_index' edge_type',
    pdb_residues mol lines = Returned r /\
    count (res_is_sidechain r) <> 0 /\
    bond_edges (GetBonds mol) = (row, col, et) /\
    sort_edges (GetNumAtoms mol) (zip row col) et
    = Returned (edge_index', edge_type') /\
    d = {| atom_type := Some (res_atomic_number r); pos := Some (res_pos r);
           edge_index := Some edge_index'; edge_type := Some edge_type';
           is_alpha := Some (res_is_alpha r); rdmol := Some mol;
           name := Some name0;
           is_sidechain := Some (res_is_sidechain r);
           atom2res := Some (res_atom2res r);
           atom2alpha_index := Some (res_atom2alpha_index r);
           smiles := None; idx := None;
           totalenergy := None; boltzmannweight := None;
           pos_ref := None; num_pos_ref := None |}.
Proof.
  unfold pdb_to_data. intros Hret.
  apply bind_Returned in Hret as (r & Hr & Hret).
  destruct (count (res_is_sidechain r) =? 0) eqn:Hc; [done|].
  apply Z.eqb_neq in Hc.
  destruct (bond_edges (GetBonds mol)) as [[row col] et].
  destruct (len (zip row col) =? 0); [done|].
  apply bind_Returned in Hret as ([ei' et'] & Hs & [= <-]).
  exists r, row, col, et, ei', et'. done.
Qed.

Lemma pdb_residues_lengths mol lines r :
  pdb_residues mol lines = Returned r ->
  length (res_pos r) = length (GetAtoms mol) /\
  length (res_atomic_number r) = length (GetAtoms mol) /\
  length (res_is_alpha r) = length (GetAtoms mol) /\
  length (res_is_sidechain r) = length (GetAtoms mol) /\
  length (res_atom2res r) = length (GetAtoms mol) /\
  length (res_atom2alpha_index r) = length (GetAtoms mol).
Proof.
  intros Hr.
  destruct (pdb_residues_steps _ _ _ Hr)
    as (conf & per_atom & m & r2a & _ & _ & _ & _ & Hz & Hal & Hsc & Ha2r
        & _ & Hlen & Hlpos & _ & Hgather).
  apply gather_length in Hgather.
  rewrite Hgather, Hz, Hal, Hsc, Ha2r, !length_fmap. done.
Qed.

(** X7.  A record [pdb_to_data] returns has, for a structure of [N]
    atoms: [N >= 1]; [atom_type] the atomic numbers in atom order, [pos]
    the float32 positions of the one conformer, whose id is 0, and
    [is_alpha], [is_sidechain], [atom2res] and [atom2alpha_index], all of
    length [N];
    at least one bond, two edges per bond and as many edge types; a
    sidechain atom; the molecule and the name given; and no [smiles],
    [idx], [pos_ref] or [num_pos_ref].  When the bonds join atoms of the
    structure, every edge endpoint is in [0, N). *)
Theorem pdb_to_data_record mol lines name0 d :
  pdb_to_data (Some mol) lines name0 = Returned (Some d) ->
  exists conf at0 pos0 ei et al sc a2r a2a,
    GetConformers mol = [conf] /\ GetId conf = 0 /\
    atom_type d = Some at0 /\ pos d = Some pos0 /\
    edge_index d = Some ei /\ edge_type d = Some et /\
    is_alpha d = Some al /\ is_sidechain d = Some sc /\
    atom2res d = Some a2r /\ atom2alpha_index d = Some a2a /\
    rdmol d = Some mol /\ name d = Some name0 /\
    smiles d = None /\ idx d = None /\
    pos_ref d = None /\ num_pos_ref d = None /\
    at0 = GetAtomicNum <$> GetAtoms mol /\
    pos0 = (fun p : double * double * double =>
              (to_float32 p.1.1, to_float32 p.1.2, to_float32 p.2))
             <$> GetPositions conf /\
    0 < GetNumAtoms mol /\
    len at0 = GetNumAtoms mol /\ len pos0 = GetNumAtoms mol /\
    len al = GetNumAtoms mol /\ len sc = GetNumAtoms mol /\
    len a2r = GetNumAtoms mol /\ len a2a = GetNumAtoms mol /\
    0 < len (GetBonds mol) /\
    len ei = 2 * len (GetBonds mol) /\ len et = len ei /\
    true ∈ sc /\
    (Forall (fun bond => 0 <= GetBeginAtomIdx bond < GetNumAtoms mol /\
                         0 <= GetEndAtomIdx bond < GetNumAtoms mol)
            (GetBonds mol) ->
     Forall (fun e : Z * Z => 0 <= e.1 < GetNumAtoms mol /\
                              0 <= e.2 < GetNumAtoms mol) ei).
Proof.
  intros Hret.
  assert (Hbonds : 0 < len (GetBonds mol)).
  { unfold pdb_to_data in Hret.
    apply bind_Returned in Hret as (r & _ & Hret).
    destruct (count (res_is_sidechain r) =? 0); [done|].
    destruct (GetBonds mol) as [|b bonds]; [|unfold len; simpl; lia].
    simpl in Hret. done. }
  apply pdb_to_data_fields in Hret
    as (r & row & col & et0 & ei & et & Hr & Hcount & Hb & Hs & ->).
  destruct (pdb_residues_steps _ _ _ Hr)
    as (conf & per_atom & m & r2a & Hconf & Hid & Hpos & Hper & Hz & Hal & Hsc & Ha2r
        & _ & Hlen & Hlpos & _ & Hgather).
  destruct (built_edges_shape _ _ _ _ _ _ _ Hb Hs) as (Hlei & Hlet & Hrange).
  apply gather_length in Hgather.
  assert (Hatoms : Forall2 (fun atom (a : Z * bool * bool * Z) =>
                              a.1.1.1 = GetAtomicNum atom) (GetAtoms mol) per_atom).
  { rewrite <- (snd_zip (arange (GetNumAtoms mol)) (GetAtoms mol)) at 1.
    2:{ rewrite length_arange. unfold GetNumAtoms, len. lia. }
    apply Forall2_fmap_l. eapply Forall2_impl; [exact Hper|].
    intros [i atom] a Ha. simpl in *.
    by apply pdb_atom_Returned in Ha as (info & _ & ->). }
  exists conf, (res_atomic_number r), (res_pos r), ei, et, (res_is_alpha r),
    (res_is_sidechain r), (res_atom2res r), (res_atom2alpha_index r).
  simpl. unfold GetNumAtoms, len in *.
  assert (Hpos_atoms : (0 < length (GetAtoms mol))%nat).
  { apply count_pos in Hcount. rewrite Hsc in Hcount.
    apply list_elem_of_fmap in Hcount as (a & _ & Ha).
    apply list_elem_of_lookup in Ha as [k Hk]. apply lookup_lt_Some in Hk. lia. }
  split_and!; try done.
  - rewrite Hz. clear -Hatoms.
    induction Hatoms as [|atom a atoms per_atom Ha _ IH]; [done|].
    csimpl. by rewrite Ha, IH.
  - lia.
  - rewrite Hz, length_fmap. lia.
  - lia.
  - rewrite Hal, length_fmap. lia.
  - rewrite Hsc, length_fmap. lia.
  - rewrite Ha2r, length_fmap. lia.
  - rewrite Hgather, Ha2r, length_fmap. lia.
  - lia.
  - lia.
  - by apply count_pos.
Qed.

End builder_records.

Section builder_annotations.
Context `{TorchFloat} `{BondTable} `{TorchSort}.

Lemma per_atom_lookup mol lines (per_atom : list (Z * bool * bool * Z)) (i : nat) atom :
  Forall2 (fun ia a => pdb_atom (slice lines (Some 1) (Some (-1))) ia.1 ia.2
                       = Returned a)
          (zip (arange (GetNumAtoms mol)) (GetAtoms mol)) per_atom ->
  GetAtoms mol !! i = Some atom ->
  exists a, per_atom !! i = Some a /\
            pdb_atom (slice lines (Some 1) (Some (-1))) (Z.of_nat i) atom
            = Returned a.
Proof.
  intros Hper Hi. apply lookup_lt_Some in Hi as Hlt.
  assert (Hz : zip (arange (GetNumAtoms mol)) (GetAtoms mol) !! i
               = Some (Z.of_nat i, atom)).
  { apply lookup_zip_with_Some. exists (Z.of_nat i), atom. split; [done|].
    split; [|done]. apply lookup_arange. unfold GetNumAtoms, len. lia. }
  destruct (Forall2_lookup_l _ _ _ _ _ Hper Hz) as (a & Ha & Hatom).
  by exists a.
Qed.

(** X8.  When [pdb_to_data] returns a record, the file has at least
    [N + 2] lines, and the annotation of atom [i] agrees with line [i + 1]
    of the file: its stripped atom name, stripped residue name and residue
    number are the third, fourth and fifth fields of that line.  The atom
    is flagged alpha exactly when its stripped name is CA, and sidechain
    exactly when its name is none of N, CA, C and O. *)
Theorem pdb_to_data_matches_file mol lines name0 d :
  pdb_to_data (Some mol) lines name0 = Returned (Some d) ->
  len (GetAtoms mol) + 2 <= len lines /\
  exists al sc,
    is_alpha d = Some al /\ is_sidechain d = Some sc /\
    forall (i : nat) atom,
      GetAtoms mol !! i = Some atom ->
      exists info line number,
        GetPDBResidueInfo atom = Some info /\
        lines !! S i = Some line /\
        str_split line !! 2%nat = Some (str_strip (GetName info)) /\
        str_split line !! 3%nat = Some (str_strip (GetResidueName info)) /\
        str_split line !! 4%nat = Some number /\
        int_of_str number = Returned (GetResidueNumber info) /\
        al !! i = Some (String.eqb (str_strip (GetName info)) "CA") /\
        sc !! i = Some (negb (backbone_name (str_strip (GetName info)))).
Proof.
  intros Hret.
  apply pdb_to_data_fields in Hret
    as (r & row & col & et0 & ei & et & Hr & Hcount & Hb & Hs & ->).
  destruct (pdb_residues_steps _ _ _ Hr)
    as (conf & per_atom & m & r2a & Hconf & Hid & Hpos & Hper & Hz & Hal & Hsc & Ha2r
        & _ & Hlen & Hlpos & _ & Hgather).
  assert (Hatom : forall (i : nat) atom,
      GetAtoms mol !! i = Some atom ->
      (S (S i) < length lines)%nat /\
      exists info line number,
        GetPDBResidueInfo atom = Some info /\
        lines !! S i = Some line /\
        str_split line !! 2%nat = Some (str_strip (GetName info)) /\
        str_split line !! 3%nat = Some (str_strip (GetResidueName info)) /\
        str_split line !! 4%nat = Some number /\
        int_of_str number = Returned (GetResidueNumber info) /\
        res_is_alpha r !! i = Some (String.eqb (str_strip (GetName info)) "CA") /\
        res_is_sidechain r !! i
        = Some (negb (backbone_name (str_strip (GetName info))))).
  { intros i atom Hi.
    destruct (per_atom_lookup _ _ _ _ _ Hper Hi) as (a & Ha & Hchecked).
    pose proof Hchecked as Hvalue.
    apply pdb_atom_checked in Hchecked
      as (info & line & number & Hinfo & Hline & H2 & H3 & H4 & Hnum); [|lia].
    apply pdb_atom_Returned in Hvalue as (info' & Hinfo' & ->).
    assert (info' = info) as -> by congruence.
    rewrite Nat2Z.id in Hline. apply slice_inner_lookup in Hline as [Hline Hlt].
    split; [done|]. exists info, line, number.
    rewrite Hal, Hsc, !list_lookup_fmap, Ha. done. }
  split.
  - unfold len. destruct (GetAtoms mol) as [|atom atoms] eqn:Hatoms.
    + exfalso. apply count_pos in Hcount. rewrite Hsc in Hcount.
      apply list_elem_of_fmap in Hcount as (a & _ & Ha).
      apply list_elem_of_lookup in Ha as [k Hk]. apply lookup_lt_Some in Hk.
      simpl in Hlen. lia.
    + destruct (lookup_lt_is_Some_2 (atom :: atoms) (length atoms)) as [last Hlast];
        [simpl; lia|].
      destruct (Hatom _ _ Hlast) as [Hlt _]. simpl. lia.
  - exists (res_is_alpha r), (res_is_sidechain r). simpl.
    split; [done|]. split; [done|]. intros i atom Hi.
    by destruct (Hatom i atom Hi) as [_ ?].
Qed.

Lemma select_arange_position (m : list bool) (n : Z) (j : nat) :
  length m = Z.to_nat n -> m !! j = Some true ->
  exists k : nat, select m (arange n) !! k = Some (Z.of_nat j).
Proof.
  intros Hlen Hj. apply list_elem_of_lookup, elem_of_select_arange; [done|].
  split; [lia|]. by rewrite Nat2Z.id.
Qed.

(** The residues of the alpha carbons are pairwise distinct when no two
    alpha carbons share a residue. *)
Lemma select_NoDup (al : list bool) (a2r : list Z) :
  length al = length a2r ->
  (forall (j j' : nat) res,
     al !! j = Some true -> al !! j' = Some true ->
     a2r !! j = Some res -> a2r !! j' = Some res -> j = j') ->
  NoDup (select al a2r).
Proof.
  intros Hlen Huniq. apply NoDup_alt. intros k k' res Hk Hk'.
  assert (Hl : length (select al a2r) = length (select al (arange (len a2r)))).
  { apply Nat2Z.inj. change (len (select al a2r) = len (select al (arange (len a2r)))).
    rewrite !select_length_count; [done| |done].
    rewrite length_arange. unfold len. lia. }
  destruct (lookup_lt_is_Some_2 (select al (arange (len a2r))) k) as [i Hi].
  { rewrite <- Hl. by eapply lookup_lt_Some. }
  destruct (lookup_lt_is_Some_2 (select al (arange (len a2r))) k') as [i' Hi'].
  { rewrite <- Hl. by eapply lookup_lt_Some. }
  destruct (select_arange_lookup al a2r k i Hlen Hi) as (Hi0 & Hal & Hsel).
  destruct (select_arange_lookup al a2r k' i' Hlen Hi') as (Hi0' & Hal' & Hsel').
  rewrite Hk in Hsel. rewrite Hk' in Hsel'.
  assert (Heq : Z.to_nat i = Z.to_nat i') by (by eapply Huniq).
  assert (i = i') as -> by lia.
  by eapply (proj1 (NoDup_alt _) (select_arange_NoDup al (len a2r))).
Qed.

(** X9.  In a record [pdb_to_data] returns from a structure no two alpha
    carbons of which are in the same residue, [atom2alpha_index[i]] is -1
    when no atom of the residue of atom [i] is an alpha carbon, and
    otherwise the index of the alpha carbon of that residue. *)
Theorem pdb_atom2alpha_index mol lines name0 d :
  pdb_to_data (Some mol) lines name0 = Returned (Some d) ->
  exists al a2r a2a,
    is_alpha d = Some al /\ atom2res d = Some a2r /\
    atom2alpha_index d = Some a2a /\
    length al = length a2r /\ length a2a = length a2r /\
    ((forall (j j' : nat) res,
        al !! j = Some true -> al !! j' = Some true ->
        a2r !! j = Some res -> a2r !! j' = Some res -> j = j') ->
     forall (i : nat) res,
       a2r !! i = Some res ->
       exists v,
         a2a !! i = Some v /\
         ((v = -1 /\
           forall j : nat, a2r !! j = Some res -> al !! j = Some false) \/
          (0 <= v /\
           al !! Z.to_nat v = Some true /\ a2r !! Z.to_nat v = Some res /\
           forall j : nat, a2r !! j = Some res -> al !! j = Some true ->
                           j = Z.to_nat v))).
Proof.
  intros Hret.
  apply pdb_to_data_fields in Hret
    as (r & row & col & et0 & ei & et & Hr & Hcount & Hb & Hs & ->).
  destruct (pdb_residues_steps _ _ _ Hr)
    as (conf & per_atom & m & r2a & Hconf & Hid & Hpos & Hper & Hz & Hal & Hsc
        & Ha2r & Hnonneg & Hlen & Hlpos & Hput & Hgather).
  destruct (pdb_residues_Returned _ _ _ Hr) as (_ & _ & _ & _ & Hrange).
  exists (res_is_alpha r), (res_atom2res r), (res_atom2alpha_index r). simpl.
  set (al := res_is_alpha r) in *. set (a2r := res_atom2res r) in *.
  assert (Hlal : length al = length a2r).
  { by rewrite Hal, Ha2r, !length_fmap. }
  assert (Hn : len (res_pos r) = len a2r).
  { unfold len. rewrite Hlpos, Ha2r, length_fmap. lia. }
  rewrite Hn in Hput.
  assert (Hflag : forall j : nat, (j < length a2r)%nat -> al !! j <> Some true ->
                                  al !! j = Some false).
  { intros j Hj Hne. destruct (lookup_lt_is_Some_2 al j) as [[] Hb']; [lia|done..]. }
  split_and!; try done.
  { by apply gather_length in Hgather. }
  intros Huniq i res Hi. apply gather_Returned in Hgather.
  destruct (Forall2_lookup_l _ _ _ _ _ Hgather Hi) as (v & Hv & Hitem).
  exists v. split; [done|].
  assert (Hres : 0 <= res).
  { eapply Forall_forall in Hnonneg; [exact Hnonneg|].
    by eapply list_elem_of_lookup_2. }
  apply item_nonneg in Hitem; [|done].
  assert (Hl : length (select al a2r) = length (select al (arange (len a2r)))).
  { apply Nat2Z.inj. change (len (select al a2r) = len (select al (arange (len a2r)))).
    rewrite !select_length_count; [done| |done].
    rewrite length_arange. unfold len. lia. }
  destruct (put_Returned (replicate 5000 (-1)) (select al a2r)
              (select al (arange (len a2r))))
    as (t' & Hput' & _ & Hin & Hout).
  { exact Hl. }
  { apply select_Forall. eapply Forall_impl; [exact Hrange|].
    intros x Hx. simpl in Hx. unfold len. rewrite length_replicate. lia. }
  { by apply select_NoDup. }
  rewrite Hput in Hput'. injection Hput' as <-.
  destruct (decide (res ∈ select al a2r)) as [Hwritten|Hout'].
  - right. apply list_elem_of_lookup in Hwritten as [k Hk].
    destruct (lookup_lt_is_Some_2 (select al (arange (len a2r))) k) as [w Hw].
    { rewrite <- Hl. by eapply lookup_lt_Some. }
    pose proof (Hin k res w Hk Hw) as Hrw.
    assert (v = w) as -> by congruence.
    destruct (select_arange_lookup al a2r k w Hlal Hw) as (Hw0 & Hwal & Hsel).
    rewrite Hk in Hsel. split_and!; try done.
    intros j Hj Htrue. by eapply Huniq.
  - left. rewrite Hout in Hitem by (by rewrite Z2Nat.id).
    apply lookup_replicate in Hitem as [-> _].
    split; [done|]. intros j Hj. apply Hflag; [by eapply lookup_lt_Some|].
    intros Htrue. apply Hout'. apply elem_of_select. by exists j.
Qed.

End builder_annotations.

Section builder_molecules.
Context `{TorchFloat} `{BondTable} `{TorchSort}.

(** The ways [rdmol_to_data] ends. *)
Lemma rdmol_to_data_outcome mol smiles0 :
  match rdmol_to_data mol smiles0 with
  | Returned d =>
      exists conf row col et0 ei et,
        GetConformers mol = [conf] /\ GetId conf = 0 /\
        bond_edges (GetBonds mol) = (row, col, et0) /\
        sort_edges (GetNumAtoms mol) (zip row col) et0 = Returned (ei, et) /\
        d = {| atom_type := Some (GetAtomicNum <$> GetAtoms mol);
               pos := Some ((fun p : double * double * double =>
                               (to_float32 p.1.1, to_float32 p.1.2, to_float32 p.2))
                              <$> GetPositions conf);
               edge_index := Some ei; edge_type := Some et;
               is_alpha := None; rdmol := Some mol; name := None;
               is_sidechain := None; atom2res := None; atom2alpha_index := None;
               smiles := Some (from_option id (MolToSmiles mol) smiles0);
               idx := None; totalenergy := None; boltzmannweight := None;
               pos_ref := None; num_pos_ref := None |}
  | Raised e =>
      (e = AssertionError /\ GetNumConformers mol <> 1) \/
      (e = ValueError /\
       exists conf, GetConformers mol = [conf] /\ GetId conf <> 0)
  end.
Proof.
  unfold rdmol_to_data, positions, assert_.
  destruct (Z.eqb_spec (GetNumConformers mol) 1) as [Hc|Hc]; simpl; [|by left].
  unfold GetNumConformers, len in Hc.
  destruct (GetConformers mol) as [|conf [|??]] eqn:Hconfs; simpl in Hc; try lia.
  rewrite (GetConformer_single _ _ _ Hconfs).
  destruct (decide (GetId conf = 0)) as [Hid|Hid]; simpl.
  2:{ right. split; [done|]. by exists conf. }
  destruct (bond_edges (GetBonds mol)) as [[row col] et0] eqn:Hb.
  destruct (bond_edges_directed _ _ _ _ Hb) as (_ & Hl & _).
  destruct (sort_edges_returns (GetNumAtoms mol) _ _ Hl) as [[ei et] Hs].
  rewrite Hs. simpl. by exists conf, row, col, et0, ei, et.
Qed.

(** X10.  [rdmol_to_data] returns exactly for a molecule with one
    conformer whose id is 0.  It raises AssertionError when the number of
    conformers is not 1, and ValueError when the one conformer has
    another id, as [GetConformer(0)] finds none.  The record has the
    atomic numbers in atom order, the float32 positions of the conformer,
    two edges per bond with as many edge types (none for a molecule
    without bonds), the SMILES string given or else the one RDKit
    computes, the molecule itself, and none of the protein attributes. *)
Theorem rdmol_to_data_one_conformer mol smiles0 :
  match rdmol_to_data mol smiles0 with
  | Returned d =>
      exists conf ei et,
        GetConformers mol = [conf] /\ GetId conf = 0 /\
        atom_type d = Some (GetAtomicNum <$> GetAtoms mol) /\
        pos d = Some ((fun p : double * double * double =>
                         (to_float32 p.1.1, to_float32 p.1.2, to_float32 p.2))
                        <$> GetPositions conf) /\
        edge_index d = Some ei /\ edge_type d = Some et /\
        len ei = 2 * len (GetBonds mol) /\ len et = len ei /\
        smiles d = Some (from_option id (MolToSmiles mol) smiles0) /\
        rdmol d = Some mol /\
        is_alpha d = None /\ is_sidechain d = None /\ atom2res d = None /\
        atom2alpha_index d = None /\ name d = None /\ idx d = None /\
        totalenergy d = None /\ boltzmannweight d = None
  | Raised e =>
      (e = AssertionError /\ GetNumConformers mol <> 1) \/
      (e = ValueError /\
       exists conf, GetConformers mol = [conf] /\ GetId conf <> 0)
  end.
Proof.
  pose proof (rdmol_to_data_outcome mol smiles0) as Hout.
  destruct (rdmol_to_data mol smiles0) as [d|e]; [|done].
  destruct Hout as (conf & row & col & et0 & ei & et & Hconf & Hid & Hb & Hs & ->).
  destruct (built_edges_shape _ _ _ _ _ _ _ Hb Hs) as (Hlei & Hlet & _).
  exists conf, ei, et. simpl. unfold len. split_and!; try done; lia.
Qed.

(** X11.  The sidechain sampler cannot read a record of [rdmol_to_data]:
    [SidechainConformationDataset.__getitem__] raises AttributeError on
    it, as the record has no [is_sidechain]. *)
Theorem sampler_rejects_molecule_records (self : SidechainConformationDataset)
    (idx u : Z) (d : Data) mol smiles0 :
  item (data (super self)) idx = Returned d ->
  rdmol_to_data mol smiles0 = Returned d ->
  getitem self idx u = Raised AttributeError.
Proof.
  intros Hd Hbuild. pose proof (rdmol_to_data_outcome mol smiles0) as Hout.
  rewrite Hbuild in Hout.
  destruct Hout as (conf & row & col & et0 & ei & et & _ & _ & _ & _ & ->).
  unfold getitem. rewrite Hd. simpl. done.
Qed.

(** X12.  The packer cannot pack a store that holds a record of
    [pdb_to_data]: such a record has neither [smiles] nor [idx], and
    [_pack_data_by_mol] raises AttributeError. *)
Theorem packer_rejects_protein_records (self : ConformationDataset)
    (d : Data) mol lines name0 :
  d ∈ data self ->
  pdb_to_data (Some mol) lines name0 = Returned (Some d) ->
  _pack_data_by_mol self = Raised AttributeError.
Proof.
  intros Hin Hbuild. apply pdb_to_data_fields in Hbuild
    as (r & row & col & et0 & ei & et & _ & _ & _ & _ & ->).
  unfold _pack_data_by_mol.
  destruct (fill_packed (hasattr_idx self) (data self) []) as [packed|e] eqn:Hfill.
  - destruct (fill_packed_keys _ _ _ _ Hfill) as (keys & Hkeys & _).
    apply traverse_Returned in Hkeys.
    apply list_elem_of_lookup in Hin as [i Hi].
    destruct (Forall2_lookup_l _ _ _ _ _ Hkeys Hi) as (k & _ & Hk).
    unfold molecule_id in Hk. by destruct (hasattr_idx self).
  - by apply fill_packed_Raised in Hfill as [-> _].
Qed.

End builder_molecules.

Section composition.
Context `{TorchFloat} `{BondTable} `{TorchSort}.

Lemma getitem_returns (self : SidechainConformationDataset) (idx u : Z) (d : Data) :
  item (data (super self)) idx = Returned d ->
  well_formed self d ->
  exists r, getitem self idx u = Returned r.
Proof.
  intros Hd Hwf. destruct (subgraph_sampling_returns self d u Hwf) as [s Hs].
  destruct Hwf as [(at0 & pos0 & ei & et0 & sc & a2r & Hat & Hpos & Hei & Het & Hsc
                    & Ha2r & Hlat & Hlsc & Hla2r & Hlet & _)].
  destruct (subgraph_sampling_Returned _ _ _ _ Hs) as (sc' & pos' & ei' & a2r' & Hsam).
  assert (sc' = sc) as -> by (destruct Hsam; congruence).
  assert (pos' = pos0) as -> by (destruct Hsam; congruence).
  assert (ei' = ei) as -> by (destruct Hsam; congruence).
  unfold getitem. rewrite Hd. simpl. rewrite Hs. simpl. rewrite Hsc. simpl.
  unfold masked. rewrite decide_True by (destruct Hsam; congruence). simpl.
  destruct (count (select (is_keep_atom s) sc) =? 0); [by eexists|].
  destruct (subgraph_returns _ _ _ _ _ _ _ _ _ Hsam Hat Hlat Het Hlet) as [sub ->].
  simpl. by eexists.
Qed.

(** X13.  On a store of records that [pdb_to_data] built from structures
    with a backbone atom and bonds that join atoms of the structure, and
    with [max_residue] at least 5000, the sampler never raises for an
    index of [-len, len): it returns a subgraph or [None], whatever the
    random draw. *)
Theorem sampler_accepts_built_records (self : SidechainConformationDataset)
    (idx u : Z) :
  5000 <= max_residue self ->
  Forall (fun d =>
            exists mol lines name0,
              pdb_to_data (Some mol) lines name0 = Returned (Some d) /\
              Forall (fun bond => 0 <= GetBeginAtomIdx bond < GetNumAtoms mol /\
                                  0 <= GetEndAtomIdx bond < GetNumAtoms mol)
                     (GetBonds mol) /\
              Exists backbone_atom (GetAtoms mol))
         (data (super self)) ->
  - len (data (super self)) <= idx < len (data (super self)) ->
  exists r, getitem self idx u = Returned r.
Proof.
  intros Hmax Hbuilt Hidx.
  destruct (item_in_range _ _ Hidx) as [d Hd].
  apply (getitem_returns self idx u d Hd).
  eapply Forall_forall in Hbuilt as (mol & lines & name0 & Hbuild & Hbonds & Hbb);
    [|by eapply item_elem_of].
  apply pdb_to_data_fields in Hbuild
    as (r & row & col & et0 & ei & et & Hr & _ & Hb & Hs & ->).
  destruct (pdb_residues_lengths _ _ _ Hr) as (Hlpos & Hlat & _ & Hlsc & Hla2r & _).
  destruct (pdb_residues_Returned _ _ _ Hr) as (Hflags & _ & _ & _ & Hres).
  destruct (built_edges_shape _ _ _ _ _ _ _ Hb Hs) as (_ & Hlet & Hrange).
  split. exists (res_atomic_number r), (res_pos r), ei, et, (res_is_sidechain r),
    (res_atom2res r).
  simpl. split_and!; try done; try congruence.
  - apply Exists_exists in Hbb as (atom & Hatom & info & Hinfo & Hname).
    apply list_elem_of_lookup in Hatom as [i Hi].
    destruct (Forall2_lookup_l _ _ _ _ _ Hflags Hi) as (b & Hb' & info' & Hinfo' & ->).
    assert (info' = info) as -> by congruence. rewrite Hname in Hb'.
    by eapply list_elem_of_lookup_2.
  - eapply Forall_impl; [exact Hres|]. simpl. lia.
  - specialize (Hrange Hbonds). eapply Forall_impl; [exact Hrange|].
    unfold GetNumAtoms, len in *. simpl. rewrite Hlpos. lia.
Qed.

End composition.

(** ** More of the SpatialSubgraphSampler *)

Lemma select_none {A} (m : list bool) (t : list A) :
  Forall (fun b => b = false) m -> select m t = [].
Proof.
  intros Hm. revert t. induction Hm as [|b m -> _ IH]; intros [|x t]; simpl; auto.
Qed.

Section sampler_errors.
Context `{TorchFloat} `{BondTable}.

(** X14.  On a record all of whose atoms are sidechain atoms the sampler
    raises: there is no backbone atom to start from, and step 1 raises
    IndexError when [fix_subgraph] is set and RuntimeError (the empty
    range of [torch.randint]) when it is not. *)
Theorem sampler_needs_backbone (self : SidechainConformationDataset)
    (idx u : Z) (d : Data) sc pos0 ei a2r :
  item (data (super self)) idx = Returned d ->
  is_sidechain d = Some sc -> pos d = Some pos0 ->
  edge_index d = Some ei -> atom2res d = Some a2r ->
  length sc = length pos0 ->
  Forall (fun b => b = true) sc ->
  getitem self idx u
  = Raised (if fix_subgraph self then IndexError else RuntimeError).
Proof.
  intros Hd Hsc Hpos Hei Ha2r Hlen Hall.
  unfold getitem. rewrite Hd. simpl.
  unfold subgraph_sampling. rewrite Hsc, Hpos, Hei, Ha2r. simpl.
  unfold masked at 1.
  rewrite decide_True by (rewrite length_fmap, length_arange; unfold len; lia).
  simpl. rewrite select_none.
  2:{ apply Forall_fmap. eapply Forall_impl; [exact Hall|]. by intros b ->. }
  by destruct (fix_subgraph self).
Qed.

Lemma scatter_add_out_of_range out index src :
  length index = length src ->
  Exists (fun i => ~ (0 <= i < len out)) index ->
  scatter_add_ out index src = Raised RuntimeError.
Proof.
  revert out src. induction index as [|i index IH]; intros out [|b src] Hlen Hex;
    simpl in *; try done.
  - by apply Exists_nil in Hex.
  - destruct ((0 <=? i) && (i <? len out)) eqn:Hi; [|done].
    apply andb_true_iff in Hi as [Hi0 Hi1].
    apply Z.leb_le in Hi0. apply Z.ltb_lt in Hi1.
    apply Exists_cons in Hex as [Hex|Hex]; [lia|].
    apply IH; [lia|]. unfold len in *. by rewrite length_alter.
Qed.

(** The seed atom of step 1 and its position, on a record with a
    backbone atom. *)
Lemma center_returns (self : SidechainConformationDataset) (u : Z)
    (sc : list bool) (pos0 : list (float32 * float32 * float32)) :
  length sc = length pos0 -> false ∈ sc ->
  exists c pc,
    (if fix_subgraph self
     then item (select (negb <$> sc) (arange (len pos0)))
               (len (select (negb <$> sc) (arange (len pos0))) / 2)
     else let! r := randint 0 (len (select (negb <$> sc) (arange (len pos0)))) u in
          item (select (negb <$> sc) (arange (len pos0))) r) = Returned c /\
    item pos0 c = Returned pc.
Proof.
  intros Hlsc Hbb.
  remember (select (negb <$> sc) (arange (len pos0))) as backbone eqn:Hbdef.
  assert (Hbackbone : forall c, c ∈ backbone -> 0 <= c < len pos0).
  { intros c Hc. rewrite Hbdef in Hc. apply elem_of_select in Hc as (j & _ & Hj).
    apply list_elem_of_lookup_2, elem_of_arange in Hj. done. }
  assert (Hne : 0 < len backbone).
  { apply list_elem_of_lookup in Hbb as [j Hj].
    assert (Hin : Z.of_nat j ∈ backbone).
    { rewrite Hbdef. apply elem_of_select_arange; [rewrite length_fmap; unfold len; lia|].
      split; [lia|]. by rewrite Nat2Z.id, list_lookup_fmap, Hj. }
    apply list_elem_of_lookup in Hin as [k Hk]. apply lookup_lt_Some in Hk.
    unfold len. lia. }
  assert (Hcenter : exists c,
    (if fix_subgraph self then item backbone (len backbone / 2)
     else let! r := randint 0 (len backbone) u in item backbone r) = Returned c).
  { destruct (fix_subgraph self).
    - apply item_in_range.
      pose proof (Z.div_pos (len backbone) 2 ltac:(lia) ltac:(lia)).
      split; [lia|]. apply Z.div_lt_upper_bound; lia.
    - unfold randint. destruct (Z.ltb_spec 0 (len backbone)); [|lia]. simpl.
      apply item_in_range. rewrite Z.sub_0_r, Z.add_0_l.
      pose proof (Z.mod_pos_bound u (len backbone) Hne). lia. }
  destruct Hcenter as [c Hc]. exists c.
  assert (Hcin : 0 <= c < len pos0).
  { apply Hbackbone. destruct (fix_subgraph self).
    - by eapply item_elem_of.
    - apply bind_Returned in Hc as (r & _ & Hc). by eapply item_elem_of. }
  destruct (item_in_range pos0 c) as [pc Hpc]; [lia|]. by exists pc.
Qed.

(** X15.  On a record with a backbone atom, a residue id that is negative
    or not below [max_residue] makes the sampler raise RuntimeError in
    step 3; no atom is dropped or clamped silently. *)
Theorem sampler_residue_out_of_range (self : SidechainConformationDataset)
    (idx u : Z) (d : Data) sc pos0 ei a2r :
  item (data (super self)) idx = Returned d ->
  is_sidechain d = Some sc -> pos d = Some pos0 ->
  edge_index d = Some ei -> atom2res d = Some a2r ->
  length sc = length pos0 -> length a2r = length pos0 ->
  false ∈ sc ->
  Exists (fun r => ~ (0 <= r < max_residue self)) a2r ->
  getitem self idx u = Raised RuntimeError.
Proof.
  intros Hd Hsc Hpos Hei Ha2r Hlsc Hla2r Hbb Hex.
  unfold getitem. rewrite Hd. simpl.
  unfold subgraph_sampling. rewrite Hsc, Hpos, Hei, Ha2r. simpl.
  unfold masked at 1.
  rewrite decide_True by (rewrite length_fmap, length_arange; unfold len; lia).
  simpl. destruct (center_returns self u sc pos0 Hlsc Hbb) as (c & pc & Hc & Hpc).
  rewrite Hc. simpl. rewrite Hpc. simpl. unfold scatter, broadcast.
  rewrite decide_True by (by rewrite !length_fmap). simpl.
  destruct (Z.ltb_spec (max_residue self) 0) as [Hneg|Hnonneg]; [done|].
  rewrite scatter_add_out_of_range; [done|by rewrite !length_fmap|].
  eapply Exists_impl; [exact Hex|]. intros r Hr.
  simpl in Hr. unfold len. rewrite length_replicate. lia.
Qed.

End sampler_errors.

Lemma StronglySorted_fmap_inv {A B} (R : relation B) (f : A -> B) (l : list A) :
  StronglySorted R (f <$> l) -> StronglySorted (fun x y => R (f x) (f y)) l.
Proof.
  induction l as [|x l IH]; csimpl; intros Hs; [constructor|].
  apply StronglySorted_inv in Hs as [Hs Hx]. constructor; [by apply IH|].
  rewrite Forall_fmap in Hx. exact Hx.
Qed.

Lemma StronglySorted_Forall2 {A B} (R : relation A) (R' : relation B)
    (Q : A -> B -> Prop) (l : list A) (l' : list B) :
  (forall x y x' y', Q x x' -> Q y y' -> R x y -> R' x' y') ->
  Forall2 Q l l' -> StronglySorted R l -> StronglySorted R' l'.
Proof.
  intros Hmono HQ. induction HQ as [|x x' l l' Hx HQ IH]; intros Hs; [constructor|].
  apply StronglySorted_inv in Hs as [Hs Hall]. constructor; [by apply IH|].
  clear IH Hs. induction HQ as [|y y' l l' Hy HQ IH]; [constructor|].
  apply Forall_cons in Hall as [Hxy Hall]. constructor; [by eapply Hmono|by apply IH].
Qed.

Lemma StronglySorted_Forall_impl {A} (R R' : relation A) (P : A -> Prop) (l : list A) :
  (forall x y, P x -> P y -> R x y -> R' x y) ->
  Forall P l -> StronglySorted R l -> StronglySorted R' l.
Proof.
  intros Himpl HP Hs. induction Hs as [|x l Hs IH Hx]; [constructor|].
  apply Forall_cons in HP as [Px HP]. constructor; [by apply IH|].
  clear IH Hs. induction HP as [|y l Py HP IH]; [constructor|].
  apply Forall_cons in Hx as [Hxy Hx]. constructor; [by apply Himpl|by apply IH].
Qed.

Section sampler_edges.
Context `{TorchFloat} `{BondTable}.

(** X16.  In every subgraph the sampler returns, the edges are the edges
    of the source record both of whose endpoints are kept atoms, in their
    order in the source, each with the type it has there and with its
    endpoints sent through [mapping]; [edge_index] and [edge_type] of the
    subgraph have the same length, the number of kept edges. *)
Theorem sampler_edge_filter (self : SidechainConformationDataset) (idx u : Z)
    (sub : Data) :
  getitem self idx u = Returned (Some sub) ->
  exists d s sub0 ei et ei' et',
    item (data (super self)) idx = Returned d /\
    subgraph_sampling self d u = Returned s /\
    subgraph d s = Returned sub0 /\
    sub = apply_transform (transform (super self)) sub0 /\
    edge_index d = Some ei /\ edge_type d = Some et /\
    edge_index sub0 = Some ei' /\ edge_type sub0 = Some et' /\
    length et = length ei /\ length (is_keep_edge s) = length ei /\
    (forall (k : nat) e,
       ei !! k = Some e ->
       (is_keep_edge s !! k = Some true <->
        item (is_keep_atom s) e.1 = Returned true /\
        item (is_keep_atom s) e.2 = Returned true)) /\
    et' = select (is_keep_edge s) et /\
    len ei' = count (is_keep_edge s) /\ len et' = count (is_keep_edge s) /\
    Forall2 (fun x x' : Z * Z * Z =>
               x'.2 = x.2 /\
               item (mapping s) x.1.1 = Returned x'.1.1 /\
               item (mapping s) x.1.2 = Returned x'.1.2)
            (select (is_keep_edge s) (zip ei et)) (zip ei' et').
Proof.
  intros Hret.
  apply getitem_Returned_Some in Hret
    as (d & s & sc & sub0 & Hd & Hs & Hsc & Hlen & Hcount & Hsub0 & ->).
  destruct (subgraph_sampling_Returned _ _ _ _ Hs)
    as (sc' & pos0 & ei & a2r &
        [sampled_is_sidechain0 sampled_pos0 sampled_edge_index0 sampled_atom2res0
         sampled_length_sc0 sampled_length_a2r0 sampled_center0 sampled_residues0
         sampled_length_keep0 sampled_keep0 sampled_edges0 sampled_keep_index0
         sampled_length_mapping0 sampled_mapping_kept0 sampled_mapping_dropped0]).
  destruct (subgraph_Returned _ _ _ Hsub0)
    as (at0 & et0 & ei' &
        [sub_atom_type00 sub_edge_type00 sub_length_at00 sub_length_et00
         sub_atom_type0 sub_pos0 sub_is_sidechain0 sub_atom2res0 sub_edge_type0
         sub_edge_index0 sub_edges0]).
  specialize (sub_edges0 ei sampled_edge_index0).
  pose proof (Forall2_length _ _ _ sampled_edges0) as Hlke.
  pose proof (Forall2_length _ _ _ sub_edges0) as Hlei'.
  exists d, s, sub0, ei, et0, ei', (select (is_keep_edge s) et0).
  split_and!; try done.
  - congruence.
  - intros k e Hk.
    destruct (Forall2_lookup_l _ _ _ _ _ sampled_edges0 Hk)
      as (b & Hb & b0 & b1 & Hb0 & Hb1 & ->).
    rewrite Hb, Hb0, Hb1. split.
    + intros [= Hboth]. by apply andb_true_iff in Hboth as [-> ->].
    + by intros [[= ->] [= ->]].
  - unfold len. rewrite <- Hlei'. apply select_length_count. done.
  - apply select_length_count. done.
  - rewrite select_zip.
    assert (Hl : length (select (is_keep_edge s) ei)
                 = length (select (is_keep_edge s) et0)).
    { apply Nat2Z.inj. change (len (select (is_keep_edge s) ei)
                               = len (select (is_keep_edge s) et0)).
      rewrite !select_length_count; done. }
    revert Hl. generalize (select (is_keep_edge s) et0).
    clear -sub_edges0. induction sub_edges0 as [|e e' l l' He _ IH];
      intros [|t ts] Hl; simpl in *; try done.
    constructor; [by destruct He|]. apply IH. lia.
Qed.

(** The edges of a list compared by source, then by target. *)
Definition lex (R : relation Z) (e f : Z * Z) : Prop :=
  e.1 < f.1 \/ (e.1 = f.1 /\ R e.2 f.2).

Lemma lex_key (R : relation Z) (N : Z) (e f : Z * Z) :
  R = Z.le \/ R = Z.lt ->
  0 <= e.1 < N /\ 0 <= e.2 < N -> 0 <= f.1 < N /\ 0 <= f.2 < N ->
  R (e.1 * N + e.2) (f.1 * N + f.2) <-> lex R e f.
Proof.
  unfold lex. intros [-> | ->] He Hf; nia.
Qed.

Lemma rank_monotone (keep : list Z) (ra rb : nat) (a b : Z) :
  StronglySorted Z.lt keep ->
  keep !! ra = Some a -> keep !! rb = Some b ->
  (a < b -> (ra < rb)%nat) /\ (a = b -> ra = rb).
Proof.
  intros Hs Ha Hb.
  destruct (lt_eq_lt_dec ra rb) as [[Hlt|Heq]|Hgt].
  - pose proof (StronglySorted_lookup_lt Z.lt _ _ _ _ _ Hs Ha Hb Hlt). lia.
  - subst rb. assert (a = b) by congruence. lia.
  - pose proof (StronglySorted_lookup_lt Z.lt _ _ _ _ _ Hs Hb Ha Hgt). lia.
Qed.

(** X17.  Sampling preserves the canonical edge order: when the edges of
    the source record join atoms of the record and are ascending (or
    strictly ascending) in [source * N + target], the edges of the
    subgraph are ascending (strictly ascending) in [source * M + target],
    [N] and [M] being the numbers of atoms of the record and of the
    subgraph. *)
Theorem sampler_preserves_edge_order (self : SidechainConformationDataset)
    (idx u : Z) (sub : Data) :
  getitem self idx u = Returned (Some sub) ->
  exists d s sub0 pos0 pos' ei ei',
    item (data (super self)) idx = Returned d /\
    subgraph_sampling self d u = Returned s /\
    subgraph d s = Returned sub0 /\
    sub = apply_transform (transform (super self)) sub0 /\
    pos d = Some pos0 /\ edge_index d = Some ei /\
    pos sub0 = Some pos' /\ edge_index sub0 = Some ei' /\
    (Forall (fun e : Z * Z => 0 <= e.1 < len pos0 /\ 0 <= e.2 < len pos0) ei ->
     (Sorted Z.le ((fun e : Z * Z => e.1 * len pos0 + e.2) <$> ei) ->
      Sorted Z.le ((fun e : Z * Z => e.1 * len pos' + e.2) <$> ei')) /\
     (Sorted Z.lt ((fun e : Z * Z => e.1 * len pos0 + e.2) <$> ei) ->
      Sorted Z.lt ((fun e : Z * Z => e.1 * len pos' + e.2) <$> ei'))).
Proof.
  intros Hret.
  apply getitem_Returned_Some in Hret
    as (d & s & sc & sub0 & Hd & Hs & Hsc & Hlen & Hcount & Hsub0 & ->).
  destruct (subgraph_sampling_Returned _ _ _ _ Hs)
    as (sc' & pos0 & ei & a2r &
        [sampled_is_sidechain0 sampled_pos0 sampled_edge_index0 sampled_atom2res0
         sampled_length_sc0 sampled_length_a2r0 sampled_center0 sampled_residues0
         sampled_length_keep0 sampled_keep0 sampled_edges0 sampled_keep_index0
         sampled_length_mapping0 sampled_mapping_kept0 sampled_mapping_dropped0]).
  destruct (subgraph_Returned _ _ _ Hsub0)
    as (at0 & et0 & ei' &
        [sub_atom_type00 sub_edge_type00 sub_length_at00 sub_length_et00
         sub_atom_type0 sub_pos0 sub_is_sidechain0 sub_atom2res0 sub_edge_type0
         sub_edge_index0 sub_edges0]).
  specialize (sub_edges0 ei sampled_edge_index0).
  exists d, s, sub0, pos0, (select (is_keep_atom s) pos0), ei, ei'.
  split_and!; try done; [by apply sub_pos0|]. intros Hrange.
  set (M := len (select (is_keep_atom s) pos0)).
  assert (HM : M = len (keep_index s)).
  { unfold M. rewrite sampled_keep_index0.
    rewrite !select_length_count; [done|rewrite length_arange; unfold len; lia|done]. }
  assert (Hsorted : StronglySorted Z.lt (keep_index s)).
  { rewrite sampled_keep_index0. apply select_arange_sorted. }
  (* each kept edge, with the ranks of its endpoints among the kept atoms *)
  assert (Hranks : Forall2
            (fun e e' : Z * Z =>
               (0 <= e'.1 < M /\ 0 <= e'.2 < M) /\
               keep_index s !! Z.to_nat e'.1 = Some e.1 /\
               keep_index s !! Z.to_nat e'.2 = Some e.2)
            (select (is_keep_edge s) ei) ei').
  { assert (Hkept : Forall (fun e : Z * Z =>
              (0 <= e.1 /\ is_keep_atom s !! Z.to_nat e.1 = Some true) /\
              (0 <= e.2 /\ is_keep_atom s !! Z.to_nat e.2 = Some true))
              (select (is_keep_edge s) ei)).
    { apply Forall_forall. intros e He.
      apply elem_of_select in He as (k & Hk & He).
      destruct (Forall2_lookup_l _ _ _ _ _ sampled_edges0 He)
        as (b & Hb & b0 & b1 & Hb0 & Hb1 & ->).
      rewrite Hk in Hb. injection Hb as Hb. symmetry in Hb.
      apply andb_true_iff in Hb as [-> ->].
      eapply Forall_forall in Hrange; [|by eapply list_elem_of_lookup_2].
      destruct Hrange as [[? _] [? _]].
      apply item_nonneg in Hb0, Hb1; done. }
    assert (Hone : forall a a', 0 <= a -> is_keep_atom s !! Z.to_nat a = Some true ->
                     item (mapping s) a = Returned a' ->
                     0 <= a' < M /\ keep_index s !! Z.to_nat a' = Some a).
    { intros a a' Ha Hk Hm. apply item_nonneg in Hm; [|done].
      assert (Hin : a ∈ keep_index s).
      { rewrite sampled_keep_index0. apply elem_of_select_arange; [|done].
        unfold len. lia. }
      apply list_elem_of_lookup in Hin as [k Hk'].
      pose proof (sampled_mapping_kept0 k a Hk') as Hm'.
      assert (a' = Z.of_nat k) as -> by congruence.
      rewrite Nat2Z.id. apply lookup_lt_Some in Hk' as Hlt.
      rewrite HM. unfold len. split; [lia|done]. }
    clear -sub_edges0 Hkept Hone.
    induction sub_edges0 as [|e e' l l' [He1 He2] _ IH]; [constructor|].
    apply Forall_cons in Hkept as [[[Ha1 Hk1] [Ha2 Hk2]] Hkept].
    constructor; [|by apply IH].
    destruct (Hone _ _ Ha1 Hk1 He1) as [? ?].
    destruct (Hone _ _ Ha2 Hk2 He2) as [? ?]. done. }
  assert (Hgen : forall R : relation Z,
            R = Z.le \/ R = Z.lt -> Transitive R ->
            Sorted R ((fun e : Z * Z => e.1 * len pos0 + e.2) <$> ei) ->
            Sorted R ((fun e : Z * Z => e.1 * M + e.2) <$> ei')).
  { intros R HR Htrans Hs0.
    apply Sorted_StronglySorted in Hs0; [|done].
    apply StronglySorted_fmap_inv in Hs0.
    apply (StronglySorted_Forall_impl _ (lex R) _ _
             (fun e f He Hf => proj1 (lex_key R (len pos0) e f HR He Hf)) Hrange)
      in Hs0.
    apply (select_StronglySorted _ (is_keep_edge s)) in Hs0.
    apply StronglySorted_Sorted.
    apply (StronglySorted_fmap (fun e : Z * Z => e.1 * M + e.2)
             (fun e f : Z * Z => R (e.1 * M + e.2) (f.1 * M + f.2)) R); [done|].
    eapply StronglySorted_Forall2; [|exact Hranks|exact Hs0].
    intros e f e' f' (He' & He1 & He2) (Hf' & Hf1 & Hf2) Hlex.
    apply (lex_key R M e' f' HR He' Hf').
    destruct (rank_monotone _ _ _ _ _ Hsorted He1 Hf1) as [Hlt1 Heq1].
    destruct (rank_monotone _ _ _ _ _ Hsorted He2 Hf2) as [Hlt2 Heq2].
    unfold lex in *. destruct Hlex as [Hlt|[Heq HR2]].
    - left. specialize (Hlt1 Hlt). lia.
    - right. specialize (Heq1 Heq). split; [lia|].
      destruct HR as [-> | ->].
      + destruct (decide (e.2 = f.2)) as [He|Hne];
          [specialize (Heq2 He); lia|specialize (Hlt2 ltac:(lia)); lia].
      + specialize (Hlt2 HR2). lia. }
  split.
  - apply Hgen; [by left|]. intros x y z. lia.
  - apply Hgen; [by right|]. intros x y z. lia.
Qed.

End sampler_edges.

(** ** Preprocessing *)

Section preprocess_props.
Context `{TorchFloat} `{BondTable} `{TorchSort} `{ChemSmiles}.

Lemma traverse_arange {A B} (f : Z -> outcome B) (g : A -> outcome B) (l : list A) :
  (forall (i : nat) x, l !! i = Some x -> f (Z.of_nat i) = g x) ->
  traverse f (arange (len l)) = traverse g l.
Proof.
  intros Hfg.
  assert (Hgen : forall (k : nat) (l' : list A),
            (forall (i : nat) x, l' !! i = Some x -> f (Z.of_nat (k + i)) = g x) ->
            traverse f (Z.of_nat <$> seq k (length l')) = traverse g l').
  { intros k l'. revert k. induction l' as [|x l' IH]; intros k Hk; [done|].
    csimpl. rewrite <- (Hk 0%nat x eq_refl), Nat.add_0_r.
    rewrite (IH (S k)); [done|]. intros i y Hy.
    rewrite <- (Hk (S i) y Hy). f_equal. lia. }
  unfold arange, len. rewrite Nat2Z.id. by apply (Hgen 0%nat).
Qed.

Lemma preprocess_all_traverse (raw : list Mol) :
  preprocess_all raw (mol_to_smiles <$> raw)
  = traverse (fun mol => rdmol_to_data mol (Some (mol_to_smiles mol))) raw.
Proof.
  unfold preprocess_all. apply traverse_arange. intros i mol Hi.
  rewrite (item_nat (mol_to_smiles <$> raw) i (mol_to_smiles mol))
    by (by rewrite list_lookup_fmap, Hi).
  simpl. by rewrite (item_nat raw i mol Hi).
Qed.

(** A molecule [rdmol_to_data] accepts: one conformer, with id 0. *)
Definition one_conformer (mol : Mol) : Prop :=
  exists conf, GetConformers mol = [conf] /\ GetId conf = 0.

Lemma traverse_rdmol_to_data (raw : list Mol) :
  match traverse (fun mol => rdmol_to_data mol (Some (mol_to_smiles mol))) raw with
  | Returned all =>
      Forall2 (fun mol d =>
                 rdmol_to_data mol (Some (mol_to_smiles mol)) = Returned d /\
                 smiles d = Some (mol_to_smiles mol))
              raw all /\
      Forall one_conformer raw
  | Raised e =>
      exists before mol after,
        raw = before ++ mol :: after /\
        Forall one_conformer before /\
        rdmol_to_data mol (Some (mol_to_smiles mol)) = Raised e /\
        ((e = AssertionError /\ GetNumConformers mol <> 1) \/
         (e = ValueError /\
          exists conf, GetConformers mol = [conf] /\ GetId conf <> 0))
  end.
Proof.
  induction raw as [|mol raw IH]; simpl; [by split; constructor|].
  pose proof (rdmol_to_data_outcome mol (Some (mol_to_smiles mol))) as Hmol.
  destruct (rdmol_to_data mol (Some (mol_to_smiles mol))) as [d|e] eqn:Hd; simpl.
  - destruct Hmol as (conf & row & col & et0 & ei & et & Hconf & Hid & _ & _ & Hrec).
    assert (Hsm : smiles d = Some (mol_to_smiles mol)) by (by rewrite Hrec).
    assert (Hone : one_conformer mol) by (by exists conf).
    destruct (traverse _ raw) as [all|e]; simpl.
    + destruct IH as [IH1 IH2]. split; constructor; done.
    + destruct IH as (before & mol' & after & -> & Hbefore & Hraise & He).
      exists (mol :: before), mol', after. split_and!; try done.
      by constructor.
  - exists [], mol, raw. split_and!; try done.
Qed.

(** X18.  [preprocess_iso17_dataset] returns, for each of the two lists
    of molecules, the records [rdmol_to_data] builds for them, one per
    molecule and in order, each with the SMILES string of
    [mol_to_smiles]; it completes exactly when every molecule has one
    conformer, with id 0.  Otherwise it raises what [rdmol_to_data] raises
    for the first molecule that has not, the training molecules coming
    first: AssertionError when it has not one conformer, ValueError when
    its conformer has another id. *)
Theorem preprocess_iso17_dataset_records (raw_train raw_test : list Mol) :
  match preprocess_iso17_dataset raw_train raw_test with
  | Returned (all_train, all_test) =>
      Forall2 (fun mol d =>
                 rdmol_to_data mol (Some (mol_to_smiles mol)) = Returned d /\
                 smiles d = Some (mol_to_smiles mol))
              raw_train all_train /\
      Forall2 (fun mol d =>
                 rdmol_to_data mol (Some (mol_to_smiles mol)) = Returned d /\
                 smiles d = Some (mol_to_smiles mol))
              raw_test all_test /\
      Forall (fun mol => exists conf, GetConformers mol = [conf] /\ GetId conf = 0)
             (raw_train ++ raw_test)
  | Raised e =>
      exists before mol after,
        raw_train ++ raw_test = before ++ mol :: after /\
        Forall (fun mol => exists conf, GetConformers mol = [conf] /\ GetId conf = 0)
               before /\
        rdmol_to_data mol (Some (mol_to_smiles mol)) = Raised e /\
        ((e = AssertionError /\ GetNumConformers mol <> 1) \/
         (e = ValueError /\
          exists conf, GetConformers mol = [conf] /\ GetId conf <> 0))
  end.
Proof.
  unfold preprocess_iso17_dataset. rewrite !preprocess_all_traverse.
  pose proof (traverse_rdmol_to_data raw_train) as Htrain.
  pose proof (traverse_rdmol_to_data raw_test) as Htest.
  destruct (traverse _ raw_train) as [all_train|e]; simpl.
  - destruct (traverse _ raw_test) as [all_test|e]; simpl.
    + destruct Htrain as [? ?], Htest as [? ?]. split_and!; try done.
      by apply Forall_app.
    + destruct Htrain as [_ Hall].
      destruct Htest as (before & mol & after & -> & Hbefore & Hraise & He).
      exists (raw_train ++ before), mol, after. split_and!; try done.
      * by rewrite <- app_assoc.
      * by apply Forall_app.
  - destruct Htrain as (before & mol & after & -> & Hbefore & Hraise & He).
    exists before, mol, (after ++ raw_test). split_and!; try done.
    by rewrite <- app_assoc.
Qed.

End preprocess_props.

(** ** A concrete permutation *)

(** The integers below [n] in descending order, for
    [np.random.permutation]. *)
Definition descending (n : Z) : list Z := reverse (arange n).

Lemma descending_perm n : descending n ≡ₚ arange n.
Proof. unfold descending. apply reverse_Permutation. Qed.

Definition descending_permutation : NumpyPermutation :=
  {| permutation := descending; permutation_perm := descending_perm |}.

(** ** The embedding at work

    The operations evaluated on small inputs, with the grid coordinates,
    the merge sort and the rotating shuffle for the library interfaces. *)

Module Examples.

#[local] Existing Instance grid_float.
#[local] Existing Instance bond_kinds.
#[local] Existing Instance merge_sort_argsort.
#[local] Existing Instance rotate_shuffle.

(** *** Builder *)

Definition atom (z : Z) (atom_name residue : string) (number : Z) : Atom :=
  {| GetAtomicNum := z;
     GetPDBResidueInfo :=
       Some {| GetName := atom_name; GetResidueName := residue;
               GetResidueNumber := number |} |}.

Definition bare_atom (z : Z) : Atom :=
  {| GetAtomicNum := z; GetPDBResidueInfo := None |}.

(** The conformer RDKit gives a molecule it reads: its id is 0. *)
Definition conf0 (xyz : list (Z * Z * Z)) : Conformer :=
  {| GetId := 0; GetPositions := xyz |}.

(** Ten atoms and the single bond (0, 1), no residue data. *)
Definition ten_atoms : Mol :=
  {| GetAtoms := replicate 10 (bare_atom 6);
     GetBonds := [{| GetBeginAtomIdx := 0; GetEndAtomIdx := 1; GetBondType := SINGLE |}];
     GetConformers := [conf0 (replicate 10 (0, 0, 0))];
     MolToSmiles := "CC.C.C.C.C.C.C.C.C" |}.

(** Two residues numbered 1 and 3 in the file. *)
Definition gap_mol : Mol :=
  {| GetAtoms := [atom 6 " CA " "ALA" 1; atom 6 " CB " "ALA" 3];
     GetBonds := [{| GetBeginAtomIdx := 0; GetEndAtomIdx := 1; GetBondType := SINGLE |}];
     GetConformers := [conf0 [(0, 0, 0); (1, 0, 0)]];
     MolToSmiles := "CC" |}.

Definition gap_lines : list string :=
  ["REMARK two residues";
   "ATOM      1  CA  ALA     1       0.000   0.000   0.000  1.00  0.00";
   "ATOM      2  CB  ALA     3       1.000   0.000   0.000  1.00  0.00";
   "END"]%string.

Definition gap_data : Data :=
  {| atom_type := Some [6; 6];
     pos := Some [(0, 0, 0); (1, 0, 0)];
     edge_index := Some [(0, 1); (1, 0)];
     edge_type := Some [1; 1];
     is_alpha := Some [true; false];
     rdmol := Some gap_mol; name := Some "gap"%string;
     is_sidechain := Some [false; true];
     atom2res := Some [0; 2];
     atom2alpha_index := Some [0; -1];
     smiles := None; idx := None; totalenergy := None; boltzmannweight := None;
     pos_ref := None; num_pos_ref := None |}.

Example pdb_to_data_gap :
  pdb_to_data (Some gap_mol) gap_lines "gap" = Returned (Some gap_data).
Proof. reflexivity. Qed.

Definition ten_atoms_data : Data :=
  {| atom_type := Some (replicate 10 6);
     pos := Some (replicate 10 (0, 0, 0));
     edge_index := Some [(0, 1); (1, 0)];
     edge_type := Some [1; 1];
     is_alpha := None; rdmol := Some ten_atoms; name := None;
     is_sidechain := None; atom2res := None; atom2alpha_index := None;
     smiles := Some "CC.C.C.C.C.C.C.C.C"%string; idx := None;
     totalenergy := None; boltzmannweight := None;
     pos_ref := None; num_pos_ref := None |}.

Example rdmol_to_data_ten_atoms :
  rdmol_to_data ten_atoms None = Returned ten_atoms_data.
Proof. reflexivity. Qed.

Lemma builder_edges_canonical_witness :
  (rdmol_to_data ten_atoms None = Returned ten_atoms_data \/
   pdb_to_data (Some ten_atoms) [] "" = Returned (Some ten_atoms_data)) /\
  exists ei et,
    edge_index ten_atoms_data = Some ei /\ edge_type ten_atoms_data = Some et /\
    ei = [(0, 1); (1, 0)] /\ et = [1; 1].
Proof.
  pose proof rdmol_to_data_ten_atoms as Hbuild.
  split; [left; exact Hbuild|].
  destruct (builder_edges_canonical ten_atoms None [] "" ten_atoms_data
              (or_introl Hbuild))
    as (ei & et & Hei & Het & _ & _ & _ & _ & Hone).
  exists ei, et. split; [exact Hei|]. split; [exact Het|].
  apply (Hone _ eq_refl eq_refl eq_refl). vm_compute. split; reflexivity.
Defined.

(** A structure of one sidechain atom and no bond. *)
Definition lone_mol : Mol :=
  {| GetAtoms := [atom 6 " CB " "ALA" 1];
     GetBonds := [];
     GetConformers := [conf0 [(0, 0, 0)]];
     MolToSmiles := "C" |}.

Definition lone_lines : list string :=
  ["REMARK one atom";
   "ATOM      1  CB  ALA     1       0.000   0.000   0.000  1.00  0.00";
   "END"]%string.

(** Glycine: backbone atoms only. *)
Definition gly_mol : Mol :=
  {| GetAtoms := [atom 7 " N  " "GLY" 1; atom 6 " CA " "GLY" 1;
                  atom 6 " C  " "GLY" 1; atom 8 " O  " "GLY" 1];
     GetBonds := [{| GetBeginAtomIdx := 0; GetEndAtomIdx := 1; GetBondType := SINGLE |};
                  {| GetBeginAtomIdx := 1; GetEndAtomIdx := 2; GetBondType := SINGLE |};
                  {| GetBeginAtomIdx := 2; GetEndAtomIdx := 3; GetBondType := DOUBLE |}];
     GetConformers := [conf0 [(0, 0, 0); (1, 0, 0); (2, 0, 0); (2, 1, 0)]];
     MolToSmiles := "NCC=O" |}.

Definition gly_lines : list string :=
  ["REMARK glycine";
   "ATOM      1  N   GLY     1       0.000   0.000   0.000  1.00  0.00";
   "ATOM      2  CA  GLY     1       1.000   0.000   0.000  1.00  0.00";
   "ATOM      3  C   GLY     1       2.000   0.000   0.000  1.00  0.00";
   "ATOM      4  O   GLY     1       2.000   1.000   0.000  1.00  0.00";
   "END"]%string.

Example pdb_to_data_glycine :
  pdb_to_data (Some gly_mol) gly_lines "gly" = Returned None.
Proof. reflexivity. Qed.

Lemma pdb_to_data_rejects_witness :
  (GetBonds lone_mol = [] \/ Forall backbone_atom (GetAtoms lone_mol)) /\
  pdb_to_data (Some lone_mol) lone_lines "lone" = Returned None.
Proof.
  split; [left; reflexivity|].
  destruct (pdb_to_data_rejects lone_mol lone_lines "lone" (or_introl eq_refl))
    as [Heq _].
  rewrite Heq. vm_compute. reflexivity.
Defined.

(** Two sidechain atoms far apart, in residues 1 and 5001: no bond, and
    the builder raises instead of returning [None]. *)
Definition far_mol : Mol :=
  {| GetAtoms := [atom 6 " CB " "ALA" 1; atom 6 " CB " "ALA" 5001];
     GetBonds := [];
     GetConformers := [conf0 [(0, 0, 0); (100, 0, 0)]];
     MolToSmiles := "C.C" |}.

Definition far_lines : list string :=
  ["REMARK two atoms";
   "ATOM      1  CB  ALA     1       0.000   0.000   0.000  1.00  0.00";
   "ATOM      2  CB  ALA  5001     100.000   0.000   0.000  1.00  0.00";
   "END"]%string.

Example pdb_to_data_far :
  GetBonds far_mol = [] /\
  pdb_to_data (Some far_mol) far_lines "far" = Raised IndexError.
Proof. split; [reflexivity|]. vm_compute. reflexivity. Qed.

(** The file names the atom CA, the structure CB. *)
Definition mismatch_lines : list string :=
  ["REMARK one atom";
   "ATOM      1  CA  ALA     1       0.000   0.000   0.000  1.00  0.00";
   "END"]%string.

Example pdb_to_data_mismatch :
  GetBonds lone_mol = [] /\
  pdb_to_data (Some lone_mol) mismatch_lines "lone" = Raised AssertionError.
Proof. split; [reflexivity|]. vm_compute. reflexivity. Qed.

(** C5 as stated fails: a structure without bonds for which the builder
    raises. *)
Lemma pdb_to_data_zero_bonds_may_raise :
  ~ (forall (F : TorchFloat) (B : BondTable) (S : TorchSort)
            (mol : Mol) (lines : list string) (name0 : string),
        GetBonds mol = [] \/ Forall backbone_atom (GetAtoms mol) ->
        pdb_to_data (Some mol) lines name0 = Returned None).
Proof.
  intros Hnone.
  specialize (Hnone grid_float bond_kinds merge_sort_argsort
                far_mol far_lines "far"%string (or_introl eq_refl)).
  vm_compute in Hnone. discriminate Hnone.
Qed.

Lemma pdb_atom2res_zero_based_witness :
  pdb_to_data (Some gap_mol) gap_lines "gap" = Returned (Some gap_data) /\
  0 ∈ [0; 2] /\ Forall (fun res => 0 <= res < 5000) [0; 2].
Proof.
  assert (Hbuild : pdb_to_data (Some gap_mol) gap_lines "gap"
                   = Returned (Some gap_data)) by (vm_compute; reflexivity).
  split; [exact Hbuild|].
  destruct (pdb_atom2res_zero_based gap_mol gap_lines "gap" gap_data Hbuild)
    as (a2r & least & Ha2r & _ & Hzero & Hrange).
  injection Ha2r as <-. split; [exact Hzero|exact Hrange].
Defined.

(** C9 as stated fails: residue numbers 1 and 3 give the ids 0 and 2. *)
Lemma pdb_atom2res_has_gaps :
  ~ (forall (F : TorchFloat) (B : BondTable) (S : TorchSort)
            (mol : Mol) (lines : list string) (name0 : string) (d : Data)
            (a2r : list Z),
        pdb_to_data (Some mol) lines name0 = Returned (Some d) ->
        atom2res d = Some a2r ->
        0 ∈ a2r /\
        forall r top, top ∈ a2r -> 0 <= r <= top -> r ∈ a2r).
Proof.
  intros Hcontiguous.
  destruct (Hcontiguous grid_float bond_kinds merge_sort_argsort
              gap_mol gap_lines "gap"%string gap_data [0; 2])
    as [_ Hall]; [vm_compute; reflexivity|reflexivity|].
  specialize (Hall 1 2). 
  assert (Hin : 1 ∈ [0; 2]).
  { apply Hall; [|lia]. right. left. }
  apply elem_of_cons in Hin as [Hin|Hin]; [lia|].
  apply list_elem_of_singleton in Hin. lia.
Qed.

(** *** Packer *)

Definition conformer (smi : string) (x : Z) : Data :=
  {| atom_type := Some [6; 6; 6; 6; 8];
     pos := Some (replicate 5 (x, 0, 0));
     edge_index := Some [(0, 1); (1, 0)];
     edge_type := Some [1; 1];
     is_alpha := None; rdmol := None; name := None;
     is_sidechain := None; atom2res := None; atom2alpha_index := None;
     smiles := Some smi; idx := None;
     totalenergy := Some [x]; boltzmannweight := Some [1];
     pos_ref := None; num_pos_ref := None |}.

Definition packed_conformers (smi : string) (xs : list Z) : Data :=
  {| atom_type := Some [6; 6; 6; 6; 8];
     pos := Some (replicate 5 (default 0 (head xs), 0, 0));
     edge_index := Some [(0, 1); (1, 0)];
     edge_type := Some [1; 1];
     is_alpha := None; rdmol := None; name := None;
     is_sidechain := None; atom2res := None; atom2alpha_index := None;
     smiles := Some smi; idx := None;
     totalenergy := None; boltzmannweight := None;
     pos_ref := Some (xs ≫= fun x => replicate 5 (x, 0, 0));
     num_pos_ref := Some [len xs] |}.

(** Three conformers of M1 around one of M2. *)
Definition four_conformers : ConformationDataset :=
  {| data := [conformer "M1" 1; conformer "M2" 7; conformer "M1" 2; conformer "M1" 3];
     hasattr_idx := false; transform := None |}.

Example pack_four_conformers :
  _pack_data_by_mol four_conformers
  = Returned [packed_conformers "M1" [1; 2; 3]; packed_conformers "M2" [7]].
Proof. reflexivity. Qed.

Example fill_packed_four_conformers :
  fill_packed false (data four_conformers) []
  = Returned [(key_smiles "M1", [conformer "M1" 1; conformer "M1" 2; conformer "M1" 3]);
              (key_smiles "M2", [conformer "M2" 7])].
Proof. reflexivity. Qed.

Lemma pack_concatenates_conformers_witness :
  _pack_data_by_mol four_conformers
  = Returned [packed_conformers "M1" [1; 2; 3]; packed_conformers "M2" [7]] /\
  exists ref,
    pos_ref (packed_conformers "M1" [1; 2; 3]) = Some ref /\ len ref = 5 * 3.
Proof.
  pose proof pack_four_conformers as Hpack.
  split; [exact Hpack|].
  destruct (pack_concatenates_conformers four_conformers _ Hpack)
    as (packed & Hfill & _ & _ & Hall).
  change (hasattr_idx four_conformers) with false in Hfill.
  rewrite fill_packed_four_conformers in Hfill. injection Hfill as <-.
  apply Forall2_cons_1 in Hall as [(all_pos & Hpos & Href & _ & _ & _ & Hlen & _) _].
  exists (concat all_pos). split; [exact Href|].
  apply (Hlen 5). clear -Hpos. simpl in Hpos.
  repeat (apply Forall2_cons_inv_l in Hpos as (ps & all_pos' & Hps & Hpos & ->);
          injection Hps as <-; apply Forall_cons; split; [reflexivity|];
          rename all_pos' into all_pos).
  apply Forall2_nil_inv_l in Hpos as ->. constructor.
Defined.

Lemma pack_keeps_representative_witness :
  _pack_data_by_mol four_conformers
  = Returned [packed_conformers "M1" [1; 2; 3]; packed_conformers "M2" [7]] /\
  exists packed,
    fill_packed false (data four_conformers) [] = Returned packed /\
    packed.*1 = [key_smiles "M1"; key_smiles "M2"].
Proof.
  pose proof pack_four_conformers as Hpack.
  split; [exact Hpack|].
  destruct (pack_keeps_representative four_conformers _ Hpack)
    as (packed & Hfill & _).
  exists packed. split; [exact Hfill|].
  change (hasattr_idx four_conformers) with false in Hfill.
  rewrite fill_packed_four_conformers in Hfill. injection Hfill as <-. reflexivity.
Defined.

(** *** Sampler *)

(** A record of four atoms in two residues: a backbone atom and a
    sidechain atom each, the residues far apart. *)
Definition four_atoms : Data :=
  {| atom_type := Some [6; 6; 6; 8];
     pos := Some [(0, 0, 0); (20, 0, 0); (100, 0, 0); (101, 0, 0)];
     edge_index := Some [(0, 1); (1, 0); (1, 2); (2, 1); (2, 3); (3, 2)];
     edge_type := Some [1; 1; 1; 1; 2; 2];
     is_alpha := Some [true; false; true; false];
     rdmol := None; name := None;
     is_sidechain := Some [false; true; false; true];
     atom2res := Some [0; 0; 1; 1];
     atom2alpha_index := Some [0; 0; 2; 2];
     smiles := None; idx := None; totalenergy := None; boltzmannweight := None;
     pos_ref := None; num_pos_ref := None |}.

Definition four_atoms_dataset : SidechainConformationDataset :=
  {| super := {| data := [four_atoms]; hasattr_idx := false; transform := None |};
     cutoff := 10; max_residue := 2; fix_subgraph := false |}.

(** The subgraph around atom 0: residue 0, whose second atom is beyond the
    cutoff. *)
Definition residue_0 : Data :=
  {| atom_type := Some [6; 6];
     pos := Some [(0, 0, 0); (20, 0, 0)];
     edge_index := Some [(0, 1); (1, 0)];
     edge_type := Some [1; 1];
     is_alpha := None; rdmol := None; name := None;
     is_sidechain := Some [false; true];
     atom2res := Some [0; 0];
     atom2alpha_index := None;
     smiles := None; idx := None; totalenergy := None; boltzmannweight := None;
     pos_ref := None; num_pos_ref := None |}.

Example getitem_four_atoms :
  getitem four_atoms_dataset 0 0 = Returned (Some residue_0).
Proof. reflexivity. Qed.

Definition four_atoms_sampling : sampling :=
  {| center_atom_index := 0;
     mask := [true; false; false; false];
     is_keep_residue := [true; false];
     is_keep_atom := [true; true; false; false];
     is_keep_edge := [true; true; false; false; false; false];
     keep_index := [0; 1];
     mapping := [0; 1; -1; -1] |}.

Example subgraph_sampling_four_atoms :
  subgraph_sampling four_atoms_dataset four_atoms 0 = Returned four_atoms_sampling.
Proof. reflexivity. Qed.

Lemma sampler_residue_complete_witness :
  getitem four_atoms_dataset 0 0 = Returned (Some residue_0) /\
  (forall (i : nat) r,
     [0; 0; 1; 1] !! i = Some r ->
     ([true; true; false; false] !! i = Some true <->
      exists (j : nat) (p : Z * Z * Z),
        [0; 0; 1; 1] !! j = Some r /\
        [(0, 0, 0); (20, 0, 0); (100, 0, 0); (101, 0, 0)] !! j = Some p /\
        (Z.sqrt ((0 - p.1.1) * (0 - p.1.1) + (0 - p.1.2) * (0 - p.1.2)
                 + (0 - p.2) * (0 - p.2)) <=? 10) = true)) /\
  forall r, r ∈ [0; 0] ->
    filter (fun x => x = r) [0; 0] = filter (fun x => x = r) [0; 0; 1; 1].
Proof.
  assert (Hget : getitem four_atoms_dataset 0 0 = Returned (Some residue_0))
    by (vm_compute; reflexivity).
  split; [exact Hget|].
  destruct (sampler_residue_complete four_atoms_dataset 0 0 residue_0 Hget)
    as (d & s & sub0 & sc & pos0 & a2r & pc & Hd & Hs & _ & _ & _ & Hpos & Ha2r
        & _ & _ & _ & _ & Hpc & _ & _ & Hkeep & Hwhole).
  injection Hd as <-. injection Hpos as <-. injection Ha2r as <-.
  rewrite subgraph_sampling_four_atoms in Hs. injection Hs as <-.
  injection Hpc as <-.
  split; [exact Hkeep|]. intros r Hr. apply (Hwhole r Hr).
Defined.

Lemma sampler_reindex_witness :
  getitem four_atoms_dataset 0 0 = Returned (Some residue_0) /\
  Forall (fun e : Z * Z => 0 <= e.1 < 2 /\ 0 <= e.2 < 2) [(0, 1); (1, 0)].
Proof.
  assert (Hget : getitem four_atoms_dataset 0 0 = Returned (Some residue_0))
    by (vm_compute; reflexivity).
  split; [exact Hget|].
  destruct (sampler_reindex four_atoms_dataset 0 0 residue_0 Hget)
    as (d & s & sub0 & pos0 & at0 & pos' & at' & ei' & Hd & Hs & Hsub & _ & _ & _
        & _ & _ & Hei & _ & _ & _ & _ & _ & _ & _ & Hedges & _).
  injection Hd as <-. vm_compute in Hs. injection Hs as <-.
  vm_compute in Hsub. injection Hsub as <-. injection Hei as <-.
  exact Hedges.
Defined.

(** With the seed atom in residue 1 and no sidechain atom there, nothing
    is sampled. *)
Definition backbone_only : Data :=
  {| atom_type := Some [6; 6; 6];
     pos := Some [(0, 0, 0); (20, 0, 0); (100, 0, 0)];
     edge_index := Some [(0, 1); (1, 0); (1, 2); (2, 1)];
     edge_type := Some [1; 1; 1; 1];
     is_alpha := Some [true; false; true];
     rdmol := None; name := None;
     is_sidechain := Some [false; true; false];
     atom2res := Some [0; 0; 1];
     atom2alpha_index := Some [0; 0; 2];
     smiles := None; idx := None; totalenergy := None; boltzmannweight := None;
     pos_ref := None; num_pos_ref := None |}.

Definition backbone_only_dataset : SidechainConformationDataset :=
  {| super := {| data := [backbone_only]; hasattr_idx := false; transform := None |};
     cutoff := 10; max_residue := 5000; fix_subgraph := true |}.

Definition backbone_only_sampling : sampling :=
  {| center_atom_index := 2;
     mask := [false; false; true];
     is_keep_residue := false :: true :: replicate 4998 false;
     is_keep_atom := [false; false; true];
     is_keep_edge := [false; false; false; false];
     keep_index := [2];
     mapping := [-1; -1; 0] |}.

Example subgraph_sampling_backbone_only :
  subgraph_sampling backbone_only_dataset backbone_only 0
  = Returned backbone_only_sampling.
Proof. reflexivity. Qed.

Example getitem_sampling_miss :
  getitem backbone_only_dataset 0 0 = Returned None.
Proof. reflexivity. Qed.

Lemma four_atoms_well_formed : well_formed four_atoms_dataset four_atoms.
Proof.
  split.
  exists [6; 6; 6; 8], [(0, 0, 0); (20, 0, 0); (100, 0, 0); (101, 0, 0)],
    [(0, 1); (1, 0); (1, 2); (2, 1); (2, 3); (3, 2)], [1; 1; 1; 1; 2; 2],
    [false; true; false; true], [0; 0; 1; 1].
  split_and!; try reflexivity.
  - left.
  - repeat constructor; simpl; lia.
  - repeat constructor; unfold len; simpl; lia.
Qed.

Lemma backbone_only_well_formed : well_formed backbone_only_dataset backbone_only.
Proof.
  split.
  exists [6; 6; 6], [(0, 0, 0); (20, 0, 0); (100, 0, 0)],
    [(0, 1); (1, 0); (1, 2); (2, 1)], [1; 1; 1; 1],
    [false; true; false], [0; 0; 1].
  split_and!; try reflexivity.
  - left.
  - repeat constructor; simpl; lia.
  - repeat constructor; unfold len; simpl; lia.
Qed.

Lemma sampler_none_iff_no_sidechain_witness :
  (well_formed four_atoms_dataset four_atoms /\
   well_formed backbone_only_dataset backbone_only) /\
  getitem four_atoms_dataset 0 0 = Returned (Some residue_0) /\
  getitem backbone_only_dataset 0 0 = Returned None /\
  true ∈ [false; true].
Proof.
  split; [split; [exact four_atoms_well_formed|exact backbone_only_well_formed]|].
  assert (Hsome : getitem four_atoms_dataset 0 0 = Returned (Some residue_0)).
  { destruct (sampler_none_iff_no_sidechain four_atoms_dataset 0 0) as [Hwf _].
    destruct (Hwf four_atoms eq_refl four_atoms_well_formed)
      as (s & sc & Hs & Hsc & _ & _ & Hkept).
    rewrite subgraph_sampling_four_atoms in Hs. injection Hs as <-.
    injection Hsc as <-.
    destruct Hkept as (sub0 & Hsub & Hget).
    { exists 1%nat. split; reflexivity. }
    vm_compute in Hsub. injection Hsub as <-. exact Hget. }
  split; [exact Hsome|]. split.
  - destruct (sampler_none_iff_no_sidechain backbone_only_dataset 0 0) as [Hwf _].
    destruct (Hwf backbone_only eq_refl backbone_only_well_formed)
      as (s & sc & Hs & Hsc & _ & Hnone & _).
    rewrite subgraph_sampling_backbone_only in Hs. injection Hs as <-.
    injection Hsc as <-. apply Hnone.
    intros [|[|[|i]]] Hi; try discriminate Hi. reflexivity.
  - destruct (sampler_none_iff_no_sidechain four_atoms_dataset 0 0) as [_ Hsub].
    destruct (Hsub residue_0 Hsome)
      as (d & s & sc & sub0 & sc' & _ & _ & _ & _ & Heq & Hsc' & _ & Htrue).
    simpl in Heq. subst sub0. injection Hsc' as <-. exact Htrue.
Defined.

(** Two bonded sidechain atoms of one residue: the builder returns a
    record for them, and it holds no backbone atom. *)
Definition leu_mol : Mol :=
  {| GetAtoms := [atom 6 " CB " "LEU" 1; atom 6 " CG " "LEU" 1];
     GetBonds := [{| GetBeginAtomIdx := 0; GetEndAtomIdx := 1; GetBondType := SINGLE |}];
     GetConformers := [conf0 [(0, 0, 0); (1, 0, 0)]];
     MolToSmiles := "CC" |}.

Definition leu_lines : list string :=
  ["REMARK two sidechain atoms";
   "ATOM      1  CB  LEU     1       0.000   0.000   0.000  1.00  0.00";
   "ATOM      2  CG  LEU     1       1.000   0.000   0.000  1.00  0.00";
   "END"]%string.

Definition leu_data : Data :=
  {| atom_type := Some [6; 6];
     pos := Some [(0, 0, 0); (1, 0, 0)];
     edge_index := Some [(0, 1); (1, 0)];
     edge_type := Some [1; 1];
     is_alpha := Some [false; false];
     rdmol := Some leu_mol; name := Some "leu"%string;
     is_sidechain := Some [true; true];
     atom2res := Some [0; 0];
     atom2alpha_index := Some [-1; -1];
     smiles := None; idx := None; totalenergy := None; boltzmannweight := None;
     pos_ref := None; num_pos_ref := None |}.

Example pdb_to_data_leu :
  pdb_to_data (Some leu_mol) leu_lines "leu" = Returned (Some leu_data).
Proof. reflexivity. Qed.

Definition leu_dataset (fixed : bool) : SidechainConformationDataset :=
  {| super := {| data := [leu_data]; hasattr_idx := false; transform := None |};
     cutoff := 10; max_residue := 5000; fix_subgraph := fixed |}.

Example getitem_leu :
  getitem (leu_dataset false) 0 0 = Raised RuntimeError /\
  getitem (leu_dataset true) 0 0 = Raised IndexError.
Proof. split; vm_compute; reflexivity. Qed.

(** C6 as stated fails: on a record that the builder returns for a
    structure without backbone atoms, the sampler returns neither [None]
    nor a subgraph; it raises. *)
Lemma sampler_raises_without_backbone :
  ~ (forall (F : TorchFloat) (B : BondTable) (S : TorchSort)
            (self : SidechainConformationDataset) (idx u : Z)
            (mol : Mol) (lines : list string) (name0 : string) (d : Data),
        pdb_to_data (Some mol) lines name0 = Returned (Some d) ->
        item (data (super self)) idx = Returned d ->
        getitem self idx u = Returned None \/
        exists sub, getitem self idx u = Returned (Some sub)).
Proof.
  intros Hreturns.
  destruct (Hreturns grid_float bond_kinds merge_sort_argsort (leu_dataset false)
              0 0 leu_mol leu_lines "leu"%string leu_data pdb_to_data_leu eq_refl)
    as [Hnone|[sub Hsub]].
  - destruct getitem_leu as [Hraise _]. rewrite Hraise in Hnone. discriminate Hnone.
  - destruct getitem_leu as [Hraise _]. rewrite Hraise in Hsub. discriminate Hsub.
Qed.

End Examples.

(** ** More of the embedding at work *)

Module MoreExamples.

#[local] Existing Instance grid_float.
#[local] Existing Instance bond_kinds.
#[local] Existing Instance merge_sort_argsort.
#[local] Existing Instance descending_permutation.

(** *** Splitter and filters *)

Example get_half_split_5 :
  QM93D.get_half_split 5 "qm9_first_half" = Result [4; 3] /\
  QM93D.get_half_split 5 "qm9_second_half" = Result [2; 1; 0] /\
  Geom.get_half_split 5 "qm9_first_half" = Exception "Wrong dataset name".
Proof. repeat split; reflexivity. Qed.

Lemma get_half_split_halves_witness :
  0 <= 5 /\
  exists first second,
    QM93D.get_half_split 5 "qm9_first_half" = Result first /\
    QM93D.get_half_split 5 "qm9_second_half" = Result second /\
    first ++ second ≡ₚ arange 5 /\ len first = 2 /\ len second = 3.
Proof.
  split; [lia|].
  destruct (get_half_split_halves 5 ltac:(lia))
    as (first & second & Hf & Hs & _ & _ & _ & Hp & Hl1 & Hl2 & _).
  exists first, second. split; [exact Hf|]. split; [exact Hs|].
  split; [exact Hp|]. split; [exact Hl1|exact Hl2].
Defined.

Lemma get_num_plusseg_counts_runs_witness :
  Forall (fun c => c = "+"%char \/ c = "-"%char) (list_ascii_of_string "--++-+") /\
  prepare_pdb2.get_num_plusseg "--++-+" = Returned 2.
Proof.
  assert (Hmask : Forall (fun c => c = "+"%char \/ c = "-"%char)
                         (list_ascii_of_string "--++-+")).
  { repeat constructor; (by left) || (by right). }
  split; [exact Hmask|].
  rewrite (get_num_plusseg_counts_runs "--++-+" Hmask). reflexivity.
Defined.

Example get_num_plusseg_empty :
  prepare_pdb2.get_num_plusseg "" = Raised IndexError.
Proof. reflexivity. Qed.

(** *** Collection wrappers *)

(** Three records of one atom each: two conformers of a molecule around
    one of another. *)
Definition one_atom (smi : string) (z x : Z) : Data :=
  {| atom_type := Some [z]; pos := Some [(x, 0, 0)];
     edge_index := Some []; edge_type := Some [];
     is_alpha := None; rdmol := None; name := None;
     is_sidechain := None; atom2res := None; atom2alpha_index := None;
     smiles := Some smi; idx := None;
     totalenergy := None; boltzmannweight := None;
     pos_ref := None; num_pos_ref := None |}.

Definition three_records : ConformationDataset :=
  {| data := [one_atom "C" 6 1; one_atom "O" 8 5; one_atom "C" 6 2];
     hasattr_idx := false; transform := None |}.

Definition packed_three : Packed.PackedConformationDataset :=
  {| Packed.super := three_records;
     Packed.types :=
       {| Conformation.self_atom_types := [6; 8];
          Conformation.self_edge_types := [] |};
     Packed.new_data :=
       [{| atom_type := Some [6]; pos := Some [(1, 0, 0)];
           edge_index := Some []; edge_type := Some [];
           is_alpha := None; rdmol := None; name := None;
           is_sidechain := None; atom2res := None; atom2alpha_index := None;
           smiles := Some "C"%string; idx := None;
           totalenergy := None; boltzmannweight := None;
           pos_ref := Some [(1, 0, 0); (2, 0, 0)]; num_pos_ref := Some [2] |};
        {| atom_type := Some [8]; pos := Some [(5, 0, 0)];
           edge_index := Some []; edge_type := Some [];
           is_alpha := None; rdmol := None; name := None;
           is_sidechain := None; atom2res := None; atom2alpha_index := None;
           smiles := Some "O"%string; idx := None;
           totalenergy := None; boltzmannweight := None;
           pos_ref := Some [(5, 0, 0)]; num_pos_ref := Some [1] |}] |}.

Example Packed_init_three_records :
  Packed.__init__ three_records = Returned packed_three.
Proof. reflexivity. Qed.

Lemma Packed_one_record_per_molecule_witness :
  Packed.__init__ three_records = Returned packed_three /\
  exists keys sizes,
    traverse (molecule_id false) (data three_records) = Returned keys /\
    Packed.__len__ packed_three = len (first_seen keys) /\
    foldr Z.add 0 sizes = 3.
Proof.
  split; [exact Packed_init_three_records|].
  destruct (Packed_one_record_per_molecule three_records packed_three
              Packed_init_three_records)
    as (keys & sizes & Hkeys & _ & Hlen & _ & _ & Hsum & _).
  exists keys, sizes. split; [exact Hkeys|]. split; [exact Hlen|exact Hsum].
Defined.

(** A record without [pos] among the members of a molecule. *)
Example pack_without_pos :
  _pack_data_by_mol
    {| data := [one_atom "C" 6 1;
                {| atom_type := Some [6]; pos := None;
                   edge_index := Some []; edge_type := Some [];
                   is_alpha := None; rdmol := None; name := None;
                   is_sidechain := None; atom2res := None;
                   atom2alpha_index := None;
                   smiles := Some "C"%string; idx := None;
                   totalenergy := None; boltzmannweight := None;
                   pos_ref := None; num_pos_ref := None |}];
       hasattr_idx := false; transform := None |}
  = Raised TypeError.
Proof. reflexivity. Qed.

Example ConformationDataset_getitem_last :
  Conformation.__getitem__ three_records (-1) = Returned (one_atom "C" 6 2) /\
  Conformation.__getitem__ three_records 3 = Raised IndexError /\
  Conformation.__len__ three_records = 3.
Proof. repeat split; reflexivity. Qed.

(** *** Builder *)

Lemma pdb_to_data_record_witness :
  pdb_to_data (Some Examples.gap_mol) Examples.gap_lines "gap"
  = Returned (Some Examples.gap_data) /\
  exists ei et sc,
    edge_index Examples.gap_data = Some ei /\
    edge_type Examples.gap_data = Some et /\
    is_sidechain Examples.gap_data = Some sc /\
    len ei = 2 * len (GetBonds Examples.gap_mol) /\ len et = len ei /\ true ∈ sc.
Proof.
  split; [exact Examples.pdb_to_data_gap|].
  destruct (pdb_to_data_record _ _ _ _ Examples.pdb_to_data_gap)
    as (conf & at0 & pos0 & ei & et & al & sc & a2r & a2a & _ & _ & _ & _ & Hei & Het
        & _ & Hsc & _ & _ & _ & _ & _ & _ & _ & _ & _ & _ & _ & _ & _ & _ & _ & _
        & _ & _ & Hlei & Hlet & Htrue & _).
  exists ei, et, sc. split_and!; assumption.
Defined.

Lemma pdb_to_data_matches_file_witness :
  pdb_to_data (Some Examples.gap_mol) Examples.gap_lines "gap"
  = Returned (Some Examples.gap_data) /\
  len (GetAtoms Examples.gap_mol) + 2 <= len Examples.gap_lines.
Proof.
  split; [exact Examples.pdb_to_data_gap|].
  destruct (pdb_to_data_matches_file _ _ _ _ Examples.pdb_to_data_gap) as [Hlen _].
  exact Hlen.
Defined.

Lemma pdb_atom2alpha_index_witness :
  pdb_to_data (Some Examples.gap_mol) Examples.gap_lines "gap"
  = Returned (Some Examples.gap_data) /\
  forall (i : nat) res,
    [0; 2] !! i = Some res ->
    exists v,
      [0; -1] !! i = Some v /\
      ((v = -1 /\
        forall j : nat, [0; 2] !! j = Some res -> [true; false] !! j = Some false) \/
       (0 <= v /\
        [true; false] !! Z.to_nat v = Some true /\ [0; 2] !! Z.to_nat v = Some res /\
        forall j : nat, [0; 2] !! j = Some res -> [true; false] !! j = Some true ->
                        j = Z.to_nat v)).
Proof.
  split; [exact Examples.pdb_to_data_gap|].
  destruct (pdb_atom2alpha_index _ _ _ _ Examples.pdb_to_data_gap)
    as (al & a2r & a2a & Hal & Ha2r & Ha2a & _ & _ & Hindex).
  injection Hal as <-. injection Ha2r as <-. injection Ha2a as <-.
  apply Hindex. intros [|[|j]] [|[|j']] res Hj Hj' _ _;
    try discriminate Hj; try discriminate Hj'. reflexivity.
Defined.

Example atom2alpha_index_gap :
  atom2alpha_index Examples.gap_data = Some [0; -1].
Proof. reflexivity. Qed.

(** One carbon atom, no bond. *)
Definition methane : Mol :=
  {| GetAtoms := [Examples.bare_atom 6];
     GetBonds := [];
     GetConformers := [Examples.conf0 [(0, 0, 0)]];
     MolToSmiles := "C" |}.

Definition methane_data : Data :=
  {| atom_type := Some [6]; pos := Some [(0, 0, 0)];
     edge_index := Some []; edge_type := Some [];
     is_alpha := None; rdmol := Some methane; name := None;
     is_sidechain := None; atom2res := None; atom2alpha_index := None;
     smiles := Some "C"%string; idx := None;
     totalenergy := None; boltzmannweight := None;
     pos_ref := None; num_pos_ref := None |}.

Example rdmol_to_data_methane :
  rdmol_to_data methane None = Returned methane_data.
Proof. reflexivity. Qed.

(** The same molecule with its conformer under the id 1, and without a
    conformer. *)
Example rdmol_to_data_conformer_id :
  rdmol_to_data
    {| GetAtoms := [Examples.bare_atom 6]; GetBonds := [];
       GetConformers := [{| GetId := 1; GetPositions := [(0, 0, 0)] |}];
       MolToSmiles := "C" |} None
  = Raised ValueError /\
  rdmol_to_data
    {| GetAtoms := [Examples.bare_atom 6]; GetBonds := [];
       GetConformers := []; MolToSmiles := "C" |} None
  = Raised AssertionError.
Proof. split; reflexivity. Qed.

(** *** Records in the wrong wrapper *)

Definition methane_dataset : SidechainConformationDataset :=
  {| super := {| data := [methane_data]; hasattr_idx := false; transform := None |};
     cutoff := 10; max_residue := 5000; fix_subgraph := false |}.

Lemma sampler_rejects_molecule_records_witness :
  (item (data (super methane_dataset)) 0 = Returned methane_data /\
   rdmol_to_data methane None = Returned methane_data) /\
  getitem methane_dataset 0 0 = Raised AttributeError.
Proof.
  split; [split; [reflexivity|exact rdmol_to_data_methane]|].
  exact (sampler_rejects_molecule_records methane_dataset 0 0 methane_data
           methane None eq_refl rdmol_to_data_methane).
Defined.

Definition gap_store : ConformationDataset :=
  {| data := [Examples.gap_data]; hasattr_idx := false; transform := None |}.

Lemma packer_rejects_protein_records_witness :
  (Examples.gap_data ∈ data gap_store /\
   pdb_to_data (Some Examples.gap_mol) Examples.gap_lines "gap"
   = Returned (Some Examples.gap_data)) /\
  _pack_data_by_mol gap_store = Raised AttributeError.
Proof.
  assert (Hin : Examples.gap_data ∈ data gap_store) by (simpl; left).
  split; [split; [exact Hin|exact Examples.pdb_to_data_gap]|].
  exact (packer_rejects_protein_records gap_store Examples.gap_data
           Examples.gap_mol Examples.gap_lines "gap" Hin Examples.pdb_to_data_gap).
Defined.

(** *** Sampler *)

Definition gap_dataset : SidechainConformationDataset :=
  {| super := gap_store; cutoff := 10; max_residue := 5000; fix_subgraph := true |}.

Lemma sampler_accepts_built_records_witness :
  (5000 <= max_residue gap_dataset /\
   Forall (fun d =>
             exists mol lines name0,
               pdb_to_data (Some mol) lines name0 = Returned (Some d) /\
               Forall (fun bond => 0 <= GetBeginAtomIdx bond < GetNumAtoms mol /\
                                   0 <= GetEndAtomIdx bond < GetNumAtoms mol)
                      (GetBonds mol) /\
               Exists backbone_atom (GetAtoms mol))
          (data (super gap_dataset)) /\
   - len (data (super gap_dataset)) <= 0 < len (data (super gap_dataset))) /\
  exists r, getitem gap_dataset 0 0 = Returned r.
Proof.
  assert (Hmax : 5000 <= max_residue gap_dataset) by (simpl; lia).
  assert (Hbuilt : Forall (fun d =>
             exists mol lines name0,
               pdb_to_data (Some mol) lines name0 = Returned (Some d) /\
               Forall (fun bond => 0 <= GetBeginAtomIdx bond < GetNumAtoms mol /\
                                   0 <= GetEndAtomIdx bond < GetNumAtoms mol)
                      (GetBonds mol) /\
               Exists backbone_atom (GetAtoms mol))
          (data (super gap_dataset))).
  { constructor; [|constructor].
    exists Examples.gap_mol, Examples.gap_lines, "gap"%string.
    split; [exact Examples.pdb_to_data_gap|]. split.
    - constructor; [|constructor]. vm_compute. repeat split; discriminate.
    - left. eexists. split; [reflexivity|]. vm_compute. reflexivity. }
  assert (Hidx : - len (data (super gap_dataset)) <= 0
                 < len (data (super gap_dataset)))
    by (vm_compute; split; [discriminate|reflexivity]).
  split; [split; [exact Hmax|split; [exact Hbuilt|exact Hidx]]|].
  exact (sampler_accepts_built_records gap_dataset 0 0 Hmax Hbuilt Hidx).
Defined.

(** Two sidechain atoms, no backbone atom. *)
Definition sidechain_only : Data :=
  {| atom_type := Some [6; 6];
     pos := Some [(0, 0, 0); (1, 0, 0)];
     edge_index := Some [(0, 1); (1, 0)];
     edge_type := Some [1; 1];
     is_alpha := Some [false; false];
     rdmol := None; name := None;
     is_sidechain := Some [true; true];
     atom2res := Some [0; 0];
     atom2alpha_index := Some [-1; -1];
     smiles := None; idx := None; totalenergy := None; boltzmannweight := None;
     pos_ref := None; num_pos_ref := None |}.

Definition sidechain_only_dataset (fixed : bool) : SidechainConformationDataset :=
  {| super := {| data := [sidechain_only]; hasattr_idx := false; transform := None |};
     cutoff := 10; max_residue := 5000; fix_subgraph := fixed |}.

Lemma sampler_needs_backbone_witness :
  (item (data (super (sidechain_only_dataset false))) 0 = Returned sidechain_only /\
   length [true; true] = length [(0, 0, 0); (1, 0, 0)] /\
   Forall (fun b => b = true) [true; true]) /\
  getitem (sidechain_only_dataset false) 0 0 = Raised RuntimeError /\
  getitem (sidechain_only_dataset true) 0 0 = Raised IndexError.
Proof.
  assert (Hall : Forall (fun b => b = true) [true; true])
    by (repeat constructor).
  split; [split; [reflexivity|split; [reflexivity|exact Hall]]|]. split.
  - exact (sampler_needs_backbone (sidechain_only_dataset false) 0 0 sidechain_only
             [true; true] [(0, 0, 0); (1, 0, 0)] [(0, 1); (1, 0)] [0; 0]
             eq_refl eq_refl eq_refl eq_refl eq_refl eq_refl Hall).
  - exact (sampler_needs_backbone (sidechain_only_dataset true) 0 0 sidechain_only
             [true; true] [(0, 0, 0); (1, 0, 0)] [(0, 1); (1, 0)] [0; 0]
             eq_refl eq_refl eq_refl eq_refl eq_refl eq_refl Hall).
Defined.

(** The record of four atoms with room for one residue only. *)
Definition one_residue_dataset : SidechainConformationDataset :=
  {| super := {| data := [Examples.four_atoms]; hasattr_idx := false;
                 transform := None |};
     cutoff := 10; max_residue := 1; fix_subgraph := false |}.

Lemma sampler_residue_out_of_range_witness :
  (item (data (super one_residue_dataset)) 0 = Returned Examples.four_atoms /\
   false ∈ [false; true; false; true] /\
   Exists (fun r => ~ (0 <= r < max_residue one_residue_dataset)) [0; 0; 1; 1]) /\
  getitem one_residue_dataset 0 0 = Raised RuntimeError.
Proof.
  assert (Hbb : false ∈ [false; true; false; true]) by left.
  assert (Hex : Exists (fun r => ~ (0 <= r < max_residue one_residue_dataset))
                       [0; 0; 1; 1]).
  { right. right. left. simpl. lia. }
  split; [split; [reflexivity|split; [exact Hbb|exact Hex]]|].
  exact (sampler_residue_out_of_range one_residue_dataset 0 0 Examples.four_atoms
           [false; true; false; true]
           [(0, 0, 0); (20, 0, 0); (100, 0, 0); (101, 0, 0)]
           [(0, 1); (1, 0); (1, 2); (2, 1); (2, 3); (3, 2)] [0; 0; 1; 1]
           eq_refl eq_refl eq_refl eq_refl eq_refl eq_refl eq_refl Hbb Hex).
Defined.

Lemma sampler_edge_filter_witness :
  getitem Examples.four_atoms_dataset 0 0 = Returned (Some Examples.residue_0) /\
  exists s ei' et',
    subgraph_sampling Examples.four_atoms_dataset Examples.four_atoms 0 = Returned s /\
    edge_index Examples.residue_0 = Some ei' /\
    edge_type Examples.residue_0 = Some et' /\
    et' = select (is_keep_edge s) [1; 1; 1; 1; 2; 2] /\
    len ei' = count (is_keep_edge s).
Proof.
  split; [exact Examples.getitem_four_atoms|].
  destruct (sampler_edge_filter _ _ _ _ Examples.getitem_four_atoms)
    as (d & s & sub0 & ei & et & ei' & et' & Hd & Hs & _ & Hsub & _ & Het & Hei'
        & Het' & _ & _ & _ & Hsel & Hlen & _).
  simpl in Hsub. subst sub0. injection Hd as <-. injection Het as <-.
  exists s, ei', et'. split_and!; assumption.
Defined.

Lemma sampler_preserves_edge_order_witness :
  getitem Examples.four_atoms_dataset 0 0 = Returned (Some Examples.residue_0) /\
  Sorted Z.lt ((fun e : Z * Z => e.1 * 2 + e.2) <$> [(0, 1); (1, 0)]).
Proof.
  split; [exact Examples.getitem_four_atoms|].
  destruct (sampler_preserves_edge_order _ _ _ _ Examples.getitem_four_atoms)
    as (d & s & sub0 & pos0 & pos' & ei & ei' & Hd & _ & _ & Hsub & Hpos & Hei
        & Hpos' & Hei' & Horder).
  simpl in Hsub. subst sub0. injection Hd as <-.
  injection Hpos as <-. injection Hei as <-.
  injection Hpos' as <-. injection Hei' as <-.
  apply Horder.
  - repeat constructor; simpl; lia.
  - repeat constructor; simpl; lia.
Defined.

End MoreExamples.
